(** * Plant-It backend: projects, group membership, tasking and their routes

    A shallow embedding of the concept classes of the server
    ([ProjectConcept], [GroupItemConcept], [TaskingConcept]) and of the
    route layer that synchronises them ([Routes]), followed by the
    properties of the cascade, of the authorisation checks and of the
    uniqueness checks.

    Every [async] method is a computation in the monad [M]: it reads and
    writes the document store, may throw, and every call to the store is
    recorded in order.  [await e1; e2] is sequencing in [M]. *)

From Stdlib Require Import List String Bool Arith Lia.
Import ListNotations.
Local Open Scope string_scope.
Local Open Scope list_scope.

(** ** Values and object literals *)

(** [ObjectId]: the store's opaque identifier.  Two identifiers are equal
    exactly when their [toString()] renderings are, so the comparison
    [a.toString() !== b.toString()] is [negb (a =? b)]. *)
Definition ObjectId := nat.
Definition Date := nat.

Inductive Value :=
| VUndefined
| VNull
| VBool (b : bool)
| VString (s : string)
| VObjectId (o : ObjectId)
| VDate (d : Date).

Definition Value_eqb (a b : Value) : bool :=
  match a, b with
  | VUndefined, VUndefined => true
  | VNull, VNull => true
  | VBool x, VBool y => Bool.eqb x y
  | VString x, VString y => String.eqb x y
  | VObjectId x, VObjectId y => Nat.eqb x y
  | VDate x, VDate y => Nat.eqb x y
  | _, _ => false
  end.

(** An object literal such as [{ group, item }] or [{ _id }]: the keys in
    the order they are written, each with its value. *)
Definition Obj := list (string * Value).

(** ** Documents *)

(** Modelled from the spec: [BaseDoc] of [framework/doc], with the fields
    of the schema that extends it; every entity has an opaque unique
    identifier, a creation date and a last-update date. *)
Record Doc (T : Type) := mkDoc {
  _id : ObjectId;
  dateCreated : Date;
  dateUpdated : Date;
  fields : T
}.
Arguments mkDoc {T}.
Arguments _id {T}.
Arguments dateCreated {T}.
Arguments dateUpdated {T}.
Arguments fields {T}.

(** What the generic collection needs to know of a schema: how to read a
    field by its key and how to set it. *)
Class Schema (T : Type) := {
  getField : string -> T -> Value;
  setField : string -> Value -> T -> T
}.

(** [ProjectDoc] *)
Record ProjectFields := mkProject {
  creator : ObjectId;
  name : string
}.
Definition ProjectDoc := Doc ProjectFields.

#[global] Instance ProjectSchema : Schema ProjectFields := {
  getField k p :=
    if k =? "creator" then VObjectId (creator p)
    else if k =? "name" then VString (name p)
    else VNull;
  setField k v p :=
    if k =? "creator" then
      match v with
      | VObjectId c => mkProject c (name p)
      | _ => p
      end
    else if k =? "name" then
      match v with
      | VString n => mkProject (creator p) n
      | _ => p
      end
    else p
}.

(** [GroupItemDoc] *)
Record GroupItemFields := mkGroupItem {
  group : ObjectId;
  item : ObjectId
}.
Definition GroupItemDoc := Doc GroupItemFields.

#[global] Instance GroupItemSchema : Schema GroupItemFields := {
  getField k g :=
    if k =? "group" then VObjectId (group g)
    else if k =? "item" then VObjectId (item g)
    else VNull;
  setField k v g :=
    if k =? "group" then
      match v with
      | VObjectId x => mkGroupItem x (item g)
      | _ => g
      end
    else if k =? "item" then
      match v with
      | VObjectId x => mkGroupItem (group g) x
      | _ => g
      end
    else g
}.

(** [TaskDoc]; [assignee?: ObjectId] is an optional field. *)
Record TaskFields := mkTask {
  description : string;
  project : ObjectId;
  assignee : option ObjectId;
  completion : bool
}.
Definition TaskDoc := Doc TaskFields.

#[global] Instance TaskSchema : Schema TaskFields := {
  getField k t :=
    if k =? "description" then VString (description t)
    else if k =? "project" then VObjectId (project t)
    else if k =? "assignee" then
      match assignee t with
      | Some a => VObjectId a
      | None => VNull
      end
    else if k =? "completion" then VBool (completion t)
    else VNull;
  setField k v t :=
    if k =? "description" then
      match v with
      | VString d => mkTask d (project t) (assignee t) (completion t)
      | _ => t
      end
    else if k =? "project" then
      match v with
      | VObjectId p => mkTask (description t) p (assignee t) (completion t)
      | _ => t
      end
    else if k =? "assignee" then
      match v with
      | VObjectId a => mkTask (description t) (project t) (Some a) (completion t)
      | VNull => mkTask (description t) (project t) None (completion t)
      | _ => t
      end
    else if k =? "completion" then
      match v with
      | VBool c => mkTask (description t) (project t) (assignee t) c
      | _ => t
      end
    else t
}.

(** ** The store and the world around it *)

(** The collections of the store that the routes of projects and tasks
    name: the projects, the membership links, the tasks, and the assignee
    links of tasks (group = task, item = user). *)
Record DB := mkDB {
  projects : list ProjectDoc;
  projectmembers : list GroupItemDoc;
  taskassignees : list GroupItemDoc;
  tasks : list TaskDoc
}.

Inductive StoreCall :=
| CreateOne (c : string)
| ReadOne (c : string) (filter : Obj)
| ReadMany (c : string) (filter : Obj)
| PartialUpdateOne (c : string) (filter update : Obj)
| DeleteOne (c : string) (filter : Obj)
| DeleteMany (c : string) (filter : Obj).

(** The store, the state of the identifier generator, the clock, and the
    calls made to the store so far, oldest first. *)
Record World := mkWorld {
  db : DB;
  next_oid : ObjectId;
  clock : Date;
  calls : list StoreCall
}.

(** ** Errors *)

(** The text of an error, with the values its template interpolates. *)
Inductive Message :=
| ProjectDoesNotExist (p : ObjectId)
| ProjectNameExists (n : string)
| ItemNotInGroup (i g : ObjectId)
| DidNotSpecifyProject
| TaskNotCreated
| TaskDoesNotExist
| MustBeLoggedIn
| CannotReadPropertiesOfUndefined (property : string).

(** Modelled from the spec: [NotFoundError] and [NotAllowedError] of
    [concepts/errors], which is not part of the sources, and the error of a
    missing session user; [UserCreatorNotMatchError] is the class the
    project concept declares, and [TypeError] is the error of the language
    itself for reading a property of [undefined]. *)
Inductive Error :=
| NotFoundError (m : Message)
| NotAllowedError (m : Message)
| UserCreatorNotMatchError (user project_id : ObjectId)
| UnauthenticatedError (m : Message)
| TypeError (m : Message).

(** [class UserCreatorNotMatchError extends NotAllowedError] *)
Definition isNotAllowedError (e : Error) : bool :=
  match e with
  | NotAllowedError _ | UserCreatorNotMatchError _ _ => true
  | _ => false
  end.

(** ** The monad of the asynchronous methods *)

Inductive Result (A : Type) :=
| Ok (a : A)
| Throw (e : Error).
Arguments Ok {A}.
Arguments Throw {A}.

Definition M (A : Type) := World -> Result A * World.

Definition ret {A} (a : A) : M A := fun w => (Ok a, w).

Definition throw {A} (e : Error) : M A := fun w => (Throw e, w).

Definition bind {A B} (m : M A) (k : A -> M B) : M B :=
  fun w =>
    match m w with
    | (Ok a, w') => k a w'
    | (Throw e, w') => (Throw e, w')
    end.

Notation "x <- m ;; k" := (bind m (fun x => k))
  (at level 61, m at next level, right associativity).
Notation "m ;;; k" := (bind m (fun _ => k))
  (at level 61, right associativity).

(** [for (let i = 0; i < xs.length; i++) { await body(xs[i]) }] *)
Fixpoint forEach {A B} (xs : list A) (body : A -> M B) : M unit :=
  match xs with
  | [] => ret tt
  | x :: rest => body x ;;; forEach rest body
  end.

(** ** The generic document collection *)

(** [framework/doc], which defines [DocCollection] and [BaseDoc], is not
    part of the sources.  The spec gives the collection as create-one,
    read-one, read-many, partial-update-one, delete-one and delete-many,
    keyed by an opaque unique identifier and by field filters, and gives
    every document an identifier, a creation date and a last-update date.
    Here documents are kept in insertion order, a filter matches a document
    when every key of the filter has the filter's value in the document,
    and the one-document operations act on the first match. *)

(** Modelled from the spec: how [framework/doc] stores a value; the spec
    has clearing an optional field set it to the empty state, so
    [undefined] is stored as the empty value. *)
Definition bson (v : Value) : Value :=
  match v with
  | VUndefined => VNull
  | _ => v
  end.

(** Modelled from the spec: the field of a document that a key of a filter
    of [framework/doc] names, base fields included. *)
Definition docField {T} `{Schema T} (k : string) (d : Doc T) : Value :=
  if k =? "_id" then VObjectId (_id d)
  else if k =? "dateCreated" then VDate (dateCreated d)
  else if k =? "dateUpdated" then VDate (dateUpdated d)
  else getField k (fields d).

(** Modelled from the spec: the field filter of [framework/doc]. *)
Definition matches {T} `{Schema T} (filter : Obj) (d : Doc T) : bool :=
  forallb (fun kv => Value_eqb (docField (fst kv) d) (bson (snd kv))) filter.

(** Modelled from the spec: the partial update of [framework/doc] sets the
    fields the update names, in the order it names them, and no other. *)
Definition setFields {T} `{Schema T} (update : Obj) (t : T) : T :=
  fold_left (fun acc kv => setField (fst kv) (bson (snd kv)) acc) update t.

Fixpoint removeFirst {A} (f : A -> bool) (l : list A) : list A :=
  match l with
  | [] => []
  | x :: rest => if f x then rest else x :: removeFirst f rest
  end.

Fixpoint updateFirst {A} (f : A -> bool) (g : A -> A) (l : list A) : list A :=
  match l with
  | [] => []
  | x :: rest => if f x then g x :: rest else x :: updateFirst f g rest
  end.

(** A collection of the store: its name and where its documents live. *)
Record DocCollection (T : Type) := mkColl {
  collectionName : string;
  docs : DB -> list (Doc T);
  setDocs : list (Doc T) -> DB -> DB;
  docs_setDocs : forall l d, docs (setDocs l d) = l
}.
Arguments collectionName {T}.
Arguments docs {T}.
Arguments setDocs {T}.
Arguments docs_setDocs {T}.

Definition logged (c : StoreCall) (w : World) : World :=
  mkWorld (db w) (next_oid w) (clock w) (calls w ++ [c]).

Section DocCollectionOps.
Context {T : Type} `{Schema T}.
Variable c : DocCollection T.

(** Modelled from the spec: [DocCollection.createOne] of [framework/doc];
    the new document gets a fresh identifier and the two dates and comes
    last; the identifier is returned. *)
Definition createOne (item : T) : M ObjectId := fun w =>
  let d := mkDoc (next_oid w) (clock w) (clock w) item in
  (Ok (next_oid w),
   mkWorld (setDocs c (docs c (db w) ++ [d]) (db w))
           (S (next_oid w)) (S (clock w))
           (calls w ++ [CreateOne (collectionName c)])).

(** Modelled from the spec: [DocCollection.readOne] of [framework/doc];
    the first match, or none. *)
Definition readOne (filter : Obj) : M (option (Doc T)) := fun w =>
  (Ok (find (matches filter) (docs c (db w))),
   logged (ReadOne (collectionName c) filter) w).

(** Modelled from the spec: [DocCollection.readMany] of [framework/doc];
    all the matches, in order. *)
Definition readMany (filter : Obj) : M (list (Doc T)) := fun w =>
  (Ok (List.filter (matches filter) (docs c (db w))),
   logged (ReadMany (collectionName c) filter) w).

(** Modelled from the spec: [DocCollection.partialUpdateOne] of
    [framework/doc]; the first match gets the fields of the update and a
    new last-update date; without a match nothing is stored. *)
Definition partialUpdateOne (filter update : Obj) : M unit := fun w =>
  let touch d :=
    mkDoc (_id d) (dateCreated d) (clock w) (setFields update (fields d)) in
  (Ok tt,
   mkWorld (setDocs c (updateFirst (matches filter) touch (docs c (db w))) (db w))
           (next_oid w) (S (clock w))
           (calls w ++ [PartialUpdateOne (collectionName c) filter update])).

(** Modelled from the spec: [DocCollection.deleteOne] of [framework/doc];
    the first match goes. *)
Definition deleteOne (filter : Obj) : M unit := fun w =>
  (Ok tt,
   mkWorld (setDocs c (removeFirst (matches filter) (docs c (db w))) (db w))
           (next_oid w) (clock w)
           (calls w ++ [DeleteOne (collectionName c) filter])).

(** Modelled from the spec: [DocCollection.deleteMany] of [framework/doc];
    all the matches go. *)
Definition deleteMany (filter : Obj) : M unit := fun w =>
  (Ok tt,
   mkWorld (setDocs c (List.filter (fun d => negb (matches filter d)) (docs c (db w))) (db w))
           (next_oid w) (clock w)
           (calls w ++ [DeleteMany (collectionName c) filter])).
End DocCollectionOps.

(** The collections, by name. *)
Definition projects_collection : DocCollection ProjectFields :=
  mkColl ProjectFields "projects" projects
    (fun l d => mkDB l (projectmembers d) (taskassignees d) (tasks d))
    (fun _ _ => eq_refl).

Definition projectmembers_collection : DocCollection GroupItemFields :=
  mkColl GroupItemFields "projectmembers" projectmembers
    (fun l d => mkDB (projects d) l (taskassignees d) (tasks d))
    (fun _ _ => eq_refl).

Definition tasks_collection : DocCollection TaskFields :=
  mkColl TaskFields "tasks" tasks
    (fun l d => mkDB (projects d) (projectmembers d) (taskassignees d) l)
    (fun _ _ => eq_refl).

(** ** concept: Project *)
Module ProjectConcept.

Record t := new { projects : DocCollection ProjectFields }.

Definition assertProjectNameUnique (self : t) (name : string) : M unit :=
  found <- readOne (projects self) [("name", VString name)] ;;
  match found with
  | Some _ => throw (NotAllowedError (ProjectNameExists name))
  | None => ret tt
  end.

Definition create (self : t) (creator : ObjectId) (name : string)
  : M (string * option ProjectDoc) :=
  assertProjectNameUnique self name ;;;
  id <- createOne (projects self) (mkProject creator name) ;;
  project <- readOne (projects self) [("_id", VObjectId id)] ;;
  ret ("Project successfully created!", project).

Definition getProject (self : t) (id : ObjectId) : M (option ProjectDoc) :=
  readOne (projects self) [("_id", VObjectId id)].

Definition getProjectByName (self : t) (name : string) : M (list ProjectDoc) :=
  readMany (projects self) [("name", VString name)].

Definition updateProjectName (self : t) (id : ObjectId) (name : string) : M string :=
  assertProjectNameUnique self name ;;;
  partialUpdateOne (projects self) [("_id", VObjectId id)] [("name", VString name)] ;;;
  ret "Project name successfully updated!".

Definition updateProjectCreator (self : t) (id creator : ObjectId) : M string :=
  partialUpdateOne (projects self) [("_id", VObjectId id)] [("creator", VObjectId creator)] ;;;
  ret "Project manager successfully updated!".

Definition deleteProject (self : t) (id : ObjectId) : M string :=
  deleteOne (projects self) [("_id", VObjectId id)] ;;;
  ret "Project successfully deleted!".

Definition assertUserIsCreator (self : t) (id user : ObjectId) : M unit :=
  found <- readOne (projects self) [("_id", VObjectId id)] ;;
  match found with
  | None => throw (NotFoundError (ProjectDoesNotExist id))
  | Some project =>
      if negb (creator (fields project) =? user)%nat
      then throw (UserCreatorNotMatchError user id)
      else ret tt
  end.

End ProjectConcept.

(** ** concept: Grouping *)
Module GroupItemConcept.

Record t := new { groupitems : DocCollection GroupItemFields }.

Definition addGroupItem (self : t) (group item : ObjectId) : M string :=
  createOne (groupitems self) (mkGroupItem group item) ;;;
  ret "Added item to group!".

Definition removeGroupItem (self : t) (group item : ObjectId) : M string :=
  deleteOne (groupitems self) [("group", VObjectId group); ("item", VObjectId item)] ;;;
  ret "Removed item from group!".

(** [readMany({ group }, { projection: { item: 1 } })]: of each document
    only its identifier and its item. *)
Definition getItemsInGroup (self : t) (group : ObjectId) : M (list (ObjectId * ObjectId)) :=
  items <- readMany (groupitems self) [("group", VObjectId group)] ;;
  ret (map (fun d => (_id d, item (fields d))) items).

Definition getGroupsForItem (self : t) (item : ObjectId) : M (list GroupItemDoc) :=
  readMany (groupitems self) [("item", VObjectId item)].

Definition deleteAllItemsInGroup (self : t) (group : ObjectId) : M string :=
  deleteMany (groupitems self) [("group", VObjectId group)] ;;;
  ret "Deleted all instances of group!".

Definition deleteItemFromAllGroups (self : t) (item : ObjectId) : M string :=
  deleteMany (groupitems self) [("item", VObjectId item)] ;;;
  ret "Deleted all instances of item!".

Definition assertItemInGroup (self : t) (group item : ObjectId) : M unit :=
  pair <- readOne (groupitems self) [("group", VObjectId group); ("item", VObjectId item)] ;;
  match pair with
  | None => throw (NotFoundError (ItemNotInGroup item group))
  | Some _ => ret tt
  end.

End GroupItemConcept.

(** ** concept: Tasking *)
Module TaskingConcept.

Record t := new { tasks : DocCollection TaskFields }.

Definition create (self : t) (description : string) (project : ObjectId)
           (assignee : option ObjectId) : M (string * option TaskDoc) :=
  let completion := false in
  id <- createOne (tasks self) (mkTask description project assignee completion) ;;
  task <- readOne (tasks self) [("_id", VObjectId id)] ;;
  ret ("Task successfully created!", task).

Definition delete (self : t) (id : ObjectId) : M string :=
  deleteOne (tasks self) [("_id", VObjectId id)] ;;;
  ret "Task deleted successfully!".

Definition deleteTasksForProject (self : t) (project : ObjectId) : M string :=
  deleteMany (tasks self) [("project", VObjectId project)] ;;;
  ret "Tasks for project successfully deleted.".

Definition updateDescription (self : t) (id : ObjectId) (description : string) : M string :=
  partialUpdateOne (tasks self) [("_id", VObjectId id)] [("description", VString description)] ;;;
  ret "Task description successfully updated!".

Definition updateAssignee (self : t) (id assignee : ObjectId) : M string :=
  partialUpdateOne (tasks self) [("_id", VObjectId id)] [("assignee", VObjectId assignee)] ;;;
  ret "Task assignee successfully updated!".

Definition getTask (self : t) (id : ObjectId) : M (option TaskDoc) :=
  readOne (tasks self) [("_id", VObjectId id)].

Definition unassignTask (self : t) (id : ObjectId) : M string :=
  let assignee := VUndefined in
  partialUpdateOne (tasks self) [("_id", VObjectId id)] [("assignee", assignee)] ;;;
  ret "TODO: partial update to null or undefined?".

Definition setCompletionStatus (self : t) (id : ObjectId) (completion : bool) : M string :=
  partialUpdateOne (tasks self) [("_id", VObjectId id)] [("completion", VBool completion)] ;;;
  if completion then ret "Task marked as completed!"
  else ret "Task marked incomplete.".

Definition getAllTasksForProject (self : t) (project : ObjectId) : M (list TaskDoc) :=
  readMany (tasks self) [("project", VObjectId project)].

Definition getAllTasksForUser (self : t) (assignee : ObjectId) : M (list TaskDoc) :=
  readMany (tasks self) [("assignee", VObjectId assignee)].

End TaskingConcept.

(** ** Sessions *)

Record SessionDoc := mkSession { user : option ObjectId }.

Module SessioningConcept.

(** Modelled from the spec: [concepts/sessioning] is not part of the
    sources; [getUser(session)] gives the identifier of the logged-in
    user and fails when the session has no active user. *)
Definition getUser (session : SessionDoc) : M ObjectId :=
  match user session with
  | Some u => ret u
  | None => throw (UnauthenticatedError MustBeLoggedIn)
  end.

End SessioningConcept.

(** ** The app: the concepts instantiated *)

Definition Project := ProjectConcept.new projects_collection.
Definition ProjectMember := GroupItemConcept.new projectmembers_collection.
Definition Task := TaskingConcept.new tasks_collection.

(** [routes.ts] imports [TaskAssignee] from the app, and [app.ts] exports
    no binding of that name: what the routes hold under it is [undefined]. *)
Definition TaskAssignee : option GroupItemConcept.t := None.

(** [o.method(...)] on an imported concept: when [o] is [undefined],
    reading the method throws a TypeError and the method is not called. *)
Definition invoke {A} (o : option GroupItemConcept.t) (method : string)
           (call : GroupItemConcept.t -> M A) : M A :=
  match o with
  | Some self => call self
  | None => throw (TypeError (CannotReadPropertiesOfUndefined method))
  end.

(** ** The routes *)

(** What [GET /projects] answers: one document (or none) when the project
    is looked up by identifier, an array when it is looked up by name. *)
Inductive Fetched :=
| ById (found : option ProjectDoc)
| ByName (found : list ProjectDoc).

(** [if (s)] for an optional string: absent and empty are both false. *)
Definition given (s : option string) : bool :=
  match s with
  | Some x => negb (x =? "")
  | None => false
  end.

(** Identifiers reach a route as strings and [new ObjectId(id)] parses
    them; the routes below take the parsed identifier.  An optional
    identifier is [None] when it is absent or the empty string, the two
    cases where [if (id)] is false, and a parsed identifier otherwise. *)
Module Routes.

Definition createProject (session : SessionDoc) (name : string)
  : M (string * option ProjectDoc) :=
  user <- SessioningConcept.getUser session ;;
  created <- ProjectConcept.create Project user name ;;
  let project := snd created in
  match project with
  | Some p => GroupItemConcept.addGroupItem ProjectMember (_id p) user ;;; ret tt
  | None => ret tt
  end ;;;
  ret ("Successfully created project!", project).

Definition deleteProject (session : SessionDoc) (id : ObjectId) : M string :=
  user <- SessioningConcept.getUser session ;;
  let projectId := id in
  ProjectConcept.assertUserIsCreator Project projectId user ;;;
  GroupItemConcept.deleteAllItemsInGroup ProjectMember projectId ;;;
  projectTasks <- TaskingConcept.getAllTasksForProject Task projectId ;;
  (* [if (projectTasks)]: an array, also an empty one, is true *)
  forEach projectTasks (fun task =>
    let taskId := _id task in
    invoke TaskAssignee "deleteAllItemsInGroup" (fun self =>
      GroupItemConcept.deleteAllItemsInGroup self taskId)) ;;;
  TaskingConcept.deleteTasksForProject Task projectId ;;;
  ProjectConcept.deleteProject Project projectId.

Definition getProject (session : SessionDoc) (name : option string)
           (id : option ObjectId) : M Fetched :=
  user <- SessioningConcept.getUser session ;;
  match id with
  | Some projectId =>
      GroupItemConcept.assertItemInGroup ProjectMember projectId user ;;;
      project <- ProjectConcept.getProject Project projectId ;;
      ret (ById project)
  | None =>
      if given name then
        match name with
        | Some n =>
            project <- ProjectConcept.getProjectByName Project n ;;
            ret (ByName project)
        | None => throw (NotAllowedError DidNotSpecifyProject)
        end
      else throw (NotAllowedError DidNotSpecifyProject)
  end.

Definition getUserProjects (session : SessionDoc) : M (list GroupItemDoc) :=
  user <- SessioningConcept.getUser session ;;
  GroupItemConcept.getGroupsForItem ProjectMember user.

Definition updateProjectName (session : SessionDoc) (id : ObjectId)
           (name : string) : M string :=
  user <- SessioningConcept.getUser session ;;
  let projectId := id in
  ProjectConcept.assertUserIsCreator Project projectId user ;;;
  ProjectConcept.updateProjectName Project projectId name.

Definition updateProjectManager (session : SessionDoc) (id manager : ObjectId)
  : M string :=
  user <- SessioningConcept.getUser session ;;
  let projectId := id in
  ProjectConcept.assertUserIsCreator Project projectId user ;;;
  let managerId := manager in
  GroupItemConcept.assertItemInGroup ProjectMember projectId managerId ;;;
  ProjectConcept.updateProjectCreator Project projectId managerId.

Definition addMemberToProject (session : SessionDoc) (id member : ObjectId)
  : M string :=
  user <- SessioningConcept.getUser session ;;
  let projectId := id in
  let newMember := member in
  ProjectConcept.assertUserIsCreator Project projectId user ;;;
  GroupItemConcept.addGroupItem ProjectMember projectId newMember.

Definition deleteMemberFromProject (session : SessionDoc) (id member : ObjectId)
  : M string :=
  user <- SessioningConcept.getUser session ;;
  let projectId := id in
  let memberToDelete := member in
  ProjectConcept.assertUserIsCreator Project projectId user ;;;
  invoke TaskAssignee "deleteItemFromAllGroups" (fun self =>
    GroupItemConcept.deleteItemFromAllGroups self memberToDelete) ;;;
  GroupItemConcept.removeGroupItem ProjectMember projectId memberToDelete.

Definition getAllMembersInProject (session : SessionDoc) (id : ObjectId)
  : M (list (ObjectId * ObjectId)) :=
  user <- SessioningConcept.getUser session ;;
  let projectId := id in
  GroupItemConcept.assertItemInGroup ProjectMember projectId user ;;;
  GroupItemConcept.getItemsInGroup ProjectMember projectId.

Definition createTask (session : SessionDoc) (project : ObjectId)
           (description : string) (assignee : option ObjectId)
  : M (string * option TaskDoc) :=
  user <- SessioningConcept.getUser session ;;
  let projectId := project in
  ProjectConcept.assertUserIsCreator Project projectId user ;;;
  task <- TaskingConcept.create Task description projectId None ;;
  match assignee with
  | Some assigneeId =>
      GroupItemConcept.assertItemInGroup ProjectMember projectId assigneeId ;;;
      match snd task with
      | None => throw (NotAllowedError TaskNotCreated)
      | Some created =>
          invoke TaskAssignee "addGroupItem" (fun self =>
            GroupItemConcept.addGroupItem self (_id created) assigneeId) ;;;
          ret tt
      end
  | None => ret tt
  end ;;;
  ret task.

(** [(await Task.getTask(taskId))?.project], then [if (!projectId)]: an
    identifier, when there is one, is an object and never false. *)
Definition projectOfTask (taskId : ObjectId) : M ObjectId :=
  found <- TaskingConcept.getTask Task taskId ;;
  match option_map (fun t => project (fields t)) found with
  | None => throw (NotAllowedError TaskDoesNotExist)
  | Some projectId => ret projectId
  end.

Definition deleteTask (session : SessionDoc) (task : ObjectId) : M unit :=
  user <- SessioningConcept.getUser session ;;
  let taskId := task in
  projectId <- projectOfTask taskId ;;
  ProjectConcept.assertUserIsCreator Project projectId user ;;;
  invoke TaskAssignee "deleteAllItemsInGroup" (fun self =>
    GroupItemConcept.deleteAllItemsInGroup self taskId) ;;;
  TaskingConcept.delete Task taskId ;;;
  ret tt.

Definition getTasksForProject (session : SessionDoc) (project : ObjectId)
  : M (list TaskDoc) :=
  user <- SessioningConcept.getUser session ;;
  let projectId := project in
  GroupItemConcept.assertItemInGroup ProjectMember projectId user ;;;
  TaskingConcept.getAllTasksForProject Task projectId.

Definition getTasksForUser (session : SessionDoc) : M (list GroupItemDoc) :=
  user <- SessioningConcept.getUser session ;;
  invoke TaskAssignee "getGroupsForItem" (fun self =>
    GroupItemConcept.getGroupsForItem self user).

Definition updateTaskDescription (session : SessionDoc) (task : ObjectId)
           (description : string) : M unit :=
  user <- SessioningConcept.getUser session ;;
  let taskId := task in
  projectId <- projectOfTask taskId ;;
  ProjectConcept.assertUserIsCreator Project projectId user ;;;
  TaskingConcept.updateDescription Task taskId description ;;;
  ret tt.

Definition addTaskAssignee (session : SessionDoc) (task assignee : ObjectId)
  : M string :=
  user <- SessioningConcept.getUser session ;;
  let taskId := task in
  projectId <- projectOfTask taskId ;;
  ProjectConcept.assertUserIsCreator Project projectId user ;;;
  let assigneeId := assignee in
  invoke TaskAssignee "addGroupItem" (fun self =>
    GroupItemConcept.addGroupItem self taskId assigneeId).

Definition unassignTask (session : SessionDoc) (task : ObjectId) : M string :=
  user <- SessioningConcept.getUser session ;;
  let taskId := task in
  projectId <- projectOfTask taskId ;;
  ProjectConcept.assertUserIsCreator Project projectId user ;;;
  invoke TaskAssignee "deleteAllItemsInGroup" (fun self =>
    GroupItemConcept.deleteAllItemsInGroup self taskId).

Definition getAssigneesForTask (session : SessionDoc) (task : ObjectId)
  : M (list (ObjectId * ObjectId)) :=
  user <- SessioningConcept.getUser session ;;
  let taskId := task in
  projectId <- projectOfTask taskId ;;
  GroupItemConcept.assertItemInGroup ProjectMember projectId user ;;;
  invoke TaskAssignee "getItemsInGroup" (fun self =>
    GroupItemConcept.getItemsInGroup self taskId).

End Routes.

(** ** Running a computation *)

Definition outcome {A} (m : M A) (w : World) : Result A := fst (m w).
Definition after {A} (m : M A) (w : World) : World := snd (m w).

(** A computation throws when its outcome is an error. *)
Definition throws {A} (m : M A) (w : World) : Prop :=
  exists e, outcome m w = Throw e.

(** The first document with the identifier [id]: what a read by [{ _id }]
    finds. *)
Definition lookup {T} (id : ObjectId) (l : list (Doc T)) : option (Doc T) :=
  find (fun d => (_id d =? id)%nat) l.

(** Between [w] and [w'] nothing was stored, no identifier was issued and
    no date was taken. *)
Definition untouched (w w' : World) : Prop :=
  db w' = db w /\ next_oid w' = next_oid w /\ clock w' = clock w.

(** The route is refused to [u] as not the creator of the project [pid]:
    it throws the creator-mismatch error, which is a NotAllowed error, and
    leaves the store as it was. *)
Definition refused {A} (route : M A) (u pid : ObjectId) (w : World) : Prop :=
  outcome route w = Throw (UserCreatorNotMatchError u pid)
  /\ isNotAllowedError (UserCreatorNotMatchError u pid) = true
  /\ untouched w (after route w).

(** The tasks of the project [pid], in insertion order. *)
Definition tasks_of (pid : ObjectId) (w : World) : list TaskDoc :=
  filter (fun t => (project (fields t) =? pid)%nat) (tasks (db w)).

(** The world in which the route stops when the project has a task: the
    membership links of the project are deleted, nothing else is. *)
Definition stopped_deletion (pid : ObjectId) (w : World) : World :=
  mkWorld
    (mkDB (projects (db w))
          (filter (fun d => negb (matches [("group", VObjectId pid)] d))
                  (projectmembers (db w)))
          (taskassignees (db w))
          (tasks (db w)))
    (next_oid w) (clock w)
    (calls w ++ [ReadOne "projects" [("_id", VObjectId pid)];
                 DeleteMany "projectmembers" [("group", VObjectId pid)];
                 ReadMany "tasks" [("project", VObjectId pid)]]).

(** The world after the cascade of a project that has no task. *)
Definition finished_deletion (pid : ObjectId) (w : World) : World :=
  mkWorld
    (mkDB (removeFirst (matches [("_id", VObjectId pid)]) (projects (db w)))
          (filter (fun d => negb (matches [("group", VObjectId pid)] d))
                  (projectmembers (db w)))
          (taskassignees (db w))
          (filter (fun d => negb (matches [("project", VObjectId pid)] d))
                  (tasks (db w))))
    (next_oid w) (clock w)
    (calls w ++ [ReadOne "projects" [("_id", VObjectId pid)];
                 DeleteMany "projectmembers" [("group", VObjectId pid)];
                 ReadMany "tasks" [("project", VObjectId pid)];
                 DeleteMany "tasks" [("project", VObjectId pid)];
                 DeleteOne "projects" [("_id", VObjectId pid)]]).

(** Fetching the project [p] by its name, without an identifier, returns
    it: the route answers with an array that has [p] in it. *)
Definition fetched_by_name (session : SessionDoc) (p : ProjectDoc) (w : World) : Prop :=
  exists ps,
    outcome (Routes.getProject session (Some (name (fields p))) None) w = Ok (ByName ps)
    /\ In p ps.

(** Some record of the concept's collection links the item [i] to the
    group [g]. *)
Definition linked (self : GroupItemConcept.t) (g i : ObjectId) (w : World) : Prop :=
  exists d, In d (docs (GroupItemConcept.groupitems self) (db w))
            /\ group (fields d) = g /\ item (fields d) = i.

(** Some assignee link of the store links the user [i] to the task [g]. *)
Definition assigned (g i : ObjectId) (w : World) : Prop :=
  exists d, In d (taskassignees (db w))
            /\ group (fields d) = g /\ item (fields d) = i.

(** Some project of the concept's collection has the name [n]. *)
Definition name_taken (self : ProjectConcept.t) (n : string) (w : World) : Prop :=
  exists p, In p (docs (ProjectConcept.projects self) (db w))
            /\ name (fields p) = n.

(** The names of the projects of the collection, in insertion order. *)
Definition project_names (self : ProjectConcept.t) (w : World) : list string :=
  map (fun p => name (fields p)) (docs (ProjectConcept.projects self) (db w)).

(** Every identifier in the concept's collection was handed out before. *)
Definition project_ids_issued (self : ProjectConcept.t) (w : World) : Prop :=
  forall p, In p (docs (ProjectConcept.projects self) (db w)) -> _id p < next_oid w.

(** A run of [create] requests, one after the other, whether they fail or
    not: the world after the last one. *)
Definition create_all (self : ProjectConcept.t) (requests : list (ObjectId * string))
           (w : World) : World :=
  fold_left (fun acc r => after (ProjectConcept.create self (fst r) (snd r)) acc)
            requests w.

(** ** Sample worlds, as the routes build them *)

Definition empty_world : World := mkWorld (mkDB [] [] [] []) 100 0 [].

Definition alice : SessionDoc := mkSession (Some 1).
Definition bob : SessionDoc := mkSession (Some 2).

(** alice creates the project "roadmap" (identifier 100; her membership
    link is 101) and the task "design doc" in it (identifier 102). *)
Definition roadmap_world : World :=
  after (Routes.createTask alice 100 "design doc" None)
        (after (Routes.createProject alice "roadmap") empty_world).

Definition carol : SessionDoc := mkSession (Some 3).

(** From there: alice makes bob a member of "roadmap"; carol creates the
    project "garden" (104), makes bob a member of it and asks for the task
    "water" (107) in it, with bob as assignee; alice asks for the task
    "plan" (108) in "roadmap", with bob as assignee.  Both tasks are
    stored; both requests throw at the assignment. *)
Definition two_projects_world : World :=
  after (Routes.createTask alice 100 "plan" (Some 2))
    (after (Routes.createTask carol 104 "water" (Some 2))
      (after (Routes.addMemberToProject carol 104 2)
        (after (Routes.createProject carol "garden")
          (after (Routes.addMemberToProject alice 100 2) roadmap_world)))).

(** A store that holds an assignee link: alice's project "roadmap" with
    alice and bob as members, its task "design doc", and the link 104 of
    bob to that task. *)
Definition assigned_world : World :=
  mkWorld
    (mkDB [mkDoc 100 0 0 (mkProject 1 "roadmap")]
          [mkDoc 101 1 1 (mkGroupItem 100 1); mkDoc 103 3 3 (mkGroupItem 100 2)]
          [mkDoc 104 4 4 (mkGroupItem 102 2)]
          [mkDoc 102 2 2 (mkTask "design doc" 100 None false)])
    105 5 [].

(** alice creates a project whose name is the empty string. *)
Definition unnamed_world : World :=
  after (Routes.createProject alice "") empty_world.

(** ** Requests *)

(** The routes of projects and tasks, each with its arguments: what a
    client can ask of the server. *)
Inductive Request :=
| CreateProject (name : string)
| DeleteProject (id : ObjectId)
| GetProject (name : option string) (id : option ObjectId)
| GetUserProjects
| UpdateProjectName (id : ObjectId) (name : string)
| UpdateProjectManager (id manager : ObjectId)
| AddMemberToProject (id member : ObjectId)
| DeleteMemberFromProject (id member : ObjectId)
| GetAllMembersInProject (id : ObjectId)
| CreateTask (project : ObjectId) (description : string) (assignee : option ObjectId)
| DeleteTask (task : ObjectId)
| GetTasksForProject (project : ObjectId)
| GetTasksForUser
| UpdateTaskDescription (task : ObjectId) (description : string)
| AddTaskAssignee (task assignee : ObjectId)
| UnassignTask (task : ObjectId)
| GetAssigneesForTask (task : ObjectId).

(** The world after the route of the request has run, whether it returned
    or threw. *)
Definition serve (session : SessionDoc) (r : Request) (w : World) : World :=
  match r with
  | CreateProject name => after (Routes.createProject session name) w
  | DeleteProject id => after (Routes.deleteProject session id) w
  | GetProject name id => after (Routes.getProject session name id) w
  | GetUserProjects => after (Routes.getUserProjects session) w
  | UpdateProjectName id name => after (Routes.updateProjectName session id name) w
  | UpdateProjectManager id manager =>
      after (Routes.updateProjectManager session id manager) w
  | AddMemberToProject id member =>
      after (Routes.addMemberToProject session id member) w
  | DeleteMemberFromProject id member =>
      after (Routes.deleteMemberFromProject session id member) w
  | GetAllMembersInProject id => after (Routes.getAllMembersInProject session id) w
  | CreateTask project description assignee =>
      after (Routes.createTask session project description assignee) w
  | DeleteTask task => after (Routes.deleteTask session task) w
  | GetTasksForProject project => after (Routes.getTasksForProject session project) w
  | GetTasksForUser => after (Routes.getTasksForUser session) w
  | UpdateTaskDescription task description =>
      after (Routes.updateTaskDescription session task description) w
  | AddTaskAssignee task assignee =>
      after (Routes.addTaskAssignee session task assignee) w
  | UnassignTask task => after (Routes.unassignTask session task) w
  | GetAssigneesForTask task => after (Routes.getAssigneesForTask session task) w
  end.

(** The error a computation throws, if it throws. *)
Definition thrown {A} (m : M A) (w : World) : option Error :=
  match outcome m w with
  | Throw e => Some e
  | Ok _ => None
  end.

(** The error the route of the request throws, if it throws. *)
Definition failure (session : SessionDoc) (r : Request) (w : World) : option Error :=
  match r with
  | CreateProject name => thrown (Routes.createProject session name) w
  | DeleteProject id => thrown (Routes.deleteProject session id) w
  | GetProject name id => thrown (Routes.getProject session name id) w
  | GetUserProjects => thrown (Routes.getUserProjects session) w
  | UpdateProjectName id name => thrown (Routes.updateProjectName session id name) w
  | UpdateProjectManager id manager =>
      thrown (Routes.updateProjectManager session id manager) w
  | AddMemberToProject id member =>
      thrown (Routes.addMemberToProject session id member) w
  | DeleteMemberFromProject id member =>
      thrown (Routes.deleteMemberFromProject session id member) w
  | GetAllMembersInProject id => thrown (Routes.getAllMembersInProject session id) w
  | CreateTask project description assignee =>
      thrown (Routes.createTask session project description assignee) w
  | DeleteTask task => thrown (Routes.deleteTask session task) w
  | GetTasksForProject project => thrown (Routes.getTasksForProject session project) w
  | GetTasksForUser => thrown (Routes.getTasksForUser session) w
  | UpdateTaskDescription task description =>
      thrown (Routes.updateTaskDescription session task description) w
  | AddTaskAssignee task assignee =>
      thrown (Routes.addTaskAssignee session task assignee) w
  | UnassignTask task => thrown (Routes.unassignTask session task) w
  | GetAssigneesForTask task => thrown (Routes.getAssigneesForTask session task) w
  end.

(** The requests of a history, served one after the other. *)
Definition serve_all (history : list (SessionDoc * Request)) (w : World) : World :=
  fold_left (fun acc sr => serve (fst sr) (snd sr) acc) history w.

(** The request only reads. *)
Definition is_query (r : Request) : bool :=
  match r with
  | GetProject _ _ | GetUserProjects | GetAllMembersInProject _
  | GetTasksForProject _ | GetTasksForUser | GetAssigneesForTask _ => true
  | _ => false
  end.

(** The route throws [e] and leaves the store, the identifier generator
    and the clock as they were. *)
Definition rejected {A} (route : M A) (e : Error) (w : World) : Prop :=
  outcome route w = Throw e /\ untouched w (after route w).

(** The membership links of the user [i] to the project [g]. *)
Definition memberships (g i : ObjectId) (w : World) : list GroupItemDoc :=
  filter (fun d => (group (fields d) =? g)%nat && (item (fields d) =? i)%nat)
         (projectmembers (db w)).

(** ** Invariants of the store *)

(** No orphans: the project of every task is the identifier of a project
    of the store, the group of every assignee link is the identifier of a
    task of the store, and the group of every membership link is the
    identifier of a project of the store. *)
Definition tasks_have_projects (d : DB) : Prop :=
  incl (map (fun t => project (fields t)) (tasks d)) (map _id (projects d)).

Definition links_have_tasks (d : DB) : Prop :=
  incl (map (fun l => group (fields l)) (taskassignees d)) (map _id (tasks d)).

Definition members_have_projects (d : DB) : Prop :=
  incl (map (fun m => group (fields m)) (projectmembers d)) (map _id (projects d)).

Definition no_orphans (w : World) : Prop :=
  tasks_have_projects (db w) /\ links_have_tasks (db w) /\ members_have_projects (db w).

(** The identifiers of a collection are pairwise distinct and were all
    issued by the generator. *)
Definition ids_ok {T} (next : ObjectId) (l : list (Doc T)) : Prop :=
  NoDup (map _id l) /\ Forall (fun i => i < next) (map _id l).

Definition identifiers_ok (w : World) : Prop :=
  ids_ok (next_oid w) (projects (db w))
  /\ ids_ok (next_oid w) (projectmembers (db w))
  /\ ids_ok (next_oid w) (taskassignees (db w))
  /\ ids_ok (next_oid w) (tasks (db w)).

(** The names of the projects are pairwise distinct. *)
Definition names_distinct (w : World) : Prop :=
  NoDup (map (fun p => name (fields p)) (projects (db w))).

(** A history for the examples: alice creates "roadmap", makes bob a
    member, asks for a task with him as assignee, renames the project; bob
    asks to delete it; alice asks to delete the task, then the project. *)
Definition sample_history : list (SessionDoc * Request) :=
  [(alice, CreateProject "roadmap");
   (alice, AddMemberToProject 100 2);
   (alice, CreateTask 100 "plan" (Some 2));
   (alice, UpdateProjectName 100 "route");
   (bob, DeleteProject 100);
   (alice, DeleteTask 103);
   (alice, DeleteProject 100)].

(** A session with no user. *)
Definition nobody : SessionDoc := mkSession None.
(** ** Filters, read as tests on the fields *)

Lemma matches_id {T} `{Schema T} (i : ObjectId) (d : Doc T) :
  matches [("_id", VObjectId i)] d = (_id d =? i)%nat.
Proof. unfold matches, docField; simpl. apply andb_true_r. Qed.

Lemma matches_name (n : string) (d : ProjectDoc) :
  matches [("name", VString n)] d = (name (fields d) =? n).
Proof. unfold matches, docField; simpl. apply andb_true_r. Qed.

Lemma matches_group (g : ObjectId) (d : GroupItemDoc) :
  matches [("group", VObjectId g)] d = (group (fields d) =? g)%nat.
Proof. unfold matches, docField; simpl. apply andb_true_r. Qed.

Lemma matches_item (i : ObjectId) (d : GroupItemDoc) :
  matches [("item", VObjectId i)] d = (item (fields d) =? i)%nat.
Proof. unfold matches, docField; simpl. apply andb_true_r. Qed.

Lemma matches_group_item (g i : ObjectId) (d : GroupItemDoc) :
  matches [("group", VObjectId g); ("item", VObjectId i)] d
  = ((group (fields d) =? g)%nat && (item (fields d) =? i)%nat).
Proof. unfold matches, docField; simpl. now rewrite andb_true_r. Qed.

Lemma matches_project (p : ObjectId) (d : TaskDoc) :
  matches [("project", VObjectId p)] d = (project (fields d) =? p)%nat.
Proof. unfold matches, docField; simpl. apply andb_true_r. Qed.

Lemma find_ext_eq {A} (f g : A -> bool) (l : list A) :
  (forall x, f x = g x) -> find f l = find g l.
Proof.
  intros E. induction l as [|x l IH]; simpl; trivial.
  rewrite E, IH. reflexivity.
Qed.

Lemma find_by_id {T} `{Schema T} (i : ObjectId) (l : list (Doc T)) :
  find (matches [("_id", VObjectId i)]) l = lookup i l.
Proof. apply find_ext_eq. intros d. apply matches_id. Qed.

Lemma lookup_id {T} (i : ObjectId) (l : list (Doc T)) (d : Doc T) :
  lookup i l = Some d -> In d l /\ _id d = i.
Proof.
  intros E. apply find_some in E. destruct E as [Hin Hd].
  split; trivial. now apply Nat.eqb_eq.
Qed.

(** ** Sequencing *)

Lemma bind_ok {A B} (m : M A) (k : A -> M B) (w w' : World) (a : A) :
  m w = (Ok a, w') -> bind m k w = k a w'.
Proof. intros E. unfold bind. now rewrite E. Qed.

Lemma bind_throw {A B} (m : M A) (k : A -> M B) (w w' : World) (e : Error) :
  m w = (Throw e, w') -> bind m k w = (Throw e, w').
Proof. intros E. unfold bind. now rewrite E. Qed.

(** ** Lists of documents *)

Lemma find_none_iff {A} (f : A -> bool) (l : list A) :
  find f l = None <-> forall x, In x l -> f x = false.
Proof.
  split.
  - apply find_none.
  - induction l as [|x l IH]; intros Hall; simpl; [reflexivity|].
    rewrite (Hall x (or_introl eq_refl)). apply IH.
    intros y Hy. apply Hall. now right.
Qed.

Lemma find_some_iff {A} (f : A -> bool) (l : list A) :
  (exists x, find f l = Some x) <-> exists x, In x l /\ f x = true.
Proof.
  split.
  - intros [x Hx]. exists x. now apply find_some in Hx.
  - intros [x [Hin Hf]]. destruct (find f l) as [y|] eqn:E.
    + now exists y.
    + rewrite (find_none f l E x Hin) in Hf. discriminate.
Qed.

(** ** Group membership *)

Section GroupItemFacts.
Variable self : GroupItemConcept.t.
Let coll := GroupItemConcept.groupitems self.

Lemma linked_find (g i : ObjectId) (w : World) :
  linked self g i w <->
  exists d, find (matches [("group", VObjectId g); ("item", VObjectId i)])
                 (docs coll (db w)) = Some d.
Proof.
  rewrite find_some_iff. unfold linked.
  split; intros [d [Hin Hd]]; exists d; split; trivial.
  - rewrite matches_group_item. destruct Hd as [-> ->].
    now rewrite !Nat.eqb_refl.
  - rewrite matches_group_item in Hd.
    apply andb_true_iff in Hd. destruct Hd as [Hg Hi].
    now apply Nat.eqb_eq in Hg, Hi.
Qed.

Lemma assertItemInGroup_run (g i : ObjectId) (w : World) :
  GroupItemConcept.assertItemInGroup self g i w =
  (match find (matches [("group", VObjectId g); ("item", VObjectId i)])
              (docs coll (db w)) with
   | Some _ => Ok tt
   | None => Throw (NotFoundError (ItemNotInGroup i g))
   end,
   logged (ReadOne (collectionName coll)
                   [("group", VObjectId g); ("item", VObjectId i)]) w).
Proof.
  unfold GroupItemConcept.assertItemInGroup, bind, readOne. fold coll.
  now destruct (find _ _).
Qed.

Lemma addGroupItem_run (g i : ObjectId) (w : World) :
  GroupItemConcept.addGroupItem self g i w =
  (Ok "Added item to group!",
   mkWorld (setDocs coll (docs coll (db w)
                          ++ [mkDoc (next_oid w) (clock w) (clock w) (mkGroupItem g i)])
                    (db w))
           (S (next_oid w)) (S (clock w))
           (calls w ++ [CreateOne (collectionName coll)])).
Proof. reflexivity. Qed.

End GroupItemFacts.

(** C6: [assertItemInGroup] throws exactly when no record of the
    collection has the pair (group, item), the error it throws is then the
    NotFound error naming the pair, it returns normally otherwise, and in
    both cases the store, the identifier generator and the clock are as
    before: the world differs by the recorded read only. *)
Theorem C6_assertItemInGroup_NotFound_iff_absent :
  forall (self : GroupItemConcept.t) (g i : ObjectId) (w : World),
    (throws (GroupItemConcept.assertItemInGroup self g i) w <-> ~ linked self g i w)
    /\ (~ linked self g i w ->
        outcome (GroupItemConcept.assertItemInGroup self g i) w
        = Throw (NotFoundError (ItemNotInGroup i g)))
    /\ (linked self g i w ->
        outcome (GroupItemConcept.assertItemInGroup self g i) w = Ok tt)
    /\ db (after (GroupItemConcept.assertItemInGroup self g i) w) = db w
    /\ after (GroupItemConcept.assertItemInGroup self g i) w
       = logged (ReadOne (collectionName (GroupItemConcept.groupitems self))
                         [("group", VObjectId g); ("item", VObjectId i)]) w.
Proof.
  intros self g i w. unfold throws, outcome, after.
  rewrite assertItemInGroup_run. simpl.
  pose proof (linked_find self g i w) as L.
  destruct (find _ _) as [d|] eqn:E.
  - assert (Hl : linked self g i w) by (apply L; now exists d).
    repeat split; trivial.
    + intros [e He]. discriminate.
    + intros Hn. now elim Hn.
    + intros Hn. now elim Hn.
  - assert (Hn : ~ linked self g i w).
    { intros Hl. apply L in Hl. destruct Hl as [d Hd]. discriminate. }
    repeat split; trivial.
    + now exists (NotFoundError (ItemNotInGroup i g)).
    + intros Hl. now elim Hn.
Qed.

(** In the sample world alice (1) is a member of the project 100 and bob
    (2) is not: the assertion passes for her and throws for him. *)
Lemma C6_witness :
  outcome (GroupItemConcept.assertItemInGroup ProjectMember 100 1) roadmap_world = Ok tt
  /\ outcome (GroupItemConcept.assertItemInGroup ProjectMember 100 2) roadmap_world
     = Throw (NotFoundError (ItemNotInGroup 2 100)).
Proof.
  split.
  - apply (C6_assertItemInGroup_NotFound_iff_absent ProjectMember 100 1 roadmap_world).
    exists (mkDoc 101 1 1 (mkGroupItem 100 1)). vm_compute. auto.
  - apply (C6_assertItemInGroup_NotFound_iff_absent ProjectMember 100 2 roadmap_world).
    intros [d [Hin [_ Hi]]]. vm_compute in Hin.
    destruct Hin as [<-|[]]. discriminate.
Defined.

(** C7: [addGroupItem] checks nothing: its only call to the store is the
    insertion, it returns normally in every world and appends a record
    with the pair and a fresh identifier; called twice
    with the same pair it leaves two records of that pair, with different
    identifiers, after everything that was there. *)
Theorem C7_addGroupItem_not_idempotent :
  forall (self : GroupItemConcept.t) (g i : ObjectId) (w : World),
    let coll := GroupItemConcept.groupitems self in
    let add := GroupItemConcept.addGroupItem self g i in
    let w1 := after add w in
    let w2 := after add w1 in
    let d1 := mkDoc (next_oid w) (clock w) (clock w) (mkGroupItem g i) in
    let d2 := mkDoc (S (next_oid w)) (S (clock w)) (S (clock w)) (mkGroupItem g i) in
    outcome add w = Ok "Added item to group!"
    /\ outcome add w1 = Ok "Added item to group!"
    /\ calls w1 = calls w ++ [CreateOne (collectionName coll)]
    /\ docs coll (db w1) = docs coll (db w) ++ [d1]
    /\ docs coll (db w2) = docs coll (db w) ++ [d1; d2]
    /\ _id d1 <> _id d2
    /\ d1 <> d2
    /\ List.length (docs coll (db w2)) = 2 + List.length (docs coll (db w)).
Proof.
  intros self g i w coll add w1 w2 d1 d2.
  assert (E1 : docs coll (db w1) = docs coll (db w) ++ [d1]).
  { unfold w1, after, add. rewrite addGroupItem_run. simpl.
    apply docs_setDocs. }
  assert (E2 : docs coll (db w2) = docs coll (db w) ++ [d1; d2]).
  { unfold w2, after, add. rewrite addGroupItem_run. simpl.
    rewrite !docs_setDocs, <- app_assoc. reflexivity. }
  assert (Hid : _id d1 <> _id d2) by (simpl; lia).
  repeat split; trivial.
  - intros Heq. apply Hid. now rewrite Heq.
  - rewrite E2, length_app. simpl. lia.
Qed.

(** ** Projects *)

Lemma NoDup_snoc {A} (l : list A) (x : A) :
  NoDup l -> ~ In x l -> NoDup (l ++ [x]).
Proof.
  induction 1 as [|y l Hy Hl IH]; intros Hx; simpl.
  - constructor; [intros [] | constructor].
  - constructor.
    + rewrite in_app_iff. intros [H|[H|[]]]; [now apply Hy|].
      apply Hx. now left.
    + apply IH. intros H. apply Hx. now right.
Qed.

Section ProjectFacts.
Variable self : ProjectConcept.t.
Let coll := ProjectConcept.projects self.

Lemma name_taken_find (n : string) (w : World) :
  name_taken self n w <->
  exists p, find (matches [("name", VString n)]) (docs coll (db w)) = Some p.
Proof.
  rewrite find_some_iff. unfold name_taken.
  split; intros [p [Hin Hp]]; exists p; split; trivial.
  - rewrite matches_name. now apply String.eqb_eq.
  - rewrite matches_name in Hp. now apply String.eqb_eq.
Qed.

Lemma name_taken_names (n : string) (w : World) :
  name_taken self n w <-> In n (project_names self w).
Proof.
  unfold name_taken, project_names. rewrite in_map_iff.
  split; intros [p Hp]; exists p; tauto.
Qed.

Lemma assertProjectNameUnique_run (n : string) (w : World) :
  ProjectConcept.assertProjectNameUnique self n w =
  (match find (matches [("name", VString n)]) (docs coll (db w)) with
   | Some _ => Throw (NotAllowedError (ProjectNameExists n))
   | None => Ok tt
   end,
   logged (ReadOne (collectionName coll) [("name", VString n)]) w).
Proof.
  unfold ProjectConcept.assertProjectNameUnique, bind, readOne. fold coll.
  now destruct (find _ _).
Qed.

(** [create] when the name is taken. *)
Lemma create_taken (c : ObjectId) (n : string) (w : World) :
  name_taken self n w ->
  ProjectConcept.create self c n w =
  (Throw (NotAllowedError (ProjectNameExists n)),
   logged (ReadOne (collectionName coll) [("name", VString n)]) w).
Proof.
  intros Ht. apply name_taken_find in Ht. destruct Ht as [p Hp].
  unfold ProjectConcept.create.
  erewrite bind_throw; [reflexivity|].
  rewrite assertProjectNameUnique_run. fold coll. now rewrite Hp.
Qed.

(** [create] when the name is free: the new document is appended, and
    the document read back is the first one with the new identifier. *)
Lemma create_free (c : ObjectId) (n : string) (w : World) :
  ~ name_taken self n w ->
  let d := mkDoc (next_oid w) (clock w) (clock w) (mkProject c n) in
  ProjectConcept.create self c n w =
  (Ok ("Project successfully created!",
       find (matches [("_id", VObjectId (next_oid w))]) (docs coll (db w) ++ [d])),
   mkWorld (setDocs coll (docs coll (db w) ++ [d]) (db w))
           (S (next_oid w)) (S (clock w))
           (calls w ++ [ReadOne (collectionName coll) [("name", VString n)];
                        CreateOne (collectionName coll);
                        ReadOne (collectionName coll) [("_id", VObjectId (next_oid w))]])).
Proof.
  intros Hf d.
  assert (E : find (matches [("name", VString n)]) (docs coll (db w)) = None).
  { destruct (find _ _) as [p|] eqn:E; trivial.
    elim Hf. apply name_taken_find. now exists p. }
  unfold ProjectConcept.create.
  erewrite bind_ok; [|rewrite assertProjectNameUnique_run; fold coll; now rewrite E].
  unfold bind, createOne, readOne, ret, logged. fold coll. simpl.
  rewrite docs_setDocs, <- !app_assoc. reflexivity.
Qed.

Lemma find_fresh_id (i : ObjectId) (l : list ProjectDoc) (d : ProjectDoc) :
  (forall p, In p l -> _id p < i) -> _id d = i ->
  find (matches [("_id", VObjectId i)]) (l ++ [d]) = Some d.
Proof.
  intros Hl Hd. induction l as [|x l IH]; cbn [app find].
  - rewrite matches_id, Hd, Nat.eqb_refl. reflexivity.
  - rewrite matches_id.
    assert (Hx : _id x < i) by (apply Hl; now left).
    destruct (Nat.eqb_spec (_id x) i) as [Heq|_]; [lia|].
    apply IH. intros p Hp. apply Hl. now right.
Qed.

Lemma create_keeps_names_distinct (c : ObjectId) (n : string) (w : World) :
  NoDup (project_names self w) ->
  NoDup (project_names self (after (ProjectConcept.create self c n) w)).
Proof.
  intros Hnd. unfold after.
  destruct (in_dec string_dec n (project_names self w)) as [Hin|Hout].
  - rewrite create_taken by now apply name_taken_names.
    exact Hnd.
  - rewrite create_free by now rewrite name_taken_names.
    unfold project_names. simpl. fold coll.
    rewrite docs_setDocs, map_app. simpl.
    now apply NoDup_snoc.
Qed.

Lemma create_all_keeps_names_distinct (requests : list (ObjectId * string)) :
  forall w, NoDup (project_names self w) ->
            NoDup (project_names self (create_all self requests w)).
Proof.
  induction requests as [|r rest IH]; intros w Hnd; simpl; trivial.
  apply IH. now apply create_keeps_names_distinct.
Qed.

End ProjectFacts.

(** C4: [Project.create], for every creator and name.  When a project of
    that name exists it throws the NotAllowed error of the name and the
    store is as before.  Otherwise it returns normally and the projects are
    the old ones followed by one new document, with a fresh identifier,
    that creator and that name; the document it returns is the one it reads
    back by the new identifier, which is the new document when every
    identifier of the collection was issued earlier.  Hence distinct names
    stay distinct, and every run of [create] requests from an empty
    collection leaves projects whose names are pairwise distinct. *)
Theorem C4_create_rejects_taken_name :
  forall (self : ProjectConcept.t) (c : ObjectId) (n : string) (w : World),
    let coll := ProjectConcept.projects self in
    let create := ProjectConcept.create self c n in
    let d := mkDoc (next_oid w) (clock w) (clock w) (mkProject c n) in
    (name_taken self n w ->
       outcome create w = Throw (NotAllowedError (ProjectNameExists n))
       /\ db (after create w) = db w)
    /\ (~ name_taken self n w ->
       outcome create w
       = Ok ("Project successfully created!",
             find (matches [("_id", VObjectId (next_oid w))]) (docs coll (db w) ++ [d]))
       /\ docs coll (db (after create w)) = docs coll (db w) ++ [d]
       /\ (project_ids_issued self w ->
           outcome create w = Ok ("Project successfully created!", Some d)))
    /\ (NoDup (project_names self w) -> NoDup (project_names self (after create w)))
    /\ (forall requests, docs coll (db w) = [] ->
          NoDup (project_names self (create_all self requests w))).
Proof.
  intros self c n w coll create d. unfold outcome, after, create.
  split; [|split; [|split]].
  - intros Ht. rewrite create_taken by trivial. now split.
  - intros Hf. rewrite create_free by trivial. cbn [fst snd db].
    split; [reflexivity|]. split; [apply docs_setDocs|].
    intros Hissued. fold coll. fold d.
    do 2 f_equal.
    exact (find_fresh_id (next_oid w) (docs coll (db w)) d Hissued eq_refl).
  - apply create_keeps_names_distinct.
  - intros requests Hempty. apply create_all_keeps_names_distinct.
    unfold project_names. fold coll. rewrite Hempty. constructor.
Qed.

(** In the sample world the name "roadmap" is taken and "garden" is free. *)
Lemma C4_witness :
  outcome (ProjectConcept.create Project 2 "roadmap") roadmap_world
  = Throw (NotAllowedError (ProjectNameExists "roadmap"))
  /\ outcome (ProjectConcept.create Project 2 "garden") roadmap_world
     = Ok ("Project successfully created!", Some (mkDoc 103 3 3 (mkProject 2 "garden")))
  /\ NoDup (project_names Project
              (after (ProjectConcept.create Project 2 "garden") roadmap_world))
  /\ NoDup (project_names Project
              (create_all Project [(1, "a"); (2, "a"); (2, "b")] empty_world)).
Proof.
  split; [|split; [|split]].
  - apply (C4_create_rejects_taken_name Project 2 "roadmap" roadmap_world).
    exists (mkDoc 100 0 0 (mkProject 1 "roadmap")). vm_compute. auto.
  - apply (C4_create_rejects_taken_name Project 2 "garden" roadmap_world).
    + intros [p [Hin Hn]]. vm_compute in Hin.
      destruct Hin as [<-|[]]. discriminate.
    + intros p Hin. vm_compute in Hin.
      destruct Hin as [<-|[]]. vm_compute. repeat constructor.
  - apply (C4_create_rejects_taken_name Project 2 "garden" roadmap_world).
    vm_compute. constructor; [intros []|constructor].
  - apply (C4_create_rejects_taken_name Project 0 "" empty_world).
    reflexivity.
Defined.

(** C10: [updateProjectName] throws the NotAllowed error of the name
    whenever some project has the requested name, whichever project is
    being renamed, and then changes nothing in the store; so for a project
    of the collection, renaming it to the name it has throws, and the
    projects, this one's name among them, are as before. *)
Theorem C10_updateProjectName_rejects_any_taken_name :
  forall (self : ProjectConcept.t) (w : World),
    let coll := ProjectConcept.projects self in
    (forall (id : ObjectId) (n : string),
        name_taken self n w ->
        outcome (ProjectConcept.updateProjectName self id n) w
        = Throw (NotAllowedError (ProjectNameExists n))
        /\ db (after (ProjectConcept.updateProjectName self id n) w) = db w)
    /\ (forall p : ProjectDoc,
        In p (docs coll (db w)) ->
        let rename := ProjectConcept.updateProjectName self (_id p) (name (fields p)) in
        outcome rename w = Throw (NotAllowedError (ProjectNameExists (name (fields p))))
        /\ docs coll (db (after rename w)) = docs coll (db w)
        /\ In p (docs coll (db (after rename w)))).
Proof.
  intros self w coll.
  assert (R : forall id n, name_taken self n w ->
              ProjectConcept.updateProjectName self id n w =
              (Throw (NotAllowedError (ProjectNameExists n)),
               logged (ReadOne (collectionName coll) [("name", VString n)]) w)).
  { intros id n Ht. apply name_taken_find in Ht. destruct Ht as [p Hp].
    unfold ProjectConcept.updateProjectName.
    erewrite bind_throw; [reflexivity|].
    rewrite assertProjectNameUnique_run. now rewrite Hp. }
  split.
  - intros id n Ht. unfold outcome, after. rewrite (R id n Ht). now split.
  - intros p Hin rename. unfold outcome, after, rename.
    rewrite R by (exists p; now split). simpl. now repeat split.
Qed.

(** The project "roadmap" of the sample world cannot be renamed "roadmap". *)
Lemma C10_witness :
  outcome (ProjectConcept.updateProjectName Project 100 "roadmap") roadmap_world
  = Throw (NotAllowedError (ProjectNameExists "roadmap"))
  /\ db (after (ProjectConcept.updateProjectName Project 100 "roadmap") roadmap_world)
     = db roadmap_world
  /\ In (mkDoc 100 0 0 (mkProject 1 "roadmap"))
        (projects (db (after (ProjectConcept.updateProjectName Project 100 "roadmap")
                             roadmap_world))).
Proof.
  destruct (C10_updateProjectName_rejects_any_taken_name Project roadmap_world)
    as [Hany Hown].
  assert (Hin : In (mkDoc 100 0 0 (mkProject 1 "roadmap"))
                   (projects (db roadmap_world))) by (vm_compute; auto).
  destruct (Hany 100 "roadmap") as [H1 H2].
  { exists (mkDoc 100 0 0 (mkProject 1 "roadmap")). split; [exact Hin|reflexivity]. }
  destruct (Hown _ Hin) as [_ [_ H3]].
  split; [exact H1|]. split; [exact H2|exact H3].
Defined.

(** ** Tasking *)

Lemma find_updateFirst {A} (f : A -> bool) (g : A -> A) (l : list A) :
  (forall x, f x = true -> f (g x) = true) ->
  find f (updateFirst f g l) = option_map g (find f l).
Proof.
  intros Hg. induction l as [|x l IH]; simpl; trivial.
  destruct (f x) eqn:E; simpl.
  - now rewrite (Hg x E).
  - now rewrite E.
Qed.

(** C5: for a task that [getTask] finds, [unassignTask] returns normally,
    and [getTask] on the same identifier then finds a task with that
    identifier and no assignee, whose description, project and completion
    are those of the task found before. *)
Theorem C5_unassignTask_clears_assignee :
  forall (self : TaskingConcept.t) (id : ObjectId) (w : World) (t : TaskDoc),
    outcome (TaskingConcept.getTask self id) w = Ok (Some t) ->
    let w' := after (TaskingConcept.unassignTask self id) w in
    outcome (TaskingConcept.unassignTask self id) w
    = Ok "TODO: partial update to null or undefined?"
    /\ exists t',
        outcome (TaskingConcept.getTask self id) w' = Ok (Some t')
        /\ _id t' = _id t
        /\ assignee (fields t') = None
        /\ description (fields t') = description (fields t)
        /\ project (fields t') = project (fields t)
        /\ completion (fields t') = completion (fields t).
Proof.
  intros self id w t Hget w'. split; [reflexivity|].
  unfold outcome, TaskingConcept.getTask, readOne in Hget. cbn [fst] in Hget.
  injection Hget as Hfind.
  set (touch := fun d : TaskDoc =>
         mkDoc (_id d) (dateCreated d) (clock w)
               (setFields [("assignee", VUndefined)] (fields d))).
  exists (touch t). split; [|now repeat split].
  unfold outcome, TaskingConcept.getTask, readOne. cbn [fst]. do 2 f_equal.
  unfold w', after, TaskingConcept.unassignTask, bind, partialUpdateOne, ret.
  cbn [snd db]. rewrite docs_setDocs.
  change (find (matches [("_id", VObjectId id)])
            (updateFirst (matches [("_id", VObjectId id)]) touch
               (docs (TaskingConcept.tasks self) (db w))) = Some (touch t)).
  rewrite find_updateFirst.
  - now rewrite Hfind.
  - intros d. now rewrite !matches_id.
Qed.

(** The task 102 of the sample world, once given the assignee 7, is
    unassigned again. *)
Lemma C5_witness :
  let w := after (TaskingConcept.updateAssignee Task 102 7) roadmap_world in
  outcome (TaskingConcept.getTask Task 102) w
  = Ok (Some (mkDoc 102 2 3 (mkTask "design doc" 100 (Some 7) false)))
  /\ exists t',
      outcome (TaskingConcept.getTask Task 102)
              (after (TaskingConcept.unassignTask Task 102) w) = Ok (Some t')
      /\ assignee (fields t') = None
      /\ description (fields t') = "design doc".
Proof.
  intros w.
  assert (Hget : outcome (TaskingConcept.getTask Task 102) w
                 = Ok (Some (mkDoc 102 2 3 (mkTask "design doc" 100 (Some 7) false))))
    by (vm_compute; reflexivity).
  split; [exact Hget|].
  destruct (C5_unassignTask_clears_assignee Task 102 w _ Hget)
    as [_ [t' [H1 [_ [H2 [H3 _]]]]]].
  exists t'. repeat split; trivial.
Defined.

(** ** The creator check *)

Lemma bind_ret {A B} (a : A) (k : A -> M B) (w : World) :
  bind (ret a) k w = k a w.
Proof. reflexivity. Qed.

Lemma assertUserIsCreator_run (self : ProjectConcept.t) (id u : ObjectId) (w : World) :
  ProjectConcept.assertUserIsCreator self id u w =
  (match lookup id (docs (ProjectConcept.projects self) (db w)) with
   | None => Throw (NotFoundError (ProjectDoesNotExist id))
   | Some p =>
       if negb (creator (fields p) =? u)%nat
       then Throw (UserCreatorNotMatchError u id)
       else Ok tt
   end,
   logged (ReadOne (collectionName (ProjectConcept.projects self))
                   [("_id", VObjectId id)]) w).
Proof.
  unfold ProjectConcept.assertUserIsCreator, bind, readOne.
  rewrite find_by_id.
  destruct (lookup _ _) as [p|]; [|reflexivity].
  now destruct (negb _).
Qed.

Lemma creator_passes (id u : ObjectId) (w : World) (p : ProjectDoc) :
  lookup id (projects (db w)) = Some p ->
  creator (fields p) = u ->
  ProjectConcept.assertUserIsCreator Project id u w =
  (Ok tt, logged (ReadOne "projects" [("_id", VObjectId id)]) w).
Proof.
  intros Hp Hc. rewrite assertUserIsCreator_run.
  change (docs (ProjectConcept.projects Project) (db w)) with (projects (db w)).
  rewrite Hp, Hc, Nat.eqb_refl. reflexivity.
Qed.

Lemma other_user_fails (id u : ObjectId) (w : World) (p : ProjectDoc) :
  lookup id (projects (db w)) = Some p ->
  creator (fields p) <> u ->
  ProjectConcept.assertUserIsCreator Project id u w =
  (Throw (UserCreatorNotMatchError u id),
   logged (ReadOne "projects" [("_id", VObjectId id)]) w).
Proof.
  intros Hp Hc. rewrite assertUserIsCreator_run.
  change (docs (ProjectConcept.projects Project) (db w)) with (projects (db w)).
  rewrite Hp. apply Nat.eqb_neq in Hc. rewrite Hc. reflexivity.
Qed.

Lemma projectOfTask_run (tid : ObjectId) (w : World) (t : TaskDoc) :
  lookup tid (tasks (db w)) = Some t ->
  Routes.projectOfTask tid w =
  (Ok (project (fields t)), logged (ReadOne "tasks" [("_id", VObjectId tid)]) w).
Proof.
  intros Ht. unfold Routes.projectOfTask, TaskingConcept.getTask, bind, readOne.
  rewrite find_by_id.
  change (docs (TaskingConcept.tasks Task) (db w)) with (tasks (db w)).
  now rewrite Ht.
Qed.

Lemma untouched_logged (c : StoreCall) (w w' : World) :
  untouched w w' -> untouched w (logged c w').
Proof. intros U. exact U. Qed.

Lemma untouched_refl (w : World) : untouched w w.
Proof. now repeat split. Qed.

Lemma refused_by_run {A} (route : M A) (u pid : ObjectId) (w w' : World) :
  route w = (Throw (UserCreatorNotMatchError u pid), w') ->
  untouched w w' ->
  refused route u pid w.
Proof.
  intros E U. unfold refused, outcome, after. rewrite E.
  split; [reflexivity|]. split; [reflexivity|exact U].
Qed.

(** The caller of a route is the user of the session. *)
Ltac as_user H :=
  unfold SessioningConcept.getUser; rewrite H; rewrite bind_ret.

(** C2: a logged-in user who is not the creator of an existing project is
    refused by each of the routes that delete the project, rename it, add
    a member, remove a member, create a task in it, delete one of its tasks
    and change the description of one of its tasks: the route throws the
    creator-mismatch error and the store is as before. *)
Theorem C2_only_the_creator_may_change_a_project :
  forall (w : World) (session : SessionDoc) (u pid : ObjectId) (p : ProjectDoc),
    user session = Some u ->
    lookup pid (projects (db w)) = Some p ->
    creator (fields p) <> u ->
    refused (Routes.deleteProject session pid) u pid w
    /\ (forall name, refused (Routes.updateProjectName session pid name) u pid w)
    /\ (forall member, refused (Routes.addMemberToProject session pid member) u pid w)
    /\ (forall member, refused (Routes.deleteMemberFromProject session pid member) u pid w)
    /\ (forall description assignee,
           refused (Routes.createTask session pid description assignee) u pid w)
    /\ (forall tid t, lookup tid (tasks (db w)) = Some t -> project (fields t) = pid ->
           refused (Routes.deleteTask session tid) u pid w)
    /\ (forall tid t description,
           lookup tid (tasks (db w)) = Some t -> project (fields t) = pid ->
           refused (Routes.updateTaskDescription session tid description) u pid w).
Proof.
  intros w session u pid p Hs Hp Hc.
  assert (Hproject : forall A (k : unit -> M A),
             refused (bind (ProjectConcept.assertUserIsCreator Project pid u) k) u pid w).
  { intros A k. eapply refused_by_run.
    - erewrite bind_throw; [reflexivity|]. now apply (other_user_fails pid u w p).
    - apply untouched_logged, untouched_refl. }
  assert (Htask : forall A (k : unit -> M A) tid t,
             lookup tid (tasks (db w)) = Some t -> project (fields t) = pid ->
             refused (projectId <- Routes.projectOfTask tid ;;
                      bind (ProjectConcept.assertUserIsCreator Project projectId u) k)
                     u pid w).
  { intros A k tid t Ht Hpid. eapply refused_by_run.
    - erewrite bind_ok by (apply projectOfTask_run; exact Ht).
      rewrite Hpid.
      erewrite bind_throw; [reflexivity|].
      apply (other_user_fails pid u _ p); [exact Hp|exact Hc].
    - do 2 apply untouched_logged. apply untouched_refl. }
  split; [|split; [|split; [|split; [|split; [|split]]]]]; intros.
  - unfold Routes.deleteProject.
    unfold refused, outcome, after. as_user Hs. apply Hproject.
  - unfold Routes.updateProjectName.
    unfold refused, outcome, after. as_user Hs. apply Hproject.
  - unfold Routes.addMemberToProject.
    unfold refused, outcome, after. as_user Hs. apply Hproject.
  - unfold Routes.deleteMemberFromProject.
    unfold refused, outcome, after. as_user Hs. apply Hproject.
  - unfold Routes.createTask.
    unfold refused, outcome, after. as_user Hs. apply Hproject.
  - unfold Routes.deleteTask.
    unfold refused, outcome, after. as_user Hs. now apply (Htask _ _ tid t).
  - unfold Routes.updateTaskDescription.
    unfold refused, outcome, after. as_user Hs. now apply (Htask _ _ tid t).
Qed.

(** bob (2) is not the creator of the project 100 of the sample world. *)
Lemma C2_witness :
  refused (Routes.deleteProject bob 100) 2 100 roadmap_world
  /\ refused (Routes.createTask bob 100 "x" None) 2 100 roadmap_world
  /\ refused (Routes.deleteTask bob 102) 2 100 roadmap_world.
Proof.
  assert (Hc : creator (fields (mkDoc 100 0 0 (mkProject 1 "roadmap"))) <> 2)
    by (simpl; lia).
  destruct (C2_only_the_creator_may_change_a_project
              roadmap_world bob 2 100 (mkDoc 100 0 0 (mkProject 1 "roadmap"))
              eq_refl eq_refl Hc)
    as [H1 [_ [_ [_ [H5 [H6 _]]]]]].
  split; [exact H1|]. split; [apply H5|].
  apply (H6 102 (mkDoc 102 2 2 (mkTask "design doc" 100 None false)));
    reflexivity.
Defined.

(** ** Running the routes symbolically *)

Ltac open_routes :=
  unfold Routes.createProject, Routes.deleteProject, Routes.getProject,
    Routes.getUserProjects, Routes.updateProjectName, Routes.updateProjectManager,
    Routes.addMemberToProject, Routes.deleteMemberFromProject,
    Routes.getAllMembersInProject, Routes.createTask, Routes.deleteTask,
    Routes.getTasksForProject, Routes.getTasksForUser,
    Routes.updateTaskDescription, Routes.addTaskAssignee, Routes.unassignTask,
    Routes.getAssigneesForTask, Routes.projectOfTask;
  unfold invoke, TaskAssignee.

Ltac open_concepts :=
  unfold SessioningConcept.getUser,
    ProjectConcept.create, ProjectConcept.assertProjectNameUnique,
    ProjectConcept.getProject, ProjectConcept.getProjectByName,
    ProjectConcept.updateProjectName, ProjectConcept.updateProjectCreator,
    ProjectConcept.deleteProject, ProjectConcept.assertUserIsCreator,
    GroupItemConcept.addGroupItem, GroupItemConcept.removeGroupItem,
    GroupItemConcept.getItemsInGroup, GroupItemConcept.getGroupsForItem,
    GroupItemConcept.deleteAllItemsInGroup, GroupItemConcept.deleteItemFromAllGroups,
    GroupItemConcept.assertItemInGroup,
    TaskingConcept.create, TaskingConcept.delete, TaskingConcept.deleteTasksForProject,
    TaskingConcept.updateDescription, TaskingConcept.updateAssignee,
    TaskingConcept.getTask, TaskingConcept.unassignTask,
    TaskingConcept.setCompletionStatus, TaskingConcept.getAllTasksForProject,
    TaskingConcept.getAllTasksForUser.

Ltac open_store :=
  unfold bind, ret, throw, createOne, readOne, readMany, partialUpdateOne,
    deleteOne, deleteMany, logged.

Ltac project_fields :=
  cbn [fst snd db next_oid clock calls docs setDocs collectionName
       GroupItemConcept.groupitems ProjectConcept.projects TaskingConcept.tasks
       Project ProjectMember Task
       projects_collection projectmembers_collection
       tasks_collection projects projectmembers taskassignees tasks option_map].

Ltac branch :=
  match goal with
  | |- context [match user ?s with _ => _ end] => destruct (user s) eqn:?
  | |- context [find ?f ?l] => destruct (find f l) eqn:?
  | |- context [if negb ?b then _ else _] => destruct b eqn:?; cbn [negb]
  | |- context [if given ?s then _ else _] => destruct (given s) eqn:?
  | |- context [match ?o with Some _ => _ | None => _ end] =>
      is_var o; destruct o
  end; project_fields.

Ltac run_route :=
  open_routes; open_concepts; open_concepts; open_store; project_fields;
  repeat branch.

(** ** The binding the app does not export *)

(** A call of a method on [TaskAssignee] throws the TypeError of the
    method's name and reaches no store. *)
Lemma invoke_undefined {A} (method : string) (call : GroupItemConcept.t -> M A)
      (w : World) :
  invoke TaskAssignee method call w
  = (Throw (TypeError (CannotReadPropertiesOfUndefined method)), w).
Proof. reflexivity. Qed.

(** A loop whose body throws on the first element stops there. *)
Lemma forEach_stops {A B} (x : A) (rest : list A) (body : A -> M B)
      (e : Error) (w w' : World) :
  body x w = (Throw e, w') -> forEach (x :: rest) body w = (Throw e, w').
Proof. intros E. cbn [forEach]. unfold bind. now rewrite E. Qed.

Lemma getUser_none {B} (session : SessionDoc) (k : ObjectId -> M B) (w : World) :
  user session = None ->
  bind (SessioningConcept.getUser session) k w
  = (Throw (UnauthenticatedError MustBeLoggedIn), w).
Proof. intros E. unfold SessioningConcept.getUser. now rewrite E. Qed.

Lemma missing_project_fails (id u : ObjectId) (w : World) :
  lookup id (projects (db w)) = None ->
  ProjectConcept.assertUserIsCreator Project id u w =
  (Throw (NotFoundError (ProjectDoesNotExist id)),
   logged (ReadOne "projects" [("_id", VObjectId id)]) w).
Proof.
  intros Hp. rewrite assertUserIsCreator_run.
  change (docs (ProjectConcept.projects Project) (db w)) with (projects (db w)).
  now rewrite Hp.
Qed.

(** The routes that make no write before their call on [TaskAssignee]
    throw on every input and leave the store as it was. *)
Lemma deleteTask_fails (session : SessionDoc) (task : ObjectId) (w : World) :
  let route := Routes.deleteTask session task in
  throws route w /\ untouched w (after route w).
Proof.
  unfold throws, outcome, after. run_route;
    (split; [eexists; reflexivity|now repeat split]).
Qed.

Lemma addTaskAssignee_fails (session : SessionDoc) (task assignee : ObjectId) (w : World) :
  let route := Routes.addTaskAssignee session task assignee in
  throws route w /\ untouched w (after route w).
Proof.
  unfold throws, outcome, after. run_route;
    (split; [eexists; reflexivity|now repeat split]).
Qed.

Lemma unassignTask_fails (session : SessionDoc) (task : ObjectId) (w : World) :
  let route := Routes.unassignTask session task in
  throws route w /\ untouched w (after route w).
Proof.
  unfold throws, outcome, after. run_route;
    (split; [eexists; reflexivity|now repeat split]).
Qed.

(** ** Removing a member *)

Lemma filter_ext_eq {A} (f g : A -> bool) (l : list A) :
  (forall x, f x = g x) -> filter f l = filter g l.
Proof.
  intros E. induction l as [|x l IH]; simpl; trivial.
  now rewrite E, IH.
Qed.

Lemma deleteMemberFromProject_run
      (w : World) (session : SessionDoc) (u pid member : ObjectId) (p : ProjectDoc) :
  user session = Some u ->
  lookup pid (projects (db w)) = Some p ->
  creator (fields p) = u ->
  Routes.deleteMemberFromProject session pid member w =
  (Throw (TypeError (CannotReadPropertiesOfUndefined "deleteItemFromAllGroups")),
   logged (ReadOne "projects" [("_id", VObjectId pid)]) w).
Proof.
  intros Hs Hp Hc. unfold Routes.deleteMemberFromProject. as_user Hs.
  erewrite bind_ok by (now apply (creator_passes pid u w p)).
  erewrite bind_throw; [reflexivity|]. apply invoke_undefined.
Qed.



(** ** Deleting a project *)

Lemma filter_twice {A} (f g : A -> bool) (l : list A) :
  filter f (filter g l) = filter (fun x => g x && f x) l.
Proof.
  induction l as [|x l IH]; simpl; trivial.
  destruct (g x); simpl; [destruct (f x)|]; now rewrite IH.
Qed.

Lemma filter_negb_all {A} (f : A -> bool) (l : list A) :
  filter f l = [] -> filter (fun x => negb (f x)) l = l.
Proof.
  induction l as [|x l IH]; simpl; trivial.
  destruct (f x); simpl; [discriminate|]. intros E. now rewrite IH.
Qed.

Lemma tasks_of_filter (pid : ObjectId) (w : World) :
  filter (matches [("project", VObjectId pid)]) (tasks (db w)) = tasks_of pid w.
Proof. apply filter_ext_eq. intros t. apply matches_project. Qed.

Lemma deleteProject_run
      (w : World) (session : SessionDoc) (u pid : ObjectId) (p : ProjectDoc) :
  user session = Some u ->
  lookup pid (projects (db w)) = Some p ->
  creator (fields p) = u ->
  Routes.deleteProject session pid w =
  match tasks_of pid w with
  | [] => (Ok "Project successfully deleted!", finished_deletion pid w)
  | _ :: _ =>
      (Throw (TypeError (CannotReadPropertiesOfUndefined "deleteAllItemsInGroup")),
       stopped_deletion pid w)
  end.
Proof.
  intros Hs Hp Hc. unfold Routes.deleteProject. as_user Hs.
  erewrite bind_ok by (now apply (creator_passes pid u w p)).
  erewrite bind_ok by reflexivity.
  erewrite bind_ok by reflexivity.
  unfold logged.
  cbn [docs setDocs collectionName GroupItemConcept.groupitems TaskingConcept.tasks
       ProjectMember Task projectmembers_collection tasks_collection
       db next_oid clock calls projects projectmembers taskassignees tasks].
  rewrite tasks_of_filter.
  destruct (tasks_of pid w) as [|t ts] eqn:Ets.
  - erewrite bind_ok by reflexivity.
    erewrite bind_ok by reflexivity.
    unfold ProjectConcept.deleteProject, bind, deleteOne, deleteMany, ret, logged,
      finished_deletion.
    cbn [db next_oid clock calls docs setDocs collectionName
         GroupItemConcept.groupitems ProjectConcept.projects TaskingConcept.tasks
         Project ProjectMember Task projects_collection projectmembers_collection
         tasks_collection projects projectmembers taskassignees tasks map app].
    rewrite <- !app_assoc. reflexivity.
  - erewrite bind_throw.
    2: { apply forEach_stops. apply invoke_undefined. }
    unfold stopped_deletion, deleteMany, readMany, bind, ret, logged.
    cbn [db next_oid clock calls docs setDocs collectionName
         GroupItemConcept.groupitems TaskingConcept.tasks
         ProjectMember Task projectmembers_collection
         tasks_collection projects projectmembers taskassignees tasks].
    rewrite <- !app_assoc. reflexivity.
Qed.

Lemma removeFirst_ext_eq {A} (f g : A -> bool) (l : list A) :
  (forall x, f x = g x) -> removeFirst f l = removeFirst g l.
Proof.
  intros E. induction l as [|x l IH]; simpl; trivial.
  now rewrite E, IH.
Qed.

Lemma removeFirst_unique_id {T} (i : ObjectId) (l : list (Doc T)) :
  NoDup (map _id l) ->
  forall q, In q (removeFirst (fun d => (_id d =? i)%nat) l) -> _id q <> i.
Proof.
  induction l as [|x l IH]; simpl; intros Hnd q Hq; [contradiction|].
  inversion Hnd as [|y ys Hx Hl]; subst.
  destruct (Nat.eqb_spec (_id x) i) as [Hi|Hi].
  - intros Hqi. apply Hx. rewrite Hi, <- Hqi. now apply in_map.
  - destruct Hq as [<-|Hq]; [exact Hi|]. now apply IH.
Qed.

(** C1, what the code does: when the creator of a project deletes it
    through the route, the route deletes the membership links of the
    project and reads the tasks of the project.  If the project has a task,
    the route then throws the TypeError of reading [deleteAllItemsInGroup]
    on [TaskAssignee], which the app does not export: the cascade stops
    after its first step, with the membership links gone and the assignee
    links, the tasks and the project record all still there, so that every
    task of the project still references it.  Only for a project without a
    task does the cascade run to its end: the tasks of the project are
    deleted (there are none), then the project record, and the route
    returns normally, with no call on the assignee links. *)
Theorem C1_deleteProject_stops_at_the_first_task :
  forall (w : World) (session : SessionDoc) (u pid : ObjectId) (p : ProjectDoc),
    user session = Some u ->
    lookup pid (projects (db w)) = Some p ->
    creator (fields p) = u ->
    let route := Routes.deleteProject session pid in
    let w' := after route w in
    projectmembers (db w')
    = filter (fun m => negb (group (fields m) =? pid)%nat) (projectmembers (db w))
    /\ taskassignees (db w') = taskassignees (db w)
    /\ (forall t ts, tasks_of pid w = t :: ts ->
          outcome route w
          = Throw (TypeError (CannotReadPropertiesOfUndefined "deleteAllItemsInGroup"))
          /\ calls w' = calls w ++ [ReadOne "projects" [("_id", VObjectId pid)];
                                    DeleteMany "projectmembers" [("group", VObjectId pid)];
                                    ReadMany "tasks" [("project", VObjectId pid)]]
          /\ tasks (db w') = tasks (db w)
          /\ projects (db w') = projects (db w)
          /\ lookup pid (projects (db w')) = Some p
          /\ In t (tasks (db w')) /\ project (fields t) = pid)
    /\ (tasks_of pid w = [] ->
          outcome route w = Ok "Project successfully deleted!"
          /\ calls w' = calls w ++ [ReadOne "projects" [("_id", VObjectId pid)];
                                    DeleteMany "projectmembers" [("group", VObjectId pid)];
                                    ReadMany "tasks" [("project", VObjectId pid)];
                                    DeleteMany "tasks" [("project", VObjectId pid)];
                                    DeleteOne "projects" [("_id", VObjectId pid)]]
          /\ tasks (db w') = tasks (db w)
          /\ projects (db w')
             = removeFirst (fun q => (_id q =? pid)%nat) (projects (db w))
          /\ (NoDup (map _id (projects (db w))) ->
              forall q, In q (projects (db w')) -> _id q <> pid)).
Proof.
  intros w session u pid p Hs Hp Hc route w'.
  pose proof (deleteProject_run w session u pid p Hs Hp Hc) as R.
  fold route in R.
  assert (Em : projectmembers (db w')
               = filter (fun m => negb (group (fields m) =? pid)%nat)
                        (projectmembers (db w))).
  { unfold w', after. rewrite R.
    destruct (tasks_of pid w); cbn [snd db projectmembers stopped_deletion
                                    finished_deletion];
      apply filter_ext_eq; intros m; now rewrite matches_group. }
  split; [exact Em|]. split; [|split].
  - unfold w', after. rewrite R. now destruct (tasks_of pid w).
  - intros t ts Ets. unfold w', outcome, after. rewrite R, Ets.
    cbn [fst snd stopped_deletion db calls tasks projects].
    do 4 (split; [reflexivity|]). split; [exact Hp|].
    assert (Hin : In t (tasks_of pid w)) by (rewrite Ets; now left).
    apply filter_In in Hin. destruct Hin as [Hin Hpid].
    split; [exact Hin|]. now apply Nat.eqb_eq.
  - intros Ets. unfold w', outcome, after. rewrite R, Ets.
    cbn [fst snd finished_deletion db calls tasks projects].
    split; [reflexivity|]. split; [reflexivity|].
    assert (Ep : removeFirst (matches [("_id", VObjectId pid)]) (projects (db w))
                 = removeFirst (fun q => (_id q =? pid)%nat) (projects (db w))).
    { apply removeFirst_ext_eq. intros q. apply matches_id. }
    split; [|split; [exact Ep|]].
    + rewrite (filter_ext_eq _ (fun t => negb (project (fields t) =? pid)%nat))
        by (intros t; now rewrite matches_project).
      now apply filter_negb_all.
    + intros Hnd q Hq. rewrite Ep in Hq.
      now apply (removeFirst_unique_id pid (projects (db w))).
Qed.

(** alice deletes her project 100 of the sample world, which has the task
    102: the route throws, her membership link is gone, the project and
    the task are still there.  A project without a task, deleted by its
    creator right after its creation, does go. *)
Lemma C1_failing_input :
  let route := Routes.deleteProject alice 100 in
  let w' := after route roadmap_world in
  let fresh := after (Routes.createProject alice "roadmap") empty_world in
  (outcome route roadmap_world
   = Throw (TypeError (CannotReadPropertiesOfUndefined "deleteAllItemsInGroup"))
   /\ projectmembers (db w') = []
   /\ projects (db w') = [mkDoc 100 0 0 (mkProject 1 "roadmap")]
   /\ tasks (db w') = [mkDoc 102 2 2 (mkTask "design doc" 100 None false)])
  /\ (outcome route fresh = Ok "Project successfully deleted!"
      /\ projects (db (after route fresh)) = []).
Proof.
  intros route w' fresh. split.
  - destruct (C1_deleteProject_stops_at_the_first_task
                roadmap_world alice 1 100 (mkDoc 100 0 0 (mkProject 1 "roadmap"))
                eq_refl eq_refl eq_refl)
      as [H1 [_ [H3 _]]].
    destruct (H3 (mkDoc 102 2 2 (mkTask "design doc" 100 None false)) [] eq_refl)
      as [H4 [_ [H6 [H7 _]]]].
    split; [exact H4|]. split; [unfold w', route; rewrite H1; reflexivity|].
    split; [unfold w', route; rewrite H7; reflexivity|].
    unfold w', route; rewrite H6; reflexivity.
  - destruct (C1_deleteProject_stops_at_the_first_task
                fresh alice 1 100 (mkDoc 100 0 0 (mkProject 1 "roadmap"))
                eq_refl eq_refl eq_refl)
      as [_ [_ [_ H4]]].
    destruct (H4 eq_refl) as [H5 [_ [_ [H8 _]]]].
    split; [exact H5|]. unfold route. rewrite H8. reflexivity.
Defined.

(** ** Assigning a user to a task *)

Lemma not_linked_find (self : GroupItemConcept.t) (g i : ObjectId) (w : World) :
  ~ linked self g i w ->
  find (matches [("group", VObjectId g); ("item", VObjectId i)])
       (docs (GroupItemConcept.groupitems self) (db w)) = None.
Proof.
  intros Hn. destruct (find _ _) as [d|] eqn:E; trivial.
  elim Hn. apply linked_find. now exists d.
Qed.

Lemma createTask_non_member_run
      (w : World) (session : SessionDoc) (u pid a : ObjectId) (p : ProjectDoc)
      (description : string) :
  user session = Some u ->
  lookup pid (projects (db w)) = Some p ->
  creator (fields p) = u ->
  ~ linked ProjectMember pid a w ->
  exists w',
    Routes.createTask session pid description (Some a) w
    = (Throw (NotFoundError (ItemNotInGroup a pid)), w')
    /\ taskassignees (db w') = taskassignees (db w)
    /\ tasks (db w')
       = tasks (db w) ++ [mkDoc (next_oid w) (clock w) (clock w)
                                (mkTask description pid None false)].
Proof.
  intros Hs Hp Hc Hn.
  unfold Routes.createTask. as_user Hs.
  erewrite bind_ok by (now apply (creator_passes pid u w p)).
  erewrite bind_ok by reflexivity.
  eexists. split.
  - erewrite bind_throw; [reflexivity|].
    erewrite bind_throw; [reflexivity|].
    rewrite assertItemInGroup_run.
    pose proof (not_linked_find ProjectMember pid a w Hn) as Hf.
    cbn [docs GroupItemConcept.groupitems ProjectMember
         projectmembers_collection] in Hf.
    unfold logged.
    cbn [db docs setDocs GroupItemConcept.groupitems TaskingConcept.tasks
         ProjectMember Task projectmembers_collection tasks_collection
         projectmembers].
    rewrite Hf. reflexivity.
  - split; reflexivity.
Qed.

(** Task creation with an assignee who is not a member of the project: the
    task is created, then the membership assertion throws, and no assignee
    link is created. *)
Lemma createTask_refuses_non_member
      (w : World) (session : SessionDoc) (u pid a : ObjectId) (p : ProjectDoc)
      (description : string) :
  user session = Some u ->
  lookup pid (projects (db w)) = Some p ->
  creator (fields p) = u ->
  ~ linked ProjectMember pid a w ->
  let route := Routes.createTask session pid description (Some a) in
  outcome route w = Throw (NotFoundError (ItemNotInGroup a pid))
  /\ taskassignees (db (after route w)) = taskassignees (db w)
  /\ tasks (db (after route w))
     = tasks (db w) ++ [mkDoc (next_oid w) (clock w) (clock w)
                              (mkTask description pid None false)].
Proof.
  intros Hs Hp Hc Hn route.
  destruct (createTask_non_member_run w session u pid a p description Hs Hp Hc Hn)
    as [w' [R [Hl Ht]]].
  unfold outcome, after, route. rewrite R. auto.
Qed.

(** Task creation with an assignee throws on every path, and on none of
    them is an assignee link stored. *)
Lemma createTask_with_assignee_fails
      (session : SessionDoc) (pid a : ObjectId) (description : string) (w : World) :
  let route := Routes.createTask session pid description (Some a) in
  throws route w /\ taskassignees (db (after route w)) = taskassignees (db w).
Proof.
  unfold throws, outcome, after. run_route;
    (split; [eexists; reflexivity|reflexivity]).
Qed.

Lemma addTaskAssignee_run
      (w : World) (session : SessionDoc) (u tid a : ObjectId)
      (t : TaskDoc) (p : ProjectDoc) :
  user session = Some u ->
  lookup tid (tasks (db w)) = Some t ->
  lookup (project (fields t)) (projects (db w)) = Some p ->
  creator (fields p) = u ->
  Routes.addTaskAssignee session tid a w =
  (Throw (TypeError (CannotReadPropertiesOfUndefined "addGroupItem")),
   logged (ReadOne "projects" [("_id", VObjectId (project (fields t)))])
          (logged (ReadOne "tasks" [("_id", VObjectId tid)]) w)).
Proof.
  intros Hs Ht Hp Hc. unfold Routes.addTaskAssignee. as_user Hs.
  erewrite bind_ok by (apply projectOfTask_run; exact Ht).
  erewrite bind_ok by (apply (creator_passes _ u _ p); [exact Hp|exact Hc]).
  apply invoke_undefined.
Qed.

(** C3: for a user who is not a member of a project, the two routes that
    assign to a task of the project throw and store no assignee link,
    whoever calls them.  Adding the user as assignee of an existing task
    of the project throws on every path; when the caller is the creator of
    the project it is the TypeError of reading [addGroupItem] on
    [TaskAssignee], which the app does not export: the route itself makes
    no membership check.  Creating a task of the project with the user as
    assignee throws on every path; when the caller is the creator it is
    the NotFound error of the membership assertion. *)
Theorem C3_assigning_a_non_member_fails :
  forall (w : World) (session : SessionDoc) (a : ObjectId),
    (forall (tid : ObjectId) (t : TaskDoc),
        lookup tid (tasks (db w)) = Some t ->
        ~ linked ProjectMember (project (fields t)) a w ->
        let add := Routes.addTaskAssignee session tid a in
        throws add w
        /\ taskassignees (db (after add w)) = taskassignees (db w))
    /\ (forall (tid : ObjectId) (t : TaskDoc) (u : ObjectId) (p : ProjectDoc),
          lookup tid (tasks (db w)) = Some t ->
          ~ linked ProjectMember (project (fields t)) a w ->
          user session = Some u ->
          lookup (project (fields t)) (projects (db w)) = Some p ->
          creator (fields p) = u ->
          outcome (Routes.addTaskAssignee session tid a) w
          = Throw (TypeError (CannotReadPropertiesOfUndefined "addGroupItem")))
    /\ (forall (pid : ObjectId) (description : string),
          ~ linked ProjectMember pid a w ->
          let create := Routes.createTask session pid description (Some a) in
          throws create w
          /\ taskassignees (db (after create w)) = taskassignees (db w))
    /\ (forall (pid : ObjectId) (description : string) (u : ObjectId) (p : ProjectDoc),
          ~ linked ProjectMember pid a w ->
          user session = Some u ->
          lookup pid (projects (db w)) = Some p ->
          creator (fields p) = u ->
          outcome (Routes.createTask session pid description (Some a)) w
          = Throw (NotFoundError (ItemNotInGroup a pid))).
Proof.
  intros w session a. split; [|split; [|split]].
  - intros tid t _ _ add.
    destruct (addTaskAssignee_fails session tid a w) as [Ht [Hdb _]].
    fold add in Ht, Hdb. split; [exact Ht|]. now rewrite Hdb.
  - intros tid t u p Ht _ Hs Hp Hc. unfold outcome.
    now rewrite (addTaskAssignee_run w session u tid a t p Hs Ht Hp Hc).
  - intros pid description _ create.
    exact (createTask_with_assignee_fails session pid a description w).
  - intros pid description u p Hn Hs Hp Hc.
    destruct (createTask_non_member_run w session u pid a p description Hs Hp Hc Hn)
      as [w' [R _]].
    unfold outcome. now rewrite R.
Qed.

(** In the sample world bob (2) is not a member of alice's project 100.
    alice assigns him to its task 102, and creates a task with him as
    assignee: both routes throw and no assignee link is stored. *)
Lemma C3_witness :
  let add := Routes.addTaskAssignee alice 102 2 in
  let create := Routes.createTask alice 100 "review" (Some 2) in
  ~ linked ProjectMember 100 2 roadmap_world
  /\ outcome add roadmap_world
     = Throw (TypeError (CannotReadPropertiesOfUndefined "addGroupItem"))
  /\ taskassignees (db (after add roadmap_world)) = []
  /\ outcome create roadmap_world = Throw (NotFoundError (ItemNotInGroup 2 100))
  /\ taskassignees (db (after create roadmap_world)) = [].
Proof.
  intros add create.
  assert (Hn : ~ linked ProjectMember 100 2 roadmap_world).
  { intros [d [Hin [_ Hi]]]. vm_compute in Hin.
    destruct Hin as [<-|[]]. discriminate. }
  destruct (C3_assigning_a_non_member_fails roadmap_world alice 2)
    as [H1 [H2 [H3 H4]]].
  split; [exact Hn|].
  split.
  { apply (H2 102 (mkDoc 102 2 2 (mkTask "design doc" 100 None false)) 1
              (mkDoc 100 0 0 (mkProject 1 "roadmap")));
      [reflexivity|exact Hn|reflexivity|reflexivity|reflexivity]. }
  split.
  { destruct (H1 102 (mkDoc 102 2 2 (mkTask "design doc" 100 None false))
                 eq_refl Hn) as [_ H]. exact H. }
  split.
  { apply (H4 100 "review" 1 (mkDoc 100 0 0 (mkProject 1 "roadmap")));
      [exact Hn|reflexivity|reflexivity|reflexivity]. }
  destruct (H3 100 "review" Hn) as [_ H]. exact H.
Defined.

(** ** Fetching a project *)

(** C9 as stated fails: the project of [unnamed_world] exists and bob is
    logged in, yet fetching the project by its name, the empty string,
    does not return it; the route takes the name as not given and throws. *)
Lemma C9_counterexample_empty_name :
  let p := mkDoc 100 0 0 (mkProject 1 "") in
  In p (projects (db unnamed_world))
  /\ user bob = Some 2
  /\ outcome (Routes.getProject bob (Some (name (fields p))) None) unnamed_world
     = Throw (NotAllowedError DidNotSpecifyProject)
  /\ ~ fetched_by_name bob p unnamed_world.
Proof.
  intros p. split; [vm_compute; auto|]. split; [reflexivity|].
  assert (E : outcome (Routes.getProject bob (Some (name (fields p))) None) unnamed_world
              = Throw (NotAllowedError DidNotSpecifyProject)) by reflexivity.
  split; [exact E|].
  intros [ps [Hps _]]. rewrite E in Hps. discriminate.
Qed.

Lemma In_filter_name (p : ProjectDoc) (l : list ProjectDoc) :
  In p l -> In p (filter (matches [("name", VString (name (fields p)))]) l).
Proof.
  intros Hin. apply filter_In. split; trivial.
  rewrite matches_name. apply String.eqb_refl.
Qed.

(** C9, amended: for a logged-in user and an existing project whose name
    is not the empty string, fetching by that name, with no identifier,
    returns the array of the projects of that name, the project among
    them, and the only call to the store is the read of the projects: no
    membership link is read.  Fetching the project by its identifier,
    with or without a name, throws the NotFound error of the membership
    assertion when the user has no membership link to the project. *)
Theorem C9_getProject_checks_membership_only_by_id :
  forall (w : World) (session : SessionDoc) (u : ObjectId) (p : ProjectDoc),
    user session = Some u ->
    In p (projects (db w)) ->
    (name (fields p) <> "" ->
       let fetch := Routes.getProject session (Some (name (fields p))) None in
       fetched_by_name session p w
       /\ outcome fetch w
          = Ok (ByName (filter (fun q => name (fields q) =? name (fields p))
                               (projects (db w))))
       /\ after fetch w
          = logged (ReadMany "projects" [("name", VString (name (fields p)))]) w)
    /\ (~ linked ProjectMember (_id p) u w ->
        forall name : option string,
          outcome (Routes.getProject session name (Some (_id p))) w
          = Throw (NotFoundError (ItemNotInGroup u (_id p)))).
Proof.
  intros w session u p Hs Hin. split.
  - intros Hname fetch.
    assert (Hgiven : given (Some (name (fields p))) = true).
    { unfold given. apply negb_true_iff. now apply String.eqb_neq. }
    assert (R : fetch w =
                (Ok (ByName (filter (matches [("name", VString (name (fields p)))])
                                    (projects (db w)))),
                 logged (ReadMany "projects" [("name", VString (name (fields p)))]) w)).
    { unfold fetch, Routes.getProject. as_user Hs. now rewrite Hgiven. }
    split; [|split].
    + exists (filter (matches [("name", VString (name (fields p)))]) (projects (db w))).
      unfold outcome. fold fetch. rewrite R. split; [reflexivity|].
      now apply In_filter_name.
    + unfold outcome. rewrite R. cbn [fst]. do 2 f_equal.
      apply filter_ext_eq. intros q. apply matches_name.
    + unfold after. now rewrite R.
  - intros Hn nm. unfold outcome, Routes.getProject. as_user Hs.
    erewrite bind_throw; [reflexivity|].
    rewrite assertItemInGroup_run.
    now rewrite (not_linked_find ProjectMember (_id p) u w Hn).
Qed.

(** bob, who is not a member of "roadmap", fetches it by name and is
    refused it by identifier. *)
Lemma C9_witness :
  let p := mkDoc 100 0 0 (mkProject 1 "roadmap") in
  outcome (Routes.getProject bob (Some "roadmap") None) roadmap_world = Ok (ByName [p])
  /\ outcome (Routes.getProject bob (Some "roadmap") (Some 100)) roadmap_world
     = Throw (NotFoundError (ItemNotInGroup 2 100)).
Proof.
  intros p.
  assert (Hin : In p (projects (db roadmap_world))) by (vm_compute; auto).
  assert (Hname : name (fields p) <> "") by discriminate.
  assert (Hn : ~ linked ProjectMember (_id p) 2 roadmap_world).
  { intros [d [Hd [_ Hi]]]. vm_compute in Hd.
    destruct Hd as [<-|[]]. discriminate. }
  destruct (C9_getProject_checks_membership_only_by_id
              roadmap_world bob 2 p eq_refl Hin) as [Hby_name Hby_id].
  split.
  - destruct (Hby_name Hname) as [_ [H _]]. exact H.
  - exact (Hby_id Hn (Some "roadmap")).
Defined.

(** ** Lists of documents under the one-document operations *)

Lemma removeFirst_In {A} (f : A -> bool) (l : list A) (x : A) :
  In x (removeFirst f l) -> In x l.
Proof.
  induction l as [|y l IH]; simpl; trivial.
  destruct (f y); [now right|]. intros [H|H]; [now left|right; now apply IH].
Qed.

Lemma removeFirst_keeps {A} (f : A -> bool) (l : list A) (x : A) :
  In x l -> f x = false -> In x (removeFirst f l).
Proof.
  induction l as [|y l IH]; simpl; trivial.
  intros [->|H] Hf.
  - rewrite Hf. now left.
  - destruct (f y); trivial. right. now apply IH.
Qed.

Lemma removeFirst_none {A} (f : A -> bool) (l : list A) :
  find f l = None -> removeFirst f l = l.
Proof.
  induction l as [|y l IH]; simpl; trivial.
  destruct (f y); [discriminate|]. intros H. now rewrite IH.
Qed.

Lemma updateFirst_none {A} (f : A -> bool) (g : A -> A) (l : list A) :
  find f l = None -> updateFirst f g l = l.
Proof.
  induction l as [|y l IH]; simpl; trivial.
  destruct (f y); [discriminate|]. intros H. now rewrite IH.
Qed.

Lemma updateFirst_In {A} (f : A -> bool) (g : A -> A) (l : list A) (x : A) :
  In x (updateFirst f g l) ->
  In x l \/ exists y, In y l /\ f y = true /\ x = g y.
Proof.
  induction l as [|y l IH]; simpl; [tauto|].
  destruct (f y) eqn:E; simpl.
  - intros [<-|H]; [right; exists y; auto|left; now right].
  - intros [<-|H]; [left; now left|].
    destruct (IH H) as [H'|[z [Hz1 Hz2]]]; [left; now right|].
    right. exists z. tauto.
Qed.

Lemma map_updateFirst {A B} (h : A -> B) (f : A -> bool) (g : A -> A) (l : list A) :
  (forall x, h (g x) = h x) -> map h (updateFirst f g l) = map h l.
Proof.
  intros E. induction l as [|y l IH]; simpl; trivial.
  destruct (f y); simpl; [now rewrite E|now rewrite IH].
Qed.

Lemma NoDup_map_filter {A B} (h : A -> B) (f : A -> bool) (l : list A) :
  NoDup (map h l) -> NoDup (map h (filter f l)).
Proof.
  induction l as [|y l IH]; simpl; trivial.
  intros Hnd. inversion Hnd as [|z zs Hy Hl]; subst.
  destruct (f y); simpl; [|now apply IH].
  constructor; [|now apply IH].
  intros Hin. apply Hy. apply in_map_iff in Hin. destruct Hin as [x [Hx Hin]].
  apply in_map_iff. exists x. split; trivial. now apply filter_In in Hin.
Qed.

Lemma NoDup_map_removeFirst {A B} (h : A -> B) (f : A -> bool) (l : list A) :
  NoDup (map h l) -> NoDup (map h (removeFirst f l)).
Proof.
  induction l as [|y l IH]; simpl; trivial.
  intros Hnd. inversion Hnd as [|z zs Hy Hl]; subst.
  destruct (f y); simpl; trivial.
  constructor; [|now apply IH].
  intros Hin. apply Hy. apply in_map_iff in Hin. destruct Hin as [x [Hx Hin]].
  apply in_map_iff. exists x. split; trivial. now apply removeFirst_In in Hin.
Qed.

Lemma find_app_new {A} (f : A -> bool) (l : list A) (x d : A) :
  find f (l ++ [x]) = Some d -> In d (l ++ [x]) /\ f d = true.
Proof. apply find_some. Qed.

Lemma find_id_some {T} `{Schema T} (i : ObjectId) (l : list (Doc T)) (d : Doc T) :
  find (matches [("_id", VObjectId i)]) l = Some d -> In d l /\ _id d = i.
Proof. rewrite find_by_id. apply lookup_id. Qed.

(** ** Requests that only read *)

(** X4: The six routes that fetch (a project, the projects of the user, the
    members of a project, the tasks of a project, the tasks of the user,
    the assignees of a task) store nothing, whoever calls them and whatever
    they answer: the store, the identifier generator and the clock are as
    before. *)
Theorem queries_store_nothing (session : SessionDoc) (r : Request) (w : World) :
  is_query r = true -> untouched w (serve session r w).
Proof.
  intros Hq. destruct r; try discriminate Hq;
    unfold serve, after; run_route; now repeat split.
Qed.

Lemma queries_store_nothing_witness :
  untouched roadmap_world (serve bob (GetTasksForProject 100) roadmap_world)
  /\ untouched roadmap_world (serve alice (GetProject None (Some 100)) roadmap_world).
Proof.
  split.
  - apply (queries_store_nothing bob (GetTasksForProject 100) roadmap_world).
    reflexivity.
  - apply (queries_store_nothing alice (GetProject None (Some 100)) roadmap_world).
    reflexivity.
Defined.

(** ** No orphans *)

Lemma no_orphans_untouched (w w' : World) :
  untouched w w' -> no_orphans w -> no_orphans w'.
Proof. intros [E _]. unfold no_orphans. now rewrite E. Qed.

Lemma incl_map_filter {A B} (k : A -> B) (f : A -> bool) (l : list A) (c : list B) :
  incl (map k l) c -> incl (map k (filter f l)) c.
Proof.
  intros H x Hx. apply H. apply in_map_iff in Hx. destruct Hx as [y [<- Hy]].
  apply in_map. now apply filter_In in Hy.
Qed.

Lemma incl_map_removeFirst {A B} (k : A -> B) (f : A -> bool) (l : list A) (c : list B) :
  incl (map k l) c -> incl (map k (removeFirst f l)) c.
Proof.
  intros H x Hx. apply H. apply in_map_iff in Hx. destruct Hx as [y [<- Hy]].
  apply in_map. now apply removeFirst_In in Hy.
Qed.

Lemma incl_single {A} (x : A) (c : list A) : In x c -> incl [x] c.
Proof. intros H y [<-|[]]. exact H. Qed.

Lemma id_in_ids {T} `{Schema T} (i : ObjectId) (l : list (Doc T)) (d : Doc T) :
  find (matches [("_id", VObjectId i)]) l = Some d -> In i (map _id l).
Proof.
  intros E. apply find_id_some in E. destruct E as [Hin <-]. now apply in_map.
Qed.

Lemma found_in_ids {T} `{Schema T} (f : Doc T -> bool) (l : list (Doc T)) (d : Doc T) :
  find f l = Some d -> In (_id d) (map _id l).
Proof. intros E. apply find_some in E. apply in_map. tauto. Qed.

(** An identifier other than the deleted one is still there. *)
Lemma id_survives_removeFirst {T} `{Schema T} (i x : ObjectId) (l : list (Doc T)) :
  In x (map _id l) -> x <> i ->
  In x (map _id (removeFirst (matches [("_id", VObjectId i)]) l)).
Proof.
  intros Hx Hne. apply in_map_iff in Hx. destruct Hx as [d [<- Hd]].
  apply in_map. apply removeFirst_keeps; trivial.
  rewrite matches_id. now apply Nat.eqb_neq.
Qed.

Create HintDb orphans.
#[local] Hint Resolve incl_map_filter incl_map_removeFirst incl_single incl_appl
  incl_app in_or_app in_eq : orphans.

(** What a successful read tells: the identifier found is one of the
    collection, and it is the one asked for when the read was by [_id]. *)
Ltac find_facts :=
  repeat match goal with
    | H : find (matches [("_id", VObjectId ?i)]) ?l = Some ?d |- _ =>
        let F := fresh "F" in
        let G := fresh "G" in
        pose proof (found_in_ids _ _ _ H) as F;
        pose proof (id_in_ids _ _ _ H) as G;
        apply find_id_some in H; destruct H as [_ H]
    end.

Ltac orphans I :=
  let It := fresh "It" in
  let Il := fresh "Il" in
  let Im := fresh "Im" in
  destruct I as [It [Il Im]];
  unfold no_orphans, tasks_have_projects, links_have_tasks, members_have_projects in *;
  project_fields;
  try (split; [exact It|split; [exact Il|exact Im]]);
  find_facts;
  rewrite ?map_app in *; cbn [map fields group project _id] in *;
  rewrite ?(map_updateFirst _id) by reflexivity;
  rewrite ?(map_updateFirst (fun t : Doc TaskFields => project (fields t)))
    by reflexivity;
  try (split; [|split]; solve [eauto 6 with orphans]).

(** Project deletion either leaves the store as it was or is run by the
    creator of an existing project. *)
Lemma deleteProject_cases (session : SessionDoc) (id : ObjectId) (w : World) :
  untouched w (after (Routes.deleteProject session id) w)
  \/ exists u p, user session = Some u
                 /\ lookup id (projects (db w)) = Some p
                 /\ creator (fields p) = u.
Proof.
  destruct (user session) as [u|] eqn:Hs.
  - destruct (lookup id (projects (db w))) as [p|] eqn:Hp.
    + destruct (Nat.eq_dec (creator (fields p)) u) as [Hc|Hc].
      * right. now exists u, p.
      * left. unfold after, Routes.deleteProject. as_user Hs.
        erewrite bind_throw by (now apply (other_user_fails id u w p)).
        now repeat split.
    + left. unfold after, Routes.deleteProject. as_user Hs.
      erewrite bind_throw by (now apply missing_project_fails).
      now repeat split.
  - left. unfold after, Routes.deleteProject.
    rewrite getUser_none by trivial. now repeat split.
Qed.

Lemma no_task_to_delete (pid : ObjectId) (w : World) :
  tasks_of pid w = [] ->
  filter (fun d => negb (matches [("project", VObjectId pid)] d)) (tasks (db w))
  = tasks (db w).
Proof.
  intros Ets.
  rewrite (filter_ext_eq _ (fun t => negb (project (fields t) =? pid)%nat))
    by (intros t; now rewrite matches_project).
  now apply filter_negb_all.
Qed.

Lemma deleteProject_keeps_no_orphans session id w :
  no_orphans w -> no_orphans (serve session (DeleteProject id) w).
Proof.
  intros I. unfold serve.
  destruct (deleteProject_cases session id w) as [U|[u [p [Hs [Hp Hc]]]]].
  - now apply (no_orphans_untouched w).
  - unfold after. rewrite (deleteProject_run w session u id p Hs Hp Hc).
    destruct I as [It [Il Im]].
    unfold no_orphans, tasks_have_projects, links_have_tasks, members_have_projects in *.
    destruct (tasks_of id w) as [|t0 ts] eqn:Ets;
      cbn [snd db stopped_deletion finished_deletion
           projects projectmembers taskassignees tasks].
    + rewrite (no_task_to_delete id w Ets).
      split; [|split; [exact Il|]].
      * intros x Hx. apply in_map_iff in Hx. destruct Hx as [t [<- Ht]].
        apply id_survives_removeFirst.
        -- apply It. now apply (in_map (fun t => project (fields t))).
        -- intros Heq.
           assert (Hin : In t (tasks_of id w))
             by (apply filter_In; split; [exact Ht|now apply Nat.eqb_eq]).
           rewrite Ets in Hin. destruct Hin.
      * intros x Hx. apply in_map_iff in Hx. destruct Hx as [m [<- Hm]].
        apply filter_In in Hm. destruct Hm as [Hm Hg].
        rewrite matches_group in Hg. apply negb_true_iff, Nat.eqb_neq in Hg.
        apply id_survives_removeFirst; trivial.
        apply Im. now apply (in_map (fun m => group (fields m))).
    + split; [exact It|split; [exact Il|]].
      now apply incl_map_filter.
Qed.

Lemma serve_keeps_no_orphans (session : SessionDoc) (r : Request) (w : World) :
  no_orphans w -> no_orphans (serve session r w).
Proof.
  intros I. destruct r.
  2: now apply deleteProject_keeps_no_orphans.
  all: unfold serve, after; run_route; orphans I.
Qed.

(** ** Identifiers *)

Lemma ids_ok_mono {T} (n m : ObjectId) (l : list (Doc T)) :
  n <= m -> ids_ok n l -> ids_ok m l.
Proof.
  intros Hle [Hnd Hlt]. split; trivial.
  eapply Forall_impl; [|exact Hlt]. intros i Hi. simpl in Hi. lia.
Qed.

Lemma ids_ok_filter {T} (n : ObjectId) (f : Doc T -> bool) (l : list (Doc T)) :
  ids_ok n l -> ids_ok n (filter f l).
Proof.
  intros [Hnd Hlt]. split; [now apply NoDup_map_filter|].
  apply Forall_forall. intros i Hi. rewrite Forall_forall in Hlt. apply Hlt.
  apply in_map_iff in Hi. destruct Hi as [d [<- Hd]].
  apply in_map. now apply filter_In in Hd.
Qed.

Lemma ids_ok_removeFirst {T} (n : ObjectId) (f : Doc T -> bool) (l : list (Doc T)) :
  ids_ok n l -> ids_ok n (removeFirst f l).
Proof.
  intros [Hnd Hlt]. split; [now apply NoDup_map_removeFirst|].
  apply Forall_forall. intros i Hi. rewrite Forall_forall in Hlt. apply Hlt.
  apply in_map_iff in Hi. destruct Hi as [d [<- Hd]].
  apply in_map. now apply removeFirst_In in Hd.
Qed.

Lemma ids_ok_updateFirst {T} (n : ObjectId) (f : Doc T -> bool) (g : Doc T -> Doc T)
      (l : list (Doc T)) :
  (forall x, _id (g x) = _id x) -> ids_ok n l -> ids_ok n (updateFirst f g l).
Proof. intros E. unfold ids_ok. now rewrite (map_updateFirst _id) by exact E. Qed.

Lemma ids_ok_snoc {T} (n m : ObjectId) (l : list (Doc T)) (d : Doc T) :
  ids_ok n l -> n <= _id d -> _id d < m -> ids_ok m (l ++ [d]).
Proof.
  intros [Hnd Hlt] Hn Hm. unfold ids_ok. rewrite map_app. cbn [map]. split.
  - apply NoDup_snoc; trivial. intros Hin.
    rewrite Forall_forall in Hlt. specialize (Hlt _ Hin). simpl in Hlt. lia.
  - apply Forall_app. split.
    + eapply Forall_impl; [|exact Hlt]. intros i Hi. simpl in Hi. lia.
    + constructor; [exact Hm|constructor].
Qed.

Create HintDb ids.
#[local] Hint Resolve ids_ok_filter ids_ok_removeFirst : ids.
#[local] Hint Extern 2 (ids_ok _ (updateFirst _ _ _)) =>
  apply ids_ok_updateFirst; [reflexivity|] : ids.
#[local] Hint Extern 2 (ids_ok _ (_ ++ [_])) =>
  eapply ids_ok_snoc; [eassumption|cbn [_id]; lia|cbn [_id]; lia] : ids.
#[local] Hint Extern 3 (ids_ok _ _) =>
  eapply ids_ok_mono; [|eassumption]; lia : ids.

Ltac identifiers I :=
  let Ip := fresh "Ip" in
  let Im := fresh "Im" in
  let Il := fresh "Il" in
  let It := fresh "It" in
  destruct I as [Ip [Im [Il It]]];
  unfold identifiers_ok in *; project_fields;
  try (split; [exact Ip|split; [exact Im|split; [exact Il|exact It]]]);
  try (split; [|split; [|split]]; solve [eauto 4 with ids]).

Lemma identifiers_ok_untouched (w w' : World) :
  untouched w w' -> identifiers_ok w -> identifiers_ok w'.
Proof. intros [E [E' _]]. unfold identifiers_ok. now rewrite E, E'. Qed.

Lemma serve_keeps_identifiers_ok (session : SessionDoc) (r : Request) (w : World) :
  identifiers_ok w -> identifiers_ok (serve session r w).
Proof.
  intros I. destruct r.
  2: { unfold serve.
       destruct (deleteProject_cases session id w) as [U|[u [p [Hs [Hp Hc]]]]].
       - now apply (identifiers_ok_untouched w).
       - unfold after. rewrite (deleteProject_run w session u id p Hs Hp Hc).
         destruct (tasks_of id w);
           unfold stopped_deletion, finished_deletion; identifiers I. }
  all: unfold serve, after; run_route; identifiers I.
Qed.

(** ** Names of projects *)

Lemma name_free (n : string) (l : list ProjectDoc) :
  find (matches [("name", VString n)]) l = None ->
  ~ In n (map (fun p => name (fields p)) l).
Proof.
  intros E Hin. apply in_map_iff in Hin. destruct Hin as [p [Hn Hp]].
  pose proof (find_none _ _ E p Hp) as Hm.
  rewrite matches_name, Hn, String.eqb_refl in Hm. discriminate.
Qed.

Lemma In_map_updateFirst {A B} (k : A -> B) (f : A -> bool) (g : A -> A)
      (n : B) (l : list A) (x : B) :
  (forall y, k (g y) = n) ->
  In x (map k (updateFirst f g l)) -> In x (map k l) \/ x = n.
Proof.
  intros E. induction l as [|y l IH]; simpl; [tauto|].
  destruct (f y); simpl.
  - rewrite E. intros [<-|H]; tauto.
  - intros [<-|H]; [tauto|]. destruct (IH H); tauto.
Qed.

(** Giving the first match a key that no document has keeps the keys
    pairwise distinct. *)
Lemma NoDup_rename {A B} (k : A -> B) (f : A -> bool) (g : A -> A) (n : B) (l : list A) :
  (forall y, k (g y) = n) ->
  NoDup (map k l) -> ~ In n (map k l) -> NoDup (map k (updateFirst f g l)).
Proof.
  intros E. induction l as [|y l IH]; simpl; trivial.
  intros Hnd Hn. inversion Hnd as [|z zs Hy Hl]; subst.
  destruct (f y); simpl.
  - rewrite E. constructor; [|exact Hl]. intros H. apply Hn. now right.
  - constructor.
    + intros H. destruct (In_map_updateFirst k f g n l (k y) E H) as [H'|H'].
      * now apply Hy.
      * apply Hn. left. now symmetry.
    + apply IH; trivial. intros H. apply Hn. now right.
Qed.

Lemma names_distinct_untouched (w w' : World) :
  untouched w w' -> names_distinct w -> names_distinct w'.
Proof. intros [E _]. unfold names_distinct. now rewrite E. Qed.

Ltac names I :=
  unfold names_distinct in *; project_fields;
  try exact I;
  rewrite ?map_app; cbn [map fields name];
  try (apply NoDup_snoc; [exact I|now apply name_free]);
  try (rewrite (map_updateFirst (fun p : Doc ProjectFields => name (fields p)))
        by reflexivity; exact I);
  try match goal with
      | H : find (matches [("name", VString ?new)]) _ = None |- _ =>
          apply NoDup_rename with (n := new);
          [reflexivity|exact I|now apply name_free]
      end.

Lemma serve_keeps_names_distinct (session : SessionDoc) (r : Request) (w : World) :
  names_distinct w -> names_distinct (serve session r w).
Proof.
  intros I. destruct r.
  2: { unfold serve.
       destruct (deleteProject_cases session id w) as [U|[u [p [Hs [Hp Hc]]]]].
       - now apply (names_distinct_untouched w).
       - unfold after. rewrite (deleteProject_run w session u id p Hs Hp Hc).
         unfold names_distinct in *.
         destruct (tasks_of id w);
           cbn [snd stopped_deletion finished_deletion db projects];
           [now apply NoDup_map_removeFirst|exact I]. }
  all: unfold serve, after; run_route; names I.
Qed.

(** ** The invariants along a history *)

(** X1: Whatever requests are served, by whatever sessions, and whether they
    succeed or fail, no orphan appears: if before the history every task is
    under a project of the store, every assignee link is for a task of the
    store and every membership link is for a project of the store, the
    same holds after it. *)
Theorem no_orphans_after_every_history :
  forall (history : list (SessionDoc * Request)) (w : World),
    no_orphans w -> no_orphans (serve_all history w).
Proof.
  induction history as [|[session r] rest IH]; intros w I; [exact I|].
  apply IH. now apply serve_keeps_no_orphans.
Qed.

Lemma no_orphans_after_every_history_witness :
  no_orphans (serve_all sample_history empty_world).
Proof.
  apply (no_orphans_after_every_history sample_history empty_world).
  repeat split; intros x [].
Defined.

(** X3: Whatever requests are served, the identifiers of each collection stay
    pairwise distinct and below the next identifier of the generator. *)
Theorem identifiers_ok_after_every_history :
  forall (history : list (SessionDoc * Request)) (w : World),
    identifiers_ok w -> identifiers_ok (serve_all history w).
Proof.
  induction history as [|[session r] rest IH]; intros w I; [exact I|].
  apply IH. now apply serve_keeps_identifiers_ok.
Qed.

Lemma identifiers_ok_after_every_history_witness :
  identifiers_ok (serve_all sample_history empty_world).
Proof.
  apply (identifiers_ok_after_every_history sample_history empty_world).
  repeat split; constructor.
Defined.

(** X2: Whatever requests are served, the names of the projects stay pairwise
    distinct: the routes that create and rename check the name, and no
    other route changes a name. *)
Theorem names_distinct_after_every_history :
  forall (history : list (SessionDoc * Request)) (w : World),
    names_distinct w -> names_distinct (serve_all history w).
Proof.
  induction history as [|[session r] rest IH]; intros w I; [exact I|].
  apply IH. now apply serve_keeps_names_distinct.
Qed.

Lemma names_distinct_after_every_history_witness :
  names_distinct (serve_all sample_history empty_world).
Proof.
  apply (names_distinct_after_every_history sample_history empty_world).
  constructor.
Defined.

(** ** Running a route under known facts *)

Ltac use_facts :=
  repeat (match goal with
          | H : user ?s = _ |- context [user ?s] => rewrite H
          | H : find ?f ?l = _ |- context [find ?f ?l] => rewrite H
          | H : (?a =? ?b)%nat = _ |- context [(?a =? ?b)%nat] => rewrite H
          | H : given ?s = _ |- context [given ?s] => rewrite H
          end; cbn [negb]; project_fields).

Ltac run_known :=
  open_routes; open_concepts; open_concepts; open_store; project_fields; use_facts.

Lemma lookup_as_find {T} `{Schema T} (i : ObjectId) (l : list (Doc T)) (r : option (Doc T)) :
  lookup i l = r -> find (matches [("_id", VObjectId i)]) l = r.
Proof. intros E. now rewrite find_by_id. Qed.

Lemma linked_members_find (g i : ObjectId) (w : World) :
  linked ProjectMember g i w ->
  exists d, find (matches [("group", VObjectId g); ("item", VObjectId i)])
                 (projectmembers (db w)) = Some d.
Proof. intros L. now apply (linked_find ProjectMember) in L. Qed.

Lemma not_linked_members_find (g i : ObjectId) (w : World) :
  ~ linked ProjectMember g i w ->
  find (matches [("group", VObjectId g); ("item", VObjectId i)])
       (projectmembers (db w)) = None.
Proof. intros L. now apply (not_linked_find ProjectMember) in L. Qed.

(** Deciding the two relations by reading. *)
Lemma not_linked_by_find (self : GroupItemConcept.t) (g i : ObjectId) (w : World) :
  find (matches [("group", VObjectId g); ("item", VObjectId i)])
       (docs (GroupItemConcept.groupitems self) (db w)) = None ->
  ~ linked self g i w.
Proof. intros E L. apply linked_find in L. destruct L as [d Hd]. congruence. Qed.

Lemma linked_by_find (self : GroupItemConcept.t) (g i : ObjectId) (w : World)
      (d : GroupItemDoc) :
  find (matches [("group", VObjectId g); ("item", VObjectId i)])
       (docs (GroupItemConcept.groupitems self) (db w)) = Some d ->
  linked self g i w.
Proof. intros E. apply linked_find. now exists d. Qed.

Lemma name_free_by_find (self : ProjectConcept.t) (n : string) (w : World) :
  find (matches [("name", VString n)]) (docs (ProjectConcept.projects self) (db w)) = None ->
  ~ name_taken self n w.
Proof. intros E T. apply name_taken_find in T. destruct T as [p Hp]. congruence. Qed.

Lemma name_taken_by_find (self : ProjectConcept.t) (n : string) (w : World)
      (p : ProjectDoc) :
  find (matches [("name", VString n)]) (docs (ProjectConcept.projects self) (db w)) = Some p ->
  name_taken self n w.
Proof. intros E. apply name_taken_find. now exists p. Qed.

(** ** Missing projects and missing tasks *)

(** X6: For a logged-in user and an identifier that no project has, each of
    the routes that delete the project, rename it, change its manager, add
    a member, remove a member and create a task in it throws the NotFound
    error of the project and stores nothing. *)
Theorem routes_on_a_missing_project :
  forall (w : World) (session : SessionDoc) (u id : ObjectId),
    user session = Some u ->
    lookup id (projects (db w)) = None ->
    let e := NotFoundError (ProjectDoesNotExist id) in
    rejected (Routes.deleteProject session id) e w
    /\ (forall name, rejected (Routes.updateProjectName session id name) e w)
    /\ (forall manager, rejected (Routes.updateProjectManager session id manager) e w)
    /\ (forall member, rejected (Routes.addMemberToProject session id member) e w)
    /\ (forall member, rejected (Routes.deleteMemberFromProject session id member) e w)
    /\ (forall description assignee,
           rejected (Routes.createTask session id description assignee) e w).
Proof.
  intros w session u id Hs Hp e. apply lookup_as_find in Hp.
  repeat split; intros; unfold outcome, after; run_known; reflexivity.
Qed.

Lemma routes_on_a_missing_project_witness :
  rejected (Routes.deleteProject alice 7) (NotFoundError (ProjectDoesNotExist 7))
           roadmap_world
  /\ rejected (Routes.createTask alice 7 "x" None)
              (NotFoundError (ProjectDoesNotExist 7)) roadmap_world.
Proof.
  destruct (routes_on_a_missing_project roadmap_world alice 1 7 eq_refl eq_refl)
    as [H1 [_ [_ [_ [_ H6]]]]].
  split; [exact H1|apply H6].
Defined.

(** X7: For a logged-in user and an identifier that no task has, each of the
    routes that delete the task, change its description, add an assignee,
    unassign it and list its assignees throws the NotAllowed error "Task
    does not exist!" and stores nothing. *)
Theorem routes_on_a_missing_task :
  forall (w : World) (session : SessionDoc) (u task : ObjectId),
    user session = Some u ->
    lookup task (tasks (db w)) = None ->
    let e := NotAllowedError TaskDoesNotExist in
    rejected (Routes.deleteTask session task) e w
    /\ (forall description, rejected (Routes.updateTaskDescription session task description) e w)
    /\ (forall assignee, rejected (Routes.addTaskAssignee session task assignee) e w)
    /\ rejected (Routes.unassignTask session task) e w
    /\ rejected (Routes.getAssigneesForTask session task) e w.
Proof.
  intros w session u task Hs Hp e. apply lookup_as_find in Hp.
  repeat split; intros; unfold outcome, after; run_known; reflexivity.
Qed.

Lemma routes_on_a_missing_task_witness :
  rejected (Routes.deleteTask alice 7) (NotAllowedError TaskDoesNotExist) roadmap_world
  /\ rejected (Routes.addTaskAssignee alice 7 2) (NotAllowedError TaskDoesNotExist)
              roadmap_world.
Proof.
  destruct (routes_on_a_missing_task roadmap_world alice 1 7 eq_refl eq_refl)
    as [H1 [_ [H3 _]]].
  split; [exact H1|apply H3].
Defined.

(** The identifiers of the sample worlds are in order. *)
Ltac ids_by_computation :=
  vm_compute; repeat split;
  repeat (constructor; [cbn; intuition (try discriminate; try lia)|]);
  repeat constructor.

Lemma identifiers_ok_roadmap : identifiers_ok roadmap_world.
Proof. ids_by_computation. Qed.

Lemma identifiers_ok_two_projects : identifiers_ok two_projects_world.
Proof. ids_by_computation. Qed.

(** ** Creating a project *)

Lemma find_new_doc {T} `{Schema T} (n : ObjectId) (l : list (Doc T)) (d : Doc T) :
  Forall (fun i => i < n) (map _id l) -> _id d = n ->
  find (matches [("_id", VObjectId n)]) (l ++ [d]) = Some d.
Proof.
  intros Hl Hd. induction l as [|x l IH]; cbn [app find].
  - rewrite matches_id, Hd, Nat.eqb_refl. reflexivity.
  - rewrite matches_id. inversion Hl as [|i ids Hx Hrest]; subst.
    destruct (Nat.eqb_spec (_id x) (_id d)) as [Heq|_]; [lia|].
    now apply IH.
Qed.

Lemma find_new_id {T} `{Schema T} (n : ObjectId) (l : list (Doc T)) (d : Doc T) :
  _id d = n ->
  exists found, find (matches [("_id", VObjectId n)]) (l ++ [d]) = Some found
                /\ _id found = n.
Proof.
  intros Hd. destruct (find _ _) as [found|] eqn:E.
  - exists found. split; trivial. now apply find_id_some in E.
  - assert (Hin : In d (l ++ [d])) by (apply in_or_app; right; now left).
    pose proof (find_none _ _ E d Hin) as Hm.
    rewrite matches_id, Hd, Nat.eqb_refl in Hm. discriminate.
Qed.

Lemma createProject_taken (w : World) (session : SessionDoc) (u : ObjectId) (n : string) :
  user session = Some u ->
  name_taken Project n w ->
  Routes.createProject session n w =
  (Throw (NotAllowedError (ProjectNameExists n)),
   logged (ReadOne "projects" [("name", VString n)]) w).
Proof.
  intros Hs Ht. apply (name_taken_find Project) in Ht. destruct Ht as [p Hp].
  cbn [docs ProjectConcept.projects Project projects_collection] in Hp.
  run_known. reflexivity.
Qed.

Lemma createProject_free (w : World) (session : SessionDoc) (u : ObjectId) (n : string) :
  user session = Some u ->
  ~ name_taken Project n w ->
  let d := mkDoc (next_oid w) (clock w) (clock w) (mkProject u n) in
  Routes.createProject session n w =
  (Ok ("Successfully created project!",
       find (matches [("_id", VObjectId (next_oid w))]) (projects (db w) ++ [d])),
   mkWorld
     (mkDB (projects (db w) ++ [d])
           (projectmembers (db w)
            ++ [mkDoc (S (next_oid w)) (S (clock w)) (S (clock w))
                      (mkGroupItem (next_oid w) u)])
           (taskassignees (db w)) (tasks (db w)))
     (S (S (next_oid w))) (S (S (clock w)))
     (calls w ++ [ReadOne "projects" [("name", VString n)];
                  CreateOne "projects";
                  ReadOne "projects" [("_id", VObjectId (next_oid w))];
                  CreateOne "projectmembers"])).
Proof.
  intros Hs Hf d.
  assert (Hn : find (matches [("name", VString n)]) (projects (db w)) = None).
  { destruct (find _ _) as [p|] eqn:E; trivial.
    elim Hf. apply (name_taken_find Project). now exists p. }
  destruct (find_new_id (next_oid w) (projects (db w)) d eq_refl) as [found [Hfound Hid]].
  run_known. fold d. rewrite Hfound. project_fields. rewrite Hid.
  rewrite <- !app_assoc. cbn [app]. rewrite <- Hfound. reflexivity.
Qed.

(** X8: [createProject], for a logged-in user.  When the name is taken the
    route throws the NotAllowed error of the name and stores nothing.
    Otherwise it appends the project, with the user as its creator, and one
    membership link of the user to the new project, so that the creator is
    a member; and in a store whose identifiers are in order the route
    returns the new project and the creator check then passes for the user. *)
Theorem createProject_makes_the_creator_a_member :
  forall (w : World) (session : SessionDoc) (u : ObjectId) (n : string),
    user session = Some u ->
    let route := Routes.createProject session n in
    let w' := after route w in
    let d := mkDoc (next_oid w) (clock w) (clock w) (mkProject u n) in
    (name_taken Project n w ->
       rejected route (NotAllowedError (ProjectNameExists n)) w)
    /\ (~ name_taken Project n w ->
        projects (db w') = projects (db w) ++ [d]
        /\ projectmembers (db w')
           = projectmembers (db w)
             ++ [mkDoc (S (next_oid w)) (S (clock w)) (S (clock w))
                       (mkGroupItem (next_oid w) u)]
        /\ taskassignees (db w') = taskassignees (db w)
        /\ tasks (db w') = tasks (db w)
        /\ linked ProjectMember (next_oid w) u w'
        /\ (identifiers_ok w ->
            outcome route w = Ok ("Successfully created project!", Some d)
            /\ outcome (ProjectConcept.assertUserIsCreator Project (next_oid w) u) w'
               = Ok tt)).
Proof.
  intros w session u n Hs route w' d. split.
  - intros Ht. unfold rejected, outcome, after, route.
    rewrite (createProject_taken w session u n Hs Ht). now repeat split.
  - intros Hf. unfold w', outcome, after, route.
    rewrite (createProject_free w session u n Hs Hf). cbn [fst snd db projects
      projectmembers taskassignees tasks].
    do 4 (split; [reflexivity|]). split.
    + exists (mkDoc (S (next_oid w)) (S (clock w)) (S (clock w))
                    (mkGroupItem (next_oid w) u)).
      split; [|split; reflexivity].
      cbn [docs GroupItemConcept.groupitems ProjectMember projectmembers_collection
           db projectmembers].
      apply in_or_app. right. now left.
    + intros [[_ Hlt] _].
      assert (Hfound : find (matches [("_id", VObjectId (next_oid w))])
                            (projects (db w) ++ [d]) = Some d)
        by (now apply find_new_doc).
      fold d. rewrite Hfound. split; [reflexivity|].
      rewrite assertUserIsCreator_run.
      cbn [fst docs ProjectConcept.projects Project projects_collection db projects].
      rewrite <- find_by_id. fold d. rewrite Hfound.
      cbn [fields creator]. now rewrite Nat.eqb_refl.
Qed.

Lemma createProject_makes_the_creator_a_member_witness :
  rejected (Routes.createProject bob "roadmap")
           (NotAllowedError (ProjectNameExists "roadmap")) roadmap_world
  /\ outcome (Routes.createProject bob "garden") roadmap_world
     = Ok ("Successfully created project!", Some (mkDoc 103 3 3 (mkProject 2 "garden")))
  /\ linked ProjectMember 103 2 (after (Routes.createProject bob "garden") roadmap_world).
Proof.
  destruct (createProject_makes_the_creator_a_member roadmap_world bob 2 "roadmap" eq_refl)
    as [Htaken _].
  destruct (createProject_makes_the_creator_a_member roadmap_world bob 2 "garden" eq_refl)
    as [_ Hfree].
  split.
  - apply Htaken. exists (mkDoc 100 0 0 (mkProject 1 "roadmap")). vm_compute. auto.
  - destruct Hfree as [_ [_ [_ [_ [Hl Hok]]]]].
    + apply name_free_by_find. vm_compute. reflexivity.
    + split; [|exact Hl]. apply Hok. exact identifiers_ok_roadmap.
Defined.

(** ** Handing a project over *)

Lemma lookup_updateFirst {T} `{Schema T} (i : ObjectId) (g : Doc T -> Doc T)
      (l : list (Doc T)) :
  (forall d, _id (g d) = _id d) ->
  lookup i (updateFirst (matches [("_id", VObjectId i)]) g l)
  = option_map g (lookup i l).
Proof.
  intros Hg. rewrite <- !find_by_id. apply find_updateFirst.
  intros d. now rewrite !matches_id, Hg.
Qed.

Lemma updateProjectManager_run
      (w : World) (session : SessionDoc) (u id m : ObjectId) (p : ProjectDoc) :
  user session = Some u ->
  lookup id (projects (db w)) = Some p ->
  creator (fields p) = u ->
  linked ProjectMember id m w ->
  Routes.updateProjectManager session id m w =
  (Ok "Project manager successfully updated!",
   mkWorld
     (mkDB (updateFirst (matches [("_id", VObjectId id)])
                        (fun d => mkDoc (_id d) (dateCreated d) (clock w)
                                        (mkProject m (name (fields d))))
                        (projects (db w)))
           (projectmembers (db w)) (taskassignees (db w)) (tasks (db w)))
     (next_oid w) (S (clock w))
     (calls w ++ [ReadOne "projects" [("_id", VObjectId id)];
                  ReadOne "projectmembers"
                          [("group", VObjectId id); ("item", VObjectId m)];
                  PartialUpdateOne "projects" [("_id", VObjectId id)]
                                   [("creator", VObjectId m)]])).
Proof.
  intros Hs Hp Hc Hl. apply lookup_as_find in Hp. apply Nat.eqb_eq in Hc.
  apply linked_members_find in Hl. destruct Hl as [l Hl].
  run_known. rewrite <- !app_assoc. reflexivity.
Qed.

(** X9: [updateProjectManager], run by the creator of the project.  For a user
    who has no membership link to the project it throws the NotFound error
    of the membership assertion and stores nothing.  For a member it
    returns normally, and then the project found by the identifier has the
    member as its creator and the same name; the creator check passes for
    the new manager and refuses the former one, if they differ; members,
    tasks and assignee links are as before. *)
Theorem updateProjectManager_hands_the_project_over :
  forall (w : World) (session : SessionDoc) (u id m : ObjectId) (p : ProjectDoc),
    user session = Some u ->
    lookup id (projects (db w)) = Some p ->
    creator (fields p) = u ->
    let route := Routes.updateProjectManager session id m in
    let w' := after route w in
    (~ linked ProjectMember id m w ->
       rejected route (NotFoundError (ItemNotInGroup m id)) w)
    /\ (linked ProjectMember id m w ->
        outcome route w = Ok "Project manager successfully updated!"
        /\ lookup id (projects (db w'))
           = Some (mkDoc (_id p) (dateCreated p) (clock w)
                         (mkProject m (name (fields p))))
        /\ outcome (ProjectConcept.assertUserIsCreator Project id m) w' = Ok tt
        /\ (u <> m ->
            outcome (ProjectConcept.assertUserIsCreator Project id u) w'
            = Throw (UserCreatorNotMatchError u id))
        /\ projectmembers (db w') = projectmembers (db w)
        /\ taskassignees (db w') = taskassignees (db w)
        /\ tasks (db w') = tasks (db w)).
Proof.
  intros w session u id m p Hs Hp Hc route w'. split.
  - intros Hn. apply not_linked_members_find in Hn.
    apply lookup_as_find in Hp. apply Nat.eqb_eq in Hc.
    unfold rejected, outcome, after, route. run_known. now repeat split.
  - intros Hl.
    pose proof (updateProjectManager_run w session u id m p Hs Hp Hc Hl) as R.
    fold route in R.
    assert (Hp' : lookup id (projects (db w'))
                  = Some (mkDoc (_id p) (dateCreated p) (clock w)
                                (mkProject m (name (fields p))))).
    { unfold w', after. rewrite R. cbn [snd db projects].
      rewrite lookup_updateFirst by reflexivity. now rewrite Hp. }
    split; [unfold outcome; now rewrite R|]. split; [exact Hp'|].
    split; [|split; [|unfold w', after; rewrite R; now repeat split]].
    + unfold outcome. rewrite assertUserIsCreator_run.
      cbn [fst docs ProjectConcept.projects Project projects_collection].
      rewrite Hp'. cbn [fields creator]. now rewrite Nat.eqb_refl.
    + intros Hne. unfold outcome. rewrite assertUserIsCreator_run.
      cbn [fst docs ProjectConcept.projects Project projects_collection].
      rewrite Hp'. cbn [fields creator].
      assert (E : (m =? u)%nat = false) by (apply Nat.eqb_neq; congruence).
      now rewrite E.
Qed.

Lemma updateProjectManager_hands_the_project_over_witness :
  let w := after (Routes.addMemberToProject alice 100 2) roadmap_world in
  rejected (Routes.updateProjectManager alice 100 3)
           (NotFoundError (ItemNotInGroup 3 100)) w
  /\ outcome (ProjectConcept.assertUserIsCreator Project 100 1)
             (after (Routes.updateProjectManager alice 100 2) w)
     = Throw (UserCreatorNotMatchError 1 100)
  /\ outcome (ProjectConcept.assertUserIsCreator Project 100 2)
             (after (Routes.updateProjectManager alice 100 2) w)
     = Ok tt.
Proof.
  intros w.
  destruct (updateProjectManager_hands_the_project_over
              w alice 1 100 3 (mkDoc 100 0 0 (mkProject 1 "roadmap"))
              eq_refl eq_refl eq_refl) as [Hno _].
  destruct (updateProjectManager_hands_the_project_over
              w alice 1 100 2 (mkDoc 100 0 0 (mkProject 1 "roadmap"))
              eq_refl eq_refl eq_refl) as [_ Hyes].
  split.
  - apply Hno. apply not_linked_by_find. vm_compute. reflexivity.
  - destruct Hyes as [_ [_ [Hnew [Hold _]]]].
    + exists (mkDoc 103 3 3 (mkGroupItem 100 2)). vm_compute. auto.
    + split; [apply Hold; discriminate|exact Hnew].
Defined.

(** ** Deleting and unassigning a task *)

Lemma lookup_removeFirst_unique {T} `{Schema T} (i : ObjectId) (l : list (Doc T)) :
  NoDup (map _id l) ->
  lookup i (removeFirst (matches [("_id", VObjectId i)]) l) = None.
Proof.
  intros Hnd. apply find_none_iff. intros d Hd. apply Nat.eqb_neq.
  rewrite (removeFirst_ext_eq _ (fun d => (_id d =? i)%nat)) in Hd
    by (intros x; apply matches_id).
  now apply (removeFirst_unique_id i l).
Qed.

Lemma no_match_after_deleteMany {A} (f : A -> bool) (l : list A) :
  filter f (filter (fun d => negb (f d)) l) = [].
Proof.
  induction l as [|x l IH]; simpl; trivial.
  destruct (f x) eqn:E; simpl; trivial. now rewrite E.
Qed.

Lemma deleteTask_run
      (w : World) (session : SessionDoc) (u task : ObjectId)
      (t : TaskDoc) (p : ProjectDoc) :
  user session = Some u ->
  lookup task (tasks (db w)) = Some t ->
  lookup (project (fields t)) (projects (db w)) = Some p ->
  creator (fields p) = u ->
  Routes.deleteTask session task w =
  (Throw (TypeError (CannotReadPropertiesOfUndefined "deleteAllItemsInGroup")),
   mkWorld (db w) (next_oid w) (clock w)
     (calls w ++ [ReadOne "tasks" [("_id", VObjectId task)];
                  ReadOne "projects" [("_id", VObjectId (project (fields t)))]])).
Proof.
  intros Hs Ht Hp Hc. apply lookup_as_find in Ht, Hp. apply Nat.eqb_eq in Hc.
  run_known. rewrite <- !app_assoc. reflexivity.
Qed.

(** X12: [deleteTask] deletes nothing.  On every input the route throws and
    leaves the store as it was.  Run by the creator of the project of an
    existing task, it throws the TypeError of reading
    [deleteAllItemsInGroup] on [TaskAssignee], which the app does not
    export, before [Task.delete] is reached: its calls to the store are the
    read of the task and the read of the project, and the task is found
    afterwards as before. *)
Theorem deleteTask_deletes_nothing :
  forall (w : World) (session : SessionDoc) (task : ObjectId),
    let route := Routes.deleteTask session task in
    let w' := after route w in
    throws route w
    /\ untouched w w'
    /\ (forall (u : ObjectId) (t : TaskDoc) (p : ProjectDoc),
          user session = Some u ->
          lookup task (tasks (db w)) = Some t ->
          lookup (project (fields t)) (projects (db w)) = Some p ->
          creator (fields p) = u ->
          outcome route w
          = Throw (TypeError (CannotReadPropertiesOfUndefined "deleteAllItemsInGroup"))
          /\ calls w'
             = calls w ++ [ReadOne "tasks" [("_id", VObjectId task)];
                           ReadOne "projects" [("_id", VObjectId (project (fields t)))]]
          /\ outcome (TaskingConcept.getTask Task task) w' = Ok (Some t)).
Proof.
  intros w session task route w'.
  destruct (deleteTask_fails session task w) as [Ht Hu].
  split; [exact Ht|]. split; [exact Hu|].
  intros u t p Hs Hft Hp Hc.
  pose proof (deleteTask_run w session u task t p Hs Hft Hp Hc) as R.
  fold route in R. unfold outcome, w', after. rewrite R. cbn [fst snd calls].
  split; [reflexivity|]. split; [reflexivity|].
  unfold TaskingConcept.getTask, readOne. project_fields.
  rewrite find_by_id. now rewrite Hft.
Qed.

Lemma deleteTask_deletes_nothing_witness :
  let route := Routes.deleteTask alice 102 in
  outcome route roadmap_world
  = Throw (TypeError (CannotReadPropertiesOfUndefined "deleteAllItemsInGroup"))
  /\ outcome (TaskingConcept.getTask Task 102) (after route roadmap_world)
     = Ok (Some (mkDoc 102 2 2 (mkTask "design doc" 100 None false))).
Proof.
  intros route.
  destruct (deleteTask_deletes_nothing roadmap_world alice 102) as [_ [_ H]].
  destruct (H 1 (mkDoc 102 2 2 (mkTask "design doc" 100 None false))
              (mkDoc 100 0 0 (mkProject 1 "roadmap"))
              eq_refl eq_refl eq_refl eq_refl)
    as [H1 [_ H3]].
  split; [exact H1|exact H3].
Defined.

Lemma unassignTask_run
      (w : World) (session : SessionDoc) (u task : ObjectId)
      (t : TaskDoc) (p : ProjectDoc) :
  user session = Some u ->
  lookup task (tasks (db w)) = Some t ->
  lookup (project (fields t)) (projects (db w)) = Some p ->
  creator (fields p) = u ->
  Routes.unassignTask session task w =
  (Throw (TypeError (CannotReadPropertiesOfUndefined "deleteAllItemsInGroup")),
   mkWorld (db w) (next_oid w) (clock w)
     (calls w ++ [ReadOne "tasks" [("_id", VObjectId task)];
                  ReadOne "projects" [("_id", VObjectId (project (fields t)))]])).
Proof.
  intros Hs Ht Hp Hc. apply lookup_as_find in Ht, Hp. apply Nat.eqb_eq in Hc.
  run_known. rewrite <- !app_assoc. reflexivity.
Qed.

(** X13: The route [unassignTask] deletes no assignee link and writes no
    task.  On every input it throws and leaves the store as it was.  Run
    by the creator of the project of an existing task, it throws the
    TypeError of reading [deleteAllItemsInGroup] on [TaskAssignee] after
    the two reads: every user assigned to the task before is assigned to it
    afterwards, and the task document is as before. *)
Theorem unassignTask_route_deletes_nothing :
  forall (w : World) (session : SessionDoc) (task : ObjectId),
    let route := Routes.unassignTask session task in
    let w' := after route w in
    throws route w
    /\ untouched w w'
    /\ (forall i, assigned task i w' <-> assigned task i w)
    /\ (forall (u : ObjectId) (t : TaskDoc) (p : ProjectDoc),
          user session = Some u ->
          lookup task (tasks (db w)) = Some t ->
          lookup (project (fields t)) (projects (db w)) = Some p ->
          creator (fields p) = u ->
          outcome route w
          = Throw (TypeError (CannotReadPropertiesOfUndefined "deleteAllItemsInGroup"))
          /\ calls w'
             = calls w ++ [ReadOne "tasks" [("_id", VObjectId task)];
                           ReadOne "projects" [("_id", VObjectId (project (fields t)))]]
          /\ lookup task (tasks (db w')) = Some t).
Proof.
  intros w session task route w'.
  destruct (unassignTask_fails session task w) as [Ht Hu].
  split; [exact Ht|]. split; [exact Hu|]. split.
  - intros i. unfold assigned. fold route in Hu. fold w' in Hu.
    destruct Hu as [Hdb _]. now rewrite Hdb.
  - intros u t p Hs Hft Hp Hc.
    pose proof (unassignTask_run w session u task t p Hs Hft Hp Hc) as R.
    fold route in R. unfold outcome, w', after. rewrite R. cbn [fst snd calls db].
    split; [reflexivity|]. split; [reflexivity|exact Hft].
Qed.

(** In [assigned_world] bob is assigned to the task 102; alice, the
    creator of its project, unassigns the task: bob is still assigned. *)
Lemma unassignTask_route_deletes_nothing_witness :
  let route := Routes.unassignTask alice 102 in
  outcome route assigned_world
  = Throw (TypeError (CannotReadPropertiesOfUndefined "deleteAllItemsInGroup"))
  /\ assigned 102 2 (after route assigned_world).
Proof.
  intros route.
  destruct (unassignTask_route_deletes_nothing assigned_world alice 102)
    as [_ [_ [H3 H4]]].
  destruct (H4 1 (mkDoc 102 2 2 (mkTask "design doc" 100 None false))
               (mkDoc 100 0 0 (mkProject 1 "roadmap"))
               eq_refl eq_refl eq_refl eq_refl)
    as [H5 _].
  split; [exact H5|]. apply H3.
  exists (mkDoc 104 4 4 (mkGroupItem 102 2)). split; [now left|now split].
Defined.

(** ** Creating a task *)

Lemma createTask_run
      (w : World) (session : SessionDoc) (u pid : ObjectId) (p : ProjectDoc)
      (description : string) (assignee : option ObjectId) :
  user session = Some u ->
  lookup pid (projects (db w)) = Some p ->
  creator (fields p) = u ->
  (forall a, assignee = Some a -> linked ProjectMember pid a w) ->
  let t := mkDoc (next_oid w) (clock w) (clock w) (mkTask description pid None false) in
  let found := find (matches [("_id", VObjectId (next_oid w))]) (tasks (db w) ++ [t]) in
  let stored := mkDB (projects (db w)) (projectmembers (db w)) (taskassignees (db w))
                     (tasks (db w) ++ [t]) in
  Routes.createTask session pid description assignee w =
  match assignee with
  | None =>
      (Ok ("Task successfully created!", found),
       mkWorld stored (S (next_oid w)) (S (clock w))
         (calls w ++ [ReadOne "projects" [("_id", VObjectId pid)];
                      CreateOne "tasks";
                      ReadOne "tasks" [("_id", VObjectId (next_oid w))]]))
  | Some a =>
      (Throw (TypeError (CannotReadPropertiesOfUndefined "addGroupItem")),
       mkWorld stored (S (next_oid w)) (S (clock w))
         (calls w ++ [ReadOne "projects" [("_id", VObjectId pid)];
                      CreateOne "tasks";
                      ReadOne "tasks" [("_id", VObjectId (next_oid w))];
                      ReadOne "projectmembers"
                              [("group", VObjectId pid); ("item", VObjectId a)]]))
  end.
Proof.
  intros Hs Hp Hc Hmember t found stored.
  apply lookup_as_find in Hp. apply Nat.eqb_eq in Hc.
  destruct (find_new_id (next_oid w) (tasks (db w)) t eq_refl) as [d [Hd Hid]].
  destruct assignee as [a|].
  - destruct (linked_members_find pid a w (Hmember a eq_refl)) as [l Hl].
    run_known. fold t. rewrite Hd. project_fields. use_facts.
    rewrite <- !app_assoc. reflexivity.
  - run_known. fold t. rewrite <- !app_assoc. reflexivity.
Qed.

(** X10: [createTask], run by the creator of the project, with no assignee or
    with an assignee who is a member of the project: the route appends one
    task, under the project, not completed and with its own assignee field
    empty also when an assignee is given, and stores no assignee link.
    With no assignee, and in a store whose identifiers are in order, it
    returns the new task.  With an assignee it throws, after the task is
    stored and the membership assertion has passed, the TypeError of
    reading [addGroupItem] on [TaskAssignee], which the app does not
    export: the task stays, unassigned. *)
Theorem createTask_stores_the_task_and_no_link :
  forall (w : World) (session : SessionDoc) (u pid : ObjectId) (p : ProjectDoc)
         (description : string) (assignee : option ObjectId),
    user session = Some u ->
    lookup pid (projects (db w)) = Some p ->
    creator (fields p) = u ->
    (forall a, assignee = Some a -> linked ProjectMember pid a w) ->
    let route := Routes.createTask session pid description assignee in
    let w' := after route w in
    let t := mkDoc (next_oid w) (clock w) (clock w) (mkTask description pid None false) in
    tasks (db w') = tasks (db w) ++ [t]
    /\ taskassignees (db w') = taskassignees (db w)
    /\ projects (db w') = projects (db w)
    /\ projectmembers (db w') = projectmembers (db w)
    /\ (assignee = None -> identifiers_ok w ->
        outcome route w = Ok ("Task successfully created!", Some t))
    /\ (assignee <> None ->
        outcome route w
        = Throw (TypeError (CannotReadPropertiesOfUndefined "addGroupItem"))).
Proof.
  intros w session u pid p description assignee Hs Hp Hc Hm route w' t.
  pose proof (createTask_run w session u pid p description assignee Hs Hp Hc Hm) as R.
  fold route in R. unfold outcome, w', after. rewrite R.
  destruct assignee as [a|]; cbn [fst snd db taskassignees tasks projects projectmembers].
  - do 4 (split; [reflexivity|]). split; [discriminate|reflexivity].
  - do 4 (split; [reflexivity|]). split.
    + intros _ [_ [_ [_ [_ Hlt]]]]. do 2 f_equal. now apply find_new_doc.
    + intros H. now elim H.
Qed.

(** alice asks for a task of her project with herself, a member, as
    assignee: the route throws, the task is stored, no link is. *)
Lemma createTask_stores_the_task_and_no_link_witness :
  let route := Routes.createTask alice 100 "plan" (Some 1) in
  let plain := Routes.createTask alice 100 "plan" None in
  tasks (db (after route roadmap_world))
  = tasks (db roadmap_world) ++ [mkDoc 103 3 3 (mkTask "plan" 100 None false)]
  /\ taskassignees (db (after route roadmap_world)) = []
  /\ outcome route roadmap_world
     = Throw (TypeError (CannotReadPropertiesOfUndefined "addGroupItem"))
  /\ outcome plain roadmap_world
     = Ok ("Task successfully created!", Some (mkDoc 103 3 3 (mkTask "plan" 100 None false))).
Proof.
  intros route plain.
  destruct (createTask_stores_the_task_and_no_link
              roadmap_world alice 1 100 (mkDoc 100 0 0 (mkProject 1 "roadmap"))
              "plan" (Some 1) eq_refl eq_refl eq_refl)
    as [H1 [H2 [_ [_ [_ H6]]]]].
  { intros a Ha. injection Ha as <-.
    exists (mkDoc 101 1 1 (mkGroupItem 100 1)). vm_compute. auto. }
  destruct (createTask_stores_the_task_and_no_link
              roadmap_world alice 1 100 (mkDoc 100 0 0 (mkProject 1 "roadmap"))
              "plan" None eq_refl eq_refl eq_refl)
    as [_ [_ [_ [_ [H5 _]]]]].
  { intros a Ha. discriminate Ha. }
  split; [exact H1|]. split; [exact H2|]. split; [apply H6; discriminate|].
  apply H5; [reflexivity|exact identifiers_ok_roadmap].
Defined.

(** bob is not a member of "roadmap": creating a task assigned to him
    throws, yet the task has been stored. *)
Lemma createTask_refuses_non_member_witness :
  let route := Routes.createTask alice 100 "plan" (Some 2) in
  outcome route roadmap_world = Throw (NotFoundError (ItemNotInGroup 2 100))
  /\ taskassignees (db (after route roadmap_world)) = []
  /\ tasks (db (after route roadmap_world))
     = tasks (db roadmap_world) ++ [mkDoc 103 3 3 (mkTask "plan" 100 None false)].
Proof.
  intros route.
  apply (createTask_refuses_non_member
           roadmap_world alice 1 100 2 (mkDoc 100 0 0 (mkProject 1 "roadmap")) "plan"
           eq_refl eq_refl eq_refl).
  apply not_linked_by_find. vm_compute. reflexivity.
Defined.

(** ** The group relation: adding, removing, asking *)

Lemma removeFirst_snoc_new {A} (f : A -> bool) (l : list A) (d : A) :
  find f l = None -> f d = true -> removeFirst f (l ++ [d]) = l.
Proof.
  intros Hl Hd. induction l as [|x l IH]; simpl in *.
  - now rewrite Hd.
  - destruct (f x); [discriminate|]. now rewrite IH.
Qed.

Lemma removeFirst_snoc_old {A} (f : A -> bool) (l : list A) (d x : A) :
  find f l = Some x -> removeFirst f (l ++ [d]) = removeFirst f l ++ [d].
Proof.
  induction l as [|y l IH]; simpl; [discriminate|].
  destruct (f y); trivial. intros H. now rewrite IH.
Qed.

Section GroupRelation.
Variable self : GroupItemConcept.t.
Let coll := GroupItemConcept.groupitems self.

Lemma removeGroupItem_run (g i : ObjectId) (w : World) :
  GroupItemConcept.removeGroupItem self g i w =
  (Ok "Removed item from group!",
   mkWorld (setDocs coll
              (removeFirst (matches [("group", VObjectId g); ("item", VObjectId i)])
                           (docs coll (db w)))
              (db w))
           (next_oid w) (clock w)
           (calls w ++ [DeleteOne (collectionName coll)
                                  [("group", VObjectId g); ("item", VObjectId i)]])).
Proof. reflexivity. Qed.

Lemma linked_docs (g i : ObjectId) (w w' : World) :
  docs coll (db w') = docs coll (db w) -> linked self g i w -> linked self g i w'.
Proof. intros E [d Hd]. exists d. fold coll. rewrite E. exact Hd. Qed.

Lemma add_then_remove_docs (g i : ObjectId) (w : World) :
  let d := mkDoc (next_oid w) (clock w) (clock w) (mkGroupItem g i) in
  docs coll (db (after (GroupItemConcept.removeGroupItem self g i)
                       (after (GroupItemConcept.addGroupItem self g i) w)))
  = removeFirst (matches [("group", VObjectId g); ("item", VObjectId i)])
                (docs coll (db w) ++ [d]).
Proof.
  intros d. unfold after. rewrite addGroupItem_run, removeGroupItem_run.
  cbn [snd db]. now rewrite !docs_setDocs.
Qed.

End GroupRelation.

(** X19: Adding a pair and then removing it.  When the pair was not linked, the
    records are again those from before the addition.  When it was linked,
    it still is: the removal takes one record, the oldest of the pair, and
    leaves the others, so a pair added twice survives one removal.
    Removing a pair that is not linked returns normally and changes no
    record. *)
Theorem addGroupItem_then_removeGroupItem :
  forall (self : GroupItemConcept.t) (g i : ObjectId) (w : World),
    let coll := GroupItemConcept.groupitems self in
    let add := GroupItemConcept.addGroupItem self g i in
    let remove := GroupItemConcept.removeGroupItem self g i in
    (~ linked self g i w ->
       docs coll (db (after remove (after add w))) = docs coll (db w)
       /\ ~ linked self g i (after remove (after add w)))
    /\ (linked self g i w -> linked self g i (after remove (after add w)))
    /\ linked self g i (after remove (after add (after add w)))
    /\ (~ linked self g i w ->
        outcome remove w = Ok "Removed item from group!"
        /\ docs coll (db (after remove w)) = docs coll (db w)).
Proof.
  intros self g i w coll add remove.
  set (f := matches [("group", VObjectId g); ("item", VObjectId i)]
            : GroupItemDoc -> bool).
  assert (Hnew : forall n c, f (mkDoc n c c (mkGroupItem g i)) = true).
  { intros n c. unfold f. rewrite matches_group_item. cbn [fields group item].
    now rewrite !Nat.eqb_refl. }
  assert (Hkept : forall w0, linked self g i w0 ->
                             linked self g i (after remove (after add w0))).
  { intros w0 L. apply linked_find in L. destruct L as [x Hx].
    apply linked_find. unfold remove, add. rewrite add_then_remove_docs.
    rewrite (removeFirst_snoc_old _ _ _ x Hx).
    apply find_some_iff.
    exists (mkDoc (next_oid w0) (clock w0) (clock w0) (mkGroupItem g i)).
    split; [apply in_or_app; right; now left|apply Hnew]. }
  split; [|split; [exact (Hkept w)|split]].
  - intros Hn.
    assert (E : docs coll (db (after remove (after add w))) = docs coll (db w)).
    { unfold coll, remove, add. rewrite add_then_remove_docs.
      apply removeFirst_snoc_new; [now apply not_linked_find|apply Hnew]. }
    split; [exact E|]. intros L. apply Hn.
    now apply (linked_docs self g i (after remove (after add w)) w).
  - apply Hkept. exists (mkDoc (next_oid w) (clock w) (clock w) (mkGroupItem g i)).
    unfold after, add. rewrite addGroupItem_run. cbn [snd db].
    rewrite docs_setDocs. split; [apply in_or_app; right; now left|now split].
  - intros Hn. split; [reflexivity|].
    unfold coll, after, remove. rewrite removeGroupItem_run. cbn [snd db].
    rewrite docs_setDocs. apply removeFirst_none. now apply not_linked_find.
Qed.

Lemma addGroupItem_then_removeGroupItem_witness :
  let add := GroupItemConcept.addGroupItem ProjectMember 100 2 in
  let remove := GroupItemConcept.removeGroupItem ProjectMember 100 2 in
  projectmembers (db (after remove (after add roadmap_world)))
  = projectmembers (db roadmap_world)
  /\ linked ProjectMember 100 1
            (after (GroupItemConcept.removeGroupItem ProjectMember 100 1)
                   (after (GroupItemConcept.addGroupItem ProjectMember 100 1)
                          roadmap_world)).
Proof.
  intros add remove.
  destruct (addGroupItem_then_removeGroupItem ProjectMember 100 2 roadmap_world)
    as [Hnew _].
  destruct (addGroupItem_then_removeGroupItem ProjectMember 100 1 roadmap_world)
    as [_ [Hold _]].
  split.
  - apply Hnew. apply not_linked_by_find. vm_compute. reflexivity.
  - apply Hold. exists (mkDoc 101 1 1 (mkGroupItem 100 1)). vm_compute. auto.
Defined.

(** X20: The three ways to ask whether an item is in a group agree: the
    assertion passes, the item is among the items listed for the group,
    and the group is among the groups listed for the item, all exactly when
    some record has the pair. *)
Theorem group_queries_agree :
  forall (self : GroupItemConcept.t) (g i : ObjectId) (w : World),
    (linked self g i w <->
     outcome (GroupItemConcept.assertItemInGroup self g i) w = Ok tt)
    /\ (linked self g i w <->
        exists items, outcome (GroupItemConcept.getItemsInGroup self g) w = Ok items
                      /\ In i (map snd items))
    /\ (linked self g i w <->
        exists links, outcome (GroupItemConcept.getGroupsForItem self i) w = Ok links
                      /\ In g (map (fun d => group (fields d)) links)).
Proof.
  intros self g i w. split; [|split].
  - unfold outcome. rewrite assertItemInGroup_run. cbn [fst].
    rewrite linked_find. destruct (find _ _) as [d|].
    + split; [reflexivity|]. intros _. now exists d.
    + split; [intros [d Hd]|]; discriminate.
  - unfold outcome, GroupItemConcept.getItemsInGroup, bind, readMany, ret. cbn [fst].
    split.
    + intros [d [Hin [Hg Hi]]]. eexists. split; [reflexivity|].
      rewrite map_map. cbn [snd]. apply in_map_iff. exists d. split; trivial.
      apply filter_In. split; trivial. rewrite matches_group. now apply Nat.eqb_eq.
    + intros [items [E Hin]]. injection E as <-. rewrite map_map in Hin.
      apply in_map_iff in Hin. destruct Hin as [d [Hi Hd]].
      apply filter_In in Hd. destruct Hd as [Hd Hg].
      rewrite matches_group in Hg. apply Nat.eqb_eq in Hg. now exists d.
  - unfold outcome, GroupItemConcept.getGroupsForItem, readMany. cbn [fst].
    split.
    + intros [d [Hin [Hg Hi]]]. eexists. split; [reflexivity|].
      apply in_map_iff. exists d. split; trivial.
      apply filter_In. split; trivial. rewrite matches_item. now apply Nat.eqb_eq.
    + intros [links [E Hin]]. injection E as <-.
      apply in_map_iff in Hin. destruct Hin as [d [Hg Hd]].
      apply filter_In in Hd. destruct Hd as [Hd Hi].
      rewrite matches_item in Hi. apply Nat.eqb_eq in Hi. now exists d.
Qed.

Lemma filter_other {A} (f g : A -> bool) (l : list A) :
  (forall x, g x = true -> f x = false) ->
  filter g (filter (fun d => negb (f d)) l) = filter g l.
Proof.
  intros D. rewrite filter_twice. apply filter_ext_eq. intros x.
  destruct (g x) eqn:E; [now rewrite (D x E)|apply andb_false_r].
Qed.

(** X21: [deleteAllItemsInGroup] empties the group and no other: afterwards the
    group lists no item, and every other group lists what it listed.
    [deleteItemFromAllGroups] does the same for an item: afterwards the
    item is in no group, and every other item is in the groups it was in. *)
Theorem bulk_deletes_of_the_group_relation :
  forall (self : GroupItemConcept.t) (w : World),
    (forall g,
        let w' := after (GroupItemConcept.deleteAllItemsInGroup self g) w in
        outcome (GroupItemConcept.getItemsInGroup self g) w' = Ok []
        /\ (forall i, ~ linked self g i w')
        /\ (forall g', g' <> g ->
              outcome (GroupItemConcept.getItemsInGroup self g') w'
              = outcome (GroupItemConcept.getItemsInGroup self g') w))
    /\ (forall i,
        let w' := after (GroupItemConcept.deleteItemFromAllGroups self i) w in
        outcome (GroupItemConcept.getGroupsForItem self i) w' = Ok []
        /\ (forall g, ~ linked self g i w')
        /\ (forall i', i' <> i ->
              outcome (GroupItemConcept.getGroupsForItem self i') w'
              = outcome (GroupItemConcept.getGroupsForItem self i') w)).
Proof.
  intros self w. split.
  - intros g w'.
    assert (E : docs (GroupItemConcept.groupitems self) (db w')
                = filter (fun d => negb (matches [("group", VObjectId g)] d))
                         (docs (GroupItemConcept.groupitems self) (db w))).
    { unfold w', after, GroupItemConcept.deleteAllItemsInGroup, bind, deleteMany, ret.
      cbn [snd db]. apply docs_setDocs. }
    split; [|split].
    + unfold outcome, GroupItemConcept.getItemsInGroup, bind, readMany, ret.
      cbn [fst]. rewrite E, no_match_after_deleteMany. reflexivity.
    + intros i [d [Hin [Hg _]]]. rewrite E in Hin. apply filter_In in Hin.
      destruct Hin as [_ Hm]. rewrite matches_group, Hg, Nat.eqb_refl in Hm.
      discriminate.
    + intros g' Hne.
      unfold outcome, GroupItemConcept.getItemsInGroup, bind, readMany, ret.
      cbn [fst]. rewrite E, filter_other; trivial.
      intros d. rewrite !matches_group. intros Hg'. apply Nat.eqb_eq in Hg'.
      apply Nat.eqb_neq. congruence.
  - intros i w'.
    assert (E : docs (GroupItemConcept.groupitems self) (db w')
                = filter (fun d => negb (matches [("item", VObjectId i)] d))
                         (docs (GroupItemConcept.groupitems self) (db w))).
    { unfold w', after, GroupItemConcept.deleteItemFromAllGroups, bind, deleteMany, ret.
      cbn [snd db]. apply docs_setDocs. }
    split; [|split].
    + unfold outcome, GroupItemConcept.getGroupsForItem, readMany.
      cbn [fst]. rewrite E, no_match_after_deleteMany. reflexivity.
    + intros g [d [Hin [_ Hi]]]. rewrite E in Hin. apply filter_In in Hin.
      destruct Hin as [_ Hm]. rewrite matches_item, Hi, Nat.eqb_refl in Hm.
      discriminate.
    + intros i' Hne.
      unfold outcome, GroupItemConcept.getGroupsForItem, readMany.
      cbn [fst]. rewrite E, filter_other; trivial.
      intros d. rewrite !matches_item. intros Hi'. apply Nat.eqb_eq in Hi'.
      apply Nat.eqb_neq. congruence.
Qed.

Lemma bulk_deletes_of_the_group_relation_witness :
  outcome (GroupItemConcept.getItemsInGroup ProjectMember 104)
          (after (GroupItemConcept.deleteAllItemsInGroup ProjectMember 100)
                 two_projects_world)
  = outcome (GroupItemConcept.getItemsInGroup ProjectMember 104) two_projects_world
  /\ outcome (GroupItemConcept.getGroupsForItem ProjectMember 3)
             (after (GroupItemConcept.deleteItemFromAllGroups ProjectMember 2)
                    two_projects_world)
     = outcome (GroupItemConcept.getGroupsForItem ProjectMember 3) two_projects_world.
Proof.
  destruct (bulk_deletes_of_the_group_relation ProjectMember two_projects_world)
    as [Hg Hi].
  split.
  - destruct (Hg 100) as [_ [_ H]]. apply H. discriminate.
  - destruct (Hi 2) as [_ [_ H]]. apply H. discriminate.
Defined.

(** ** Tasks *)

Lemma updateFirst_others {A} (f : A -> bool) (g : A -> A) (l : list A) (x : A) :
  (forall y, f y = true -> f (g y) = true) ->
  f x = false -> (In x (updateFirst f g l) <-> In x l).
Proof.
  intros Hg Hx. induction l as [|y l IH]; simpl; [tauto|].
  destruct (f y) eqn:E; simpl.
  - split; intros [H|H]; try tauto.
    + rewrite <- H, (Hg y E) in Hx. discriminate.
    + rewrite <- H, E in Hx. discriminate.
  - rewrite IH. tauto.
Qed.

Section TaskFacts.
Variable self : TaskingConcept.t.
Let coll := TaskingConcept.tasks self.

(** What a partial update by identifier leaves in the collection. *)
Lemma partial_update_docs (id : ObjectId) (update : Obj) (w : World) :
  docs coll (db (after (partialUpdateOne coll [("_id", VObjectId id)] update) w))
  = updateFirst (matches [("_id", VObjectId id)])
                (fun d => mkDoc (_id d) (dateCreated d) (clock w)
                                (setFields update (fields d)))
                (docs coll (db w)).
Proof. unfold after, partialUpdateOne. cbn [snd db]. apply docs_setDocs. Qed.

Lemma partial_update_found (id : ObjectId) (update : Obj) (w : World) (t : TaskDoc) :
  lookup id (docs coll (db w)) = Some t ->
  lookup id (docs coll (db (after (partialUpdateOne coll [("_id", VObjectId id)] update) w)))
  = Some (mkDoc (_id t) (dateCreated t) (clock w) (setFields update (fields t))).
Proof.
  intros Ht. rewrite partial_update_docs.
  rewrite lookup_updateFirst by reflexivity. now rewrite Ht.
Qed.

Lemma partial_update_missing (id : ObjectId) (update : Obj) (w : World) :
  lookup id (docs coll (db w)) = None ->
  docs coll (db (after (partialUpdateOne coll [("_id", VObjectId id)] update) w))
  = docs coll (db w).
Proof.
  intros Ht. rewrite partial_update_docs. apply updateFirst_none.
  now rewrite find_by_id.
Qed.

Lemma partial_update_others (id : ObjectId) (update : Obj) (w : World) (d : TaskDoc) :
  _id d <> id ->
  (In d (docs coll (db (after (partialUpdateOne coll [("_id", VObjectId id)] update) w)))
   <-> In d (docs coll (db w))).
Proof.
  intros Hd. rewrite partial_update_docs. apply updateFirst_others.
  - intros y. now rewrite !matches_id.
  - rewrite matches_id. now apply Nat.eqb_neq.
Qed.

End TaskFacts.

(** X22: The writes of the tasking concept that go by identifier check nothing:
    for an identifier that no task has, changing the description, the
    assignee or the completion, unassigning and deleting all return their
    message of success, and the tasks are as before. *)
Theorem tasking_writes_to_a_missing_task_succeed_silently :
  forall (self : TaskingConcept.t) (id : ObjectId) (w : World),
    lookup id (docs (TaskingConcept.tasks self) (db w)) = None ->
    let same (m : M string) :=
      docs (TaskingConcept.tasks self) (db (after m w))
      = docs (TaskingConcept.tasks self) (db w) in
    (forall d, outcome (TaskingConcept.updateDescription self id d) w
               = Ok "Task description successfully updated!"
               /\ same (TaskingConcept.updateDescription self id d))
    /\ (forall a, outcome (TaskingConcept.updateAssignee self id a) w
                  = Ok "Task assignee successfully updated!"
                  /\ same (TaskingConcept.updateAssignee self id a))
    /\ (outcome (TaskingConcept.unassignTask self id) w
        = Ok "TODO: partial update to null or undefined?"
        /\ same (TaskingConcept.unassignTask self id))
    /\ (forall c, outcome (TaskingConcept.setCompletionStatus self id c) w
                  = Ok (if c then "Task marked as completed!" else "Task marked incomplete.")
                  /\ same (TaskingConcept.setCompletionStatus self id c))
    /\ (outcome (TaskingConcept.delete self id) w = Ok "Task deleted successfully!"
        /\ same (TaskingConcept.delete self id)).
Proof.
  intros self id w Hmiss same.
  pose proof (partial_update_missing self id) as P.
  repeat split; intros; try reflexivity; unfold same.
  - apply (P _ w Hmiss).
  - apply (P _ w Hmiss).
  - apply (P _ w Hmiss).
  - now destruct c.
  - destruct c; apply (P _ w Hmiss).
  - unfold after, TaskingConcept.delete, bind, deleteOne, ret. cbn [snd db].
    rewrite docs_setDocs. apply removeFirst_none. now rewrite find_by_id.
Qed.

Lemma tasking_writes_to_a_missing_task_succeed_silently_witness :
  outcome (TaskingConcept.updateDescription Task 7 "x") roadmap_world
  = Ok "Task description successfully updated!"
  /\ tasks (db (after (TaskingConcept.updateDescription Task 7 "x") roadmap_world))
     = tasks (db roadmap_world)
  /\ tasks (db (after (TaskingConcept.delete Task 7) roadmap_world))
     = tasks (db roadmap_world).
Proof.
  destruct (tasking_writes_to_a_missing_task_succeed_silently Task 7 roadmap_world eq_refl)
    as [Hd [_ [_ [_ [_ Hdel]]]]].
  destruct (Hd "x") as [H1 H2].
  split; [exact H1|]. split; [exact H2|exact Hdel].
Defined.

(** X23: Each write of the tasking concept to a task that is found changes its
    own field of that task and no other one: the description, the assignee
    or the completion; the identifier, the creation date and the other
    fields are kept, the task is found again under the same identifier, and
    every task with another identifier is as before. *)
Theorem tasking_writes_change_one_field :
  forall (self : TaskingConcept.t) (id : ObjectId) (w : World) (t : TaskDoc),
    lookup id (docs (TaskingConcept.tasks self) (db w)) = Some t ->
    let found (m : M string) (fields' : TaskFields) :=
      lookup id (docs (TaskingConcept.tasks self) (db (after m w)))
      = Some (mkDoc (_id t) (dateCreated t) (clock w) fields')
      /\ forall d, _id d <> id ->
                   (In d (docs (TaskingConcept.tasks self) (db (after m w)))
                    <-> In d (docs (TaskingConcept.tasks self) (db w))) in
    (forall d, found (TaskingConcept.updateDescription self id d)
                     (mkTask d (project (fields t)) (assignee (fields t))
                             (completion (fields t))))
    /\ (forall a, found (TaskingConcept.updateAssignee self id a)
                        (mkTask (description (fields t)) (project (fields t)) (Some a)
                                (completion (fields t))))
    /\ (forall c, found (TaskingConcept.setCompletionStatus self id c)
                        (mkTask (description (fields t)) (project (fields t))
                                (assignee (fields t)) c)
                  /\ outcome (TaskingConcept.setCompletionStatus self id c) w
                     = Ok (if c then "Task marked as completed!"
                           else "Task marked incomplete.")).
Proof.
  intros self id w t Ht found.
  pose proof (partial_update_found self id) as P.
  pose proof (partial_update_others self id) as Q.
  split; [|split].
  - intros d. split.
    + exact (P [("description", VString d)] w t Ht).
    + intros x Hx. exact (Q [("description", VString d)] w x Hx).
  - intros a. split.
    + exact (P [("assignee", VObjectId a)] w t Ht).
    + intros x Hx. exact (Q [("assignee", VObjectId a)] w x Hx).
  - intros c. split; [split|].
    + destruct c; exact (P [("completion", VBool _)] w t Ht).
    + intros x Hx. destruct c; exact (Q [("completion", VBool _)] w x Hx).
    + now destruct c.
Qed.

Lemma tasking_writes_change_one_field_witness :
  lookup 102 (tasks (db (after (TaskingConcept.setCompletionStatus Task 102 true)
                               roadmap_world)))
  = Some (mkDoc 102 2 3 (mkTask "design doc" 100 None true))
  /\ lookup 102 (tasks (db (after (TaskingConcept.updateDescription Task 102 "spec")
                                  roadmap_world)))
     = Some (mkDoc 102 2 3 (mkTask "spec" 100 None false)).
Proof.
  destruct (tasking_writes_change_one_field
              Task 102 roadmap_world (mkDoc 102 2 2 (mkTask "design doc" 100 None false))
              eq_refl) as [Hd [_ Hc]].
  split.
  - destruct (Hc true) as [[H _] _]. exact H.
  - destruct (Hd "spec") as [H _]. exact H.
Defined.

(** X24: A task created by the tasking concept, in a collection whose
    identifiers were all issued earlier, is returned by [create], is not
    completed, has the description, the project and the assignee given,
    and is then found by its identifier and listed last among the tasks of
    its project; the tasks listed for another project are as before. *)
Theorem tasking_create_then_read :
  forall (self : TaskingConcept.t) (description : string) (pid : ObjectId)
         (assignee : option ObjectId) (w : World),
    Forall (fun i => i < next_oid w) (map _id (docs (TaskingConcept.tasks self) (db w))) ->
    let create := TaskingConcept.create self description pid assignee in
    let w' := after create w in
    let t := mkDoc (next_oid w) (clock w) (clock w)
                   (mkTask description pid assignee false) in
    outcome create w = Ok ("Task successfully created!", Some t)
    /\ outcome (TaskingConcept.getTask self (next_oid w)) w' = Ok (Some t)
    /\ outcome (TaskingConcept.getAllTasksForProject self pid) w'
       = Ok (filter (matches [("project", VObjectId pid)])
                    (docs (TaskingConcept.tasks self) (db w)) ++ [t])
    /\ (forall other, other <> pid ->
          outcome (TaskingConcept.getAllTasksForProject self other) w'
          = outcome (TaskingConcept.getAllTasksForProject self other) w).
Proof.
  intros self description pid assignee w Hlt create w' t.
  assert (Hfound : find (matches [("_id", VObjectId (next_oid w))])
                        (docs (TaskingConcept.tasks self) (db w) ++ [t]) = Some t)
    by (now apply find_new_doc).
  assert (E : docs (TaskingConcept.tasks self) (db w')
              = docs (TaskingConcept.tasks self) (db w) ++ [t]).
  { unfold w', after, create, TaskingConcept.create, bind, createOne, readOne, ret, logged.
    cbn [snd db]. apply docs_setDocs. }
  split; [|split; [|split]].
  - unfold outcome, create, TaskingConcept.create, bind, createOne, readOne, ret, logged.
    cbn [fst snd db]. rewrite docs_setDocs. fold t. now rewrite Hfound.
  - unfold outcome, TaskingConcept.getTask, readOne. cbn [fst].
    rewrite E. now rewrite Hfound.
  - unfold outcome, TaskingConcept.getAllTasksForProject, readMany. cbn [fst].
    rewrite E, filter_app. cbn [filter]. rewrite matches_project.
    cbn [fields project]. now rewrite Nat.eqb_refl.
  - intros other Hne.
    unfold outcome, TaskingConcept.getAllTasksForProject, readMany. cbn [fst].
    rewrite E, filter_app. cbn [filter]. rewrite matches_project.
    unfold t. cbn [fields project].
    assert (Hf : (pid =? other)%nat = false) by (apply Nat.eqb_neq; congruence).
    rewrite Hf. now rewrite app_nil_r.
Qed.

Lemma tasking_create_then_read_witness :
  let t := mkDoc 103 3 3 (mkTask "plan" 100 (Some 1) false) in
  outcome (TaskingConcept.create Task "plan" 100 (Some 1)) roadmap_world
  = Ok ("Task successfully created!", Some t)
  /\ outcome (TaskingConcept.getTask Task 103)
             (after (TaskingConcept.create Task "plan" 100 (Some 1)) roadmap_world)
     = Ok (Some t).
Proof.
  intros t.
  destruct (tasking_create_then_read Task "plan" 100 (Some 1) roadmap_world)
    as [H1 [H2 _]].
  - vm_compute. repeat constructor.
  - split; [exact H1|exact H2].
Defined.

(** X25: [deleteTasksForProject] deletes the tasks of the project and no other:
    afterwards no task is listed for the project, and the tasks listed for
    every other project are as before. *)
Theorem deleteTasksForProject_empties_the_project :
  forall (self : TaskingConcept.t) (pid : ObjectId) (w : World),
    let w' := after (TaskingConcept.deleteTasksForProject self pid) w in
    outcome (TaskingConcept.deleteTasksForProject self pid) w
    = Ok "Tasks for project successfully deleted."
    /\ outcome (TaskingConcept.getAllTasksForProject self pid) w' = Ok []
    /\ (forall other, other <> pid ->
          outcome (TaskingConcept.getAllTasksForProject self other) w'
          = outcome (TaskingConcept.getAllTasksForProject self other) w).
Proof.
  intros self pid w w'.
  assert (E : docs (TaskingConcept.tasks self) (db w')
              = filter (fun d => negb (matches [("project", VObjectId pid)] d))
                       (docs (TaskingConcept.tasks self) (db w))).
  { unfold w', after, TaskingConcept.deleteTasksForProject, bind, deleteMany, ret.
    cbn [snd db]. apply docs_setDocs. }
  split; [reflexivity|]. split.
  - unfold outcome, TaskingConcept.getAllTasksForProject, readMany. cbn [fst].
    now rewrite E, no_match_after_deleteMany.
  - intros other Hne.
    unfold outcome, TaskingConcept.getAllTasksForProject, readMany. cbn [fst].
    rewrite E, filter_other; trivial.
    intros d. rewrite !matches_project. intros Ho. apply Nat.eqb_eq in Ho.
    apply Nat.eqb_neq. congruence.
Qed.

(** ** The project concept *)

(** X26: [assertUserIsCreator] has three outcomes and stores nothing: the
    NotFound error of the project when no project has the identifier, the
    creator-mismatch error naming the user and the project when the first
    project with the identifier has another creator, and a normal return
    when the user is its creator. *)
Theorem assertUserIsCreator_outcomes :
  forall (self : ProjectConcept.t) (id u : ObjectId) (w : World),
    let check := ProjectConcept.assertUserIsCreator self id u in
    let found := lookup id (docs (ProjectConcept.projects self) (db w)) in
    (found = None <-> outcome check w = Throw (NotFoundError (ProjectDoesNotExist id)))
    /\ ((exists p, found = Some p /\ creator (fields p) <> u)
        <-> outcome check w = Throw (UserCreatorNotMatchError u id))
    /\ ((exists p, found = Some p /\ creator (fields p) = u)
        <-> outcome check w = Ok tt)
    /\ untouched w (after check w).
Proof.
  intros self id u w check found. unfold outcome, after, check.
  rewrite assertUserIsCreator_run. cbn [fst snd]. fold found.
  destruct found as [p|].
  - destruct (Nat.eqb_spec (creator (fields p)) u) as [Hc|Hc]; cbn [negb].
    + repeat split; try discriminate.
      * intros [q [Hq Hne]]. injection Hq as <-. contradiction.
      * intros _. now exists p.
    + repeat split; try discriminate.
      * intros _. now exists p.
      * intros [q [Hq He]]. injection Hq as <-. contradiction.
  - repeat split; try discriminate.
    + intros [q [Hq _]]. discriminate.
    + intros [q [Hq _]]. discriminate.
Qed.

Lemma filter_none {A} (f : A -> bool) (l : list A) :
  (forall x, In x l -> f x = false) -> filter f l = [].
Proof.
  induction l as [|x l IH]; intros H; simpl; trivial.
  rewrite (H x (or_introl eq_refl)). apply IH. intros y Hy. apply H. now right.
Qed.

(** After the first project with the identifier got a name that no project
    had, it is the only project of that name. *)
Lemma renamed_is_listed_alone (id : ObjectId) (n : string) (c : Date)
      (l : list ProjectDoc) (p : ProjectDoc) :
  find (matches [("_id", VObjectId id)]) l = Some p ->
  (forall q, In q l -> name (fields q) <> n) ->
  filter (matches [("name", VString n)])
         (updateFirst (matches [("_id", VObjectId id)])
                      (fun d => mkDoc (_id d) (dateCreated d) c
                                      (mkProject (creator (fields d)) n))
                      l)
  = [mkDoc (_id p) (dateCreated p) c (mkProject (creator (fields p)) n)].
Proof.
  induction l as [|q l IH]; intros Hp Hnone; [discriminate|].
  cbn [find updateFirst] in *.
  destruct (matches [("_id", VObjectId id)] q) eqn:Hq.
  - injection Hp as ->. cbn [filter]. rewrite matches_name.
    cbn [fields name]. rewrite String.eqb_refl. f_equal.
    apply filter_none. intros x Hx. rewrite matches_name.
    apply String.eqb_neq. apply Hnone. now right.
  - cbn [filter]. rewrite matches_name.
    assert (Hqn : (name (fields q) =? n) = false)
      by (apply String.eqb_neq, Hnone; now left).
    rewrite Hqn. apply IH; trivial. intros x Hx. apply Hnone. now right.
Qed.

Lemma updateProjectName_free_run (self : ProjectConcept.t) (id : ObjectId) (n : string)
      (w : World) :
  ~ name_taken self n w ->
  ProjectConcept.updateProjectName self id n w =
  (Ok "Project name successfully updated!",
   after (partialUpdateOne (ProjectConcept.projects self)
                           [("_id", VObjectId id)] [("name", VString n)])
         (logged (ReadOne (collectionName (ProjectConcept.projects self))
                          [("name", VString n)]) w)).
Proof.
  intros Hf.
  assert (E : find (matches [("name", VString n)])
                   (docs (ProjectConcept.projects self) (db w)) = None).
  { destruct (find _ _) as [p|] eqn:E; trivial.
    elim Hf. apply name_taken_find. now exists p. }
  unfold ProjectConcept.updateProjectName.
  erewrite bind_ok by (rewrite assertProjectNameUnique_run, E; reflexivity).
  reflexivity.
Qed.

(** X27: [updateProjectName] to a name that no project has.  The first project
    with the identifier gets the name and keeps its creator; it is then the
    one project listed under the new name.  When no project has the
    identifier the call still returns its message of success, and the
    projects are as before. *)
Theorem updateProjectName_to_a_free_name :
  forall (self : ProjectConcept.t) (id : ObjectId) (n : string) (w : World),
    ~ name_taken self n w ->
    let rename := ProjectConcept.updateProjectName self id n in
    let w' := after rename w in
    let coll := ProjectConcept.projects self in
    outcome rename w = Ok "Project name successfully updated!"
    /\ (forall p, lookup id (docs coll (db w)) = Some p ->
          let p' := mkDoc (_id p) (dateCreated p) (clock w)
                          (mkProject (creator (fields p)) n) in
          lookup id (docs coll (db w')) = Some p'
          /\ outcome (ProjectConcept.getProjectByName self n) w' = Ok [p'])
    /\ (lookup id (docs coll (db w)) = None -> docs coll (db w') = docs coll (db w)).
Proof.
  intros self id n w Hf rename w' coll.
  pose proof (updateProjectName_free_run self id n w Hf) as R. fold rename in R.
  assert (E : docs coll (db w')
              = updateFirst (matches [("_id", VObjectId id)])
                  (fun d => mkDoc (_id d) (dateCreated d) (clock w)
                                  (mkProject (creator (fields d)) n))
                  (docs coll (db w))).
  { unfold w', after. rewrite R. cbn [snd]. unfold after, partialUpdateOne.
    cbn [snd db]. unfold coll. now rewrite docs_setDocs. }
  split; [unfold outcome; now rewrite R|]. split.
  - intros p Hp p'. split.
    + rewrite E, lookup_updateFirst by reflexivity. now rewrite Hp.
    + unfold outcome, ProjectConcept.getProjectByName, readMany. cbn [fst].
      fold coll. rewrite E. clear E R.
      f_equal. apply renamed_is_listed_alone.
      * now apply lookup_as_find.
      * intros q Hq Hn. apply Hf. now exists q.
  - intros Hmiss. rewrite E. apply updateFirst_none. now rewrite find_by_id.
Qed.

Lemma updateProjectName_to_a_free_name_witness :
  let p' := mkDoc 100 0 3 (mkProject 1 "route") in
  outcome (ProjectConcept.getProjectByName Project "route")
          (after (ProjectConcept.updateProjectName Project 100 "route") roadmap_world)
  = Ok [p']
  /\ projects (db (after (ProjectConcept.updateProjectName Project 7 "route") roadmap_world))
     = projects (db roadmap_world).
Proof.
  intros p'.
  assert (Hfree : ~ name_taken Project "route" roadmap_world).
  { apply name_free_by_find. vm_compute. reflexivity. }
  destruct (updateProjectName_to_a_free_name Project 100 "route" roadmap_world Hfree)
    as [_ [Hfound _]].
  destruct (updateProjectName_to_a_free_name Project 7 "route" roadmap_world Hfree)
    as [_ [_ Hmissing]].
  split.
  - destruct (Hfound (mkDoc 100 0 0 (mkProject 1 "roadmap")) eq_refl) as [_ H]. exact H.
  - apply Hmissing. reflexivity.
Defined.

(** X28: [Project.deleteProject] always returns its message of success.  It
    removes the first project with the identifier and keeps every project
    with another identifier; without such a project the projects are as
    before; and when the identifiers are pairwise distinct, [getProject]
    then finds nothing under the identifier. *)
Theorem project_delete_then_get :
  forall (self : ProjectConcept.t) (id : ObjectId) (w : World),
    let coll := ProjectConcept.projects self in
    let w' := after (ProjectConcept.deleteProject self id) w in
    outcome (ProjectConcept.deleteProject self id) w = Ok "Project successfully deleted!"
    /\ (forall p, _id p <> id -> (In p (docs coll (db w')) <-> In p (docs coll (db w))))
    /\ (lookup id (docs coll (db w)) = None -> docs coll (db w') = docs coll (db w))
    /\ (NoDup (map _id (docs coll (db w))) ->
        outcome (ProjectConcept.getProject self id) w' = Ok None).
Proof.
  intros self id w coll w'.
  assert (E : docs coll (db w')
              = removeFirst (matches [("_id", VObjectId id)]) (docs coll (db w))).
  { unfold w', after, ProjectConcept.deleteProject, bind, deleteOne, ret.
    cbn [snd db]. apply docs_setDocs. }
  split; [reflexivity|]. split; [|split].
  - intros p Hp. rewrite E. split; [apply removeFirst_In|].
    intros Hin. apply removeFirst_keeps; trivial.
    rewrite matches_id. now apply Nat.eqb_neq.
  - intros Hmiss. rewrite E. apply removeFirst_none. now rewrite find_by_id.
  - intros Hnd. unfold outcome, ProjectConcept.getProject, readOne. cbn [fst].
    fold coll. rewrite E, find_by_id. now rewrite lookup_removeFirst_unique.
Qed.

Lemma project_delete_then_get_witness :
  outcome (ProjectConcept.getProject Project 100)
          (after (ProjectConcept.deleteProject Project 100) two_projects_world)
  = Ok None
  /\ docs (ProjectConcept.projects Project)
          (db (after (ProjectConcept.deleteProject Project 7) two_projects_world))
     = docs (ProjectConcept.projects Project) (db two_projects_world).
Proof.
  destruct (project_delete_then_get Project 100 two_projects_world) as [_ [_ [_ H]]].
  destruct (project_delete_then_get Project 7 two_projects_world) as [_ [_ [H' _]]].
  split.
  - apply H. vm_compute.
    constructor; [intros [E|[]]; discriminate|].
    constructor; [intros []|constructor].
  - apply H'. vm_compute. reflexivity.
Defined.

(** ** Reading a project *)

(** X16: The routes that show a project to its members.  For a logged-in user
    with a membership link to the project, [getTasksForProject] returns
    the tasks of the project, [getAllMembersInProject] the items of its
    membership links, each with the identifier of the link, and
    [getProject] by identifier the project.  For a logged-in user without
    such a link each of the three throws the NotFound error of the
    membership assertion and stores nothing. *)
Theorem members_read_the_project :
  forall (w : World) (session : SessionDoc) (u pid : ObjectId),
    user session = Some u ->
    (linked ProjectMember pid u w ->
       outcome (Routes.getTasksForProject session pid) w = Ok (tasks_of pid w)
       /\ outcome (Routes.getAllMembersInProject session pid) w
          = Ok (map (fun d => (_id d, item (fields d)))
                    (filter (fun d => (group (fields d) =? pid)%nat)
                            (projectmembers (db w))))
       /\ (forall name, outcome (Routes.getProject session name (Some pid)) w
                        = Ok (ById (lookup pid (projects (db w))))))
    /\ (~ linked ProjectMember pid u w ->
        let e := NotFoundError (ItemNotInGroup u pid) in
        rejected (Routes.getTasksForProject session pid) e w
        /\ rejected (Routes.getAllMembersInProject session pid) e w
        /\ (forall name, rejected (Routes.getProject session name (Some pid)) e w)).
Proof.
  intros w session u pid Hs. split.
  - intros L. apply linked_members_find in L. destruct L as [l Hl].
    split; [|split].
    + unfold outcome. run_known. now rewrite tasks_of_filter.
    + unfold outcome. run_known. do 2 f_equal.
      apply filter_ext_eq. intros d. apply matches_group.
    + intros name. unfold outcome. run_known. now rewrite find_by_id.
  - intros L e. apply not_linked_members_find in L.
    repeat split; intros; unfold outcome, after; run_known; reflexivity.
Qed.

Lemma members_read_the_project_witness :
  outcome (Routes.getTasksForProject alice 100) roadmap_world
  = Ok [mkDoc 102 2 2 (mkTask "design doc" 100 None false)]
  /\ rejected (Routes.getTasksForProject bob 100)
              (NotFoundError (ItemNotInGroup 2 100)) roadmap_world.
Proof.
  destruct (members_read_the_project roadmap_world alice 1 100 eq_refl) as [Hyes _].
  destruct (members_read_the_project roadmap_world bob 2 100 eq_refl) as [_ Hno].
  split.
  - destruct Hyes as [H _]; [|exact H].
    exists (mkDoc 101 1 1 (mkGroupItem 100 1)). vm_compute. auto.
  - destruct Hno as [H _]; [|exact H].
    apply not_linked_by_find. vm_compute. reflexivity.
Defined.

(** ** Members of a project *)

(** X14: [deleteMemberFromProject] removes no membership.  When the creator of
    a project asks to remove a member, the route throws at its call on
    [TaskAssignee], which the app does not export and which comes before
    [ProjectMember.removeGroupItem]: the membership links of every pair are
    as before, the member is still a member, and the member is still shown
    the tasks of the project. *)
Theorem deleteMemberFromProject_removes_no_membership :
  forall (w : World) (session session' : SessionDoc) (u pid member : ObjectId)
         (p : ProjectDoc),
    user session = Some u ->
    lookup pid (projects (db w)) = Some p ->
    creator (fields p) = u ->
    user session' = Some member ->
    linked ProjectMember pid member w ->
    let route := Routes.deleteMemberFromProject session pid member in
    let w' := after route w in
    throws route w
    /\ (forall g i, memberships g i w' = memberships g i w)
    /\ linked ProjectMember pid member w'
    /\ outcome (Routes.getTasksForProject session' pid) w' = Ok (tasks_of pid w).
Proof.
  intros w session session' u pid member p Hs Hp Hc Hs' L route w'.
  pose proof (deleteMemberFromProject_run w session u pid member p Hs Hp Hc) as R.
  fold route in R.
  assert (Edb : db w' = db w) by (unfold w', after; now rewrite R).
  split; [eexists; unfold outcome; now rewrite R|].
  split; [intros g i; unfold memberships; now rewrite Edb|].
  assert (L' : linked ProjectMember pid member w').
  { unfold linked in *. now rewrite Edb. }
  split; [exact L'|].
  destruct (linked_members_find pid member w' L') as [l Hl].
  unfold outcome. run_known. rewrite Edb. now rewrite tasks_of_filter.
Qed.

(** alice asks to remove bob from her project in [assigned_world]: bob is
    still a member and still reads its tasks. *)
Lemma deleteMemberFromProject_removes_no_membership_witness :
  let w' := after (Routes.deleteMemberFromProject alice 100 2) assigned_world in
  linked ProjectMember 100 2 w'
  /\ outcome (Routes.getTasksForProject bob 100) w'
     = Ok [mkDoc 102 2 2 (mkTask "design doc" 100 None false)].
Proof.
  intros w'.
  destruct (deleteMemberFromProject_removes_no_membership
              assigned_world alice bob 1 100 2 (mkDoc 100 0 0 (mkProject 1 "roadmap"))
              eq_refl eq_refl eq_refl eq_refl) as [_ [_ [H3 H4]]].
  { exists (mkDoc 103 3 3 (mkGroupItem 100 2)). split; [right; now left|now split]. }
  split; [exact H3|exact H4].
Defined.

Lemma addMemberToProject_run
      (w : World) (session : SessionDoc) (u pid member : ObjectId) (p : ProjectDoc) :
  user session = Some u ->
  lookup pid (projects (db w)) = Some p ->
  creator (fields p) = u ->
  Routes.addMemberToProject session pid member w =
  (Ok "Added item to group!",
   mkWorld
     (mkDB (projects (db w))
           (projectmembers (db w)
            ++ [mkDoc (next_oid w) (clock w) (clock w) (mkGroupItem pid member)])
           (taskassignees (db w)) (tasks (db w)))
     (S (next_oid w)) (S (clock w))
     (calls w ++ [ReadOne "projects" [("_id", VObjectId pid)];
                  CreateOne "projectmembers"])).
Proof.
  intros Hs Hp Hc. apply lookup_as_find in Hp. apply Nat.eqb_eq in Hc.
  run_known. rewrite <- !app_assoc. reflexivity.
Qed.

(** X15: When the creator adds a member through the route, one membership link
    is appended, whether or not the user was a member already; from then
    on the member is shown the tasks of the project and the project
    itself. *)
Theorem addMemberToProject_lets_the_member_read :
  forall (w : World) (session session' : SessionDoc) (u pid member : ObjectId)
         (p : ProjectDoc),
    user session = Some u ->
    lookup pid (projects (db w)) = Some p ->
    creator (fields p) = u ->
    user session' = Some member ->
    let route := Routes.addMemberToProject session pid member in
    let w' := after route w in
    outcome route w = Ok "Added item to group!"
    /\ projectmembers (db w')
       = projectmembers (db w)
         ++ [mkDoc (next_oid w) (clock w) (clock w) (mkGroupItem pid member)]
    /\ List.length (memberships pid member w')
       = S (List.length (memberships pid member w))
    /\ outcome (Routes.getTasksForProject session' pid) w' = Ok (tasks_of pid w)
    /\ outcome (Routes.getProject session' None (Some pid)) w' = Ok (ById (Some p)).
Proof.
  intros w session session' u pid member p Hs Hp Hc Hs' route w'.
  pose proof (addMemberToProject_run w session u pid member p Hs Hp Hc) as R.
  fold route in R.
  assert (Em : projectmembers (db w')
               = projectmembers (db w)
                 ++ [mkDoc (next_oid w) (clock w) (clock w) (mkGroupItem pid member)]).
  { unfold w', after. now rewrite R. }
  assert (L : exists l, find (matches [("group", VObjectId pid); ("item", VObjectId member)])
                             (projectmembers (db w')) = Some l).
  { apply find_some_iff.
    exists (mkDoc (next_oid w) (clock w) (clock w) (mkGroupItem pid member)).
    rewrite Em. split; [apply in_or_app; right; now left|].
    rewrite matches_group_item. cbn [fields group item]. now rewrite !Nat.eqb_refl. }
  destruct L as [l Hl].
  assert (Et : tasks (db w') = tasks (db w)) by (unfold w', after; now rewrite R).
  assert (Ep : projects (db w') = projects (db w)) by (unfold w', after; now rewrite R).
  split; [unfold outcome; now rewrite R|]. split; [exact Em|]. split; [|split].
  - unfold memberships. rewrite Em, filter_app, length_app. cbn [filter fields group item].
    rewrite !Nat.eqb_refl. cbn [andb List.length]. apply Nat.add_1_r.
  - unfold outcome. run_known. rewrite Et. now rewrite tasks_of_filter.
  - unfold outcome. run_known. rewrite Ep, find_by_id. now rewrite Hp.
Qed.

Lemma addMemberToProject_lets_the_member_read_witness :
  let w' := after (Routes.addMemberToProject alice 100 2) roadmap_world in
  outcome (Routes.getTasksForProject bob 100) w'
  = Ok [mkDoc 102 2 2 (mkTask "design doc" 100 None false)]
  /\ outcome (Routes.getProject bob None (Some 100)) w'
     = Ok (ById (Some (mkDoc 100 0 0 (mkProject 1 "roadmap")))).
Proof.
  intros w'.
  destruct (addMemberToProject_lets_the_member_read
              roadmap_world alice bob 1 100 2 (mkDoc 100 0 0 (mkProject 1 "roadmap"))
              eq_refl eq_refl eq_refl eq_refl) as [_ [_ [_ [H1 H2]]]].
  split; [exact H1|exact H2].
Defined.

(** ** Sessions without a user *)

(** X5: Every route asks the session for its user before anything else: with
    a session that has no user, each of the routes of projects and tasks
    throws the error of the session check and the world is as before; not
    even a read of the store is made. *)
Theorem logged_out_requests_do_nothing :
  forall (session : SessionDoc) (r : Request) (w : World),
    user session = None ->
    failure session r w = Some (UnauthenticatedError MustBeLoggedIn)
    /\ serve session r w = w.
Proof.
  intros session r w Hs.
  destruct r; unfold failure, serve, thrown, outcome, after; run_known; now split.
Qed.

Lemma logged_out_requests_do_nothing_witness :
  serve nobody (DeleteProject 100) roadmap_world = roadmap_world
  /\ failure nobody (CreateTask 100 "x" None) roadmap_world
     = Some (UnauthenticatedError MustBeLoggedIn).
Proof.
  split.
  - apply (logged_out_requests_do_nothing nobody (DeleteProject 100) roadmap_world).
    reflexivity.
  - apply (logged_out_requests_do_nothing nobody (CreateTask 100 "x" None) roadmap_world).
    reflexivity.
Defined.

(** ** Names that become free *)

Lemma released_by_removal (id : ObjectId) (l : list ProjectDoc) (p : ProjectDoc) :
  NoDup (map (fun q => name (fields q)) l) ->
  find (matches [("_id", VObjectId id)]) l = Some p ->
  ~ In (name (fields p))
       (map (fun q => name (fields q)) (removeFirst (matches [("_id", VObjectId id)]) l)).
Proof.
  induction l as [|q l IH]; intros Hnd Hp; [discriminate|].
  cbn [find removeFirst map] in *. inversion Hnd as [|x xs Hq Hl]; subst.
  destruct (matches [("_id", VObjectId id)] q).
  - injection Hp as ->. exact Hq.
  - cbn [map]. intros [H|H].
    + apply Hq. rewrite H. apply find_some in Hp.
      now apply (in_map (fun q => name (fields q))).
    + now apply IH.
Qed.

Lemma released_by_rename (id : ObjectId) (n : string) (c : Date)
      (l : list ProjectDoc) (p : ProjectDoc) :
  NoDup (map (fun q => name (fields q)) l) ->
  find (matches [("_id", VObjectId id)]) l = Some p ->
  n <> name (fields p) ->
  ~ In (name (fields p))
       (map (fun q => name (fields q))
            (updateFirst (matches [("_id", VObjectId id)])
                         (fun d => mkDoc (_id d) (dateCreated d) c
                                         (setFields [("name", VString n)] (fields d)))
                         l)).
Proof.
  induction l as [|q l IH]; intros Hnd Hp Hn; [discriminate|].
  cbn [find updateFirst map] in *. inversion Hnd as [|x xs Hq Hl]; subst.
  destruct (matches [("_id", VObjectId id)] q).
  - injection Hp as ->. cbn [map]. intros [H|H]; [now apply Hn|now apply Hq].
  - cbn [map]. intros [H|H].
    + apply Hq. rewrite H. apply find_some in Hp.
      now apply (in_map (fun q => name (fields q))).
    + now apply IH.
Qed.

Lemma updateProjectName_route_run
      (w : World) (session : SessionDoc) (u id : ObjectId) (n : string) (p : ProjectDoc) :
  user session = Some u ->
  lookup id (projects (db w)) = Some p ->
  creator (fields p) = u ->
  ~ name_taken Project n w ->
  Routes.updateProjectName session id n w =
  (Ok "Project name successfully updated!",
   mkWorld
     (mkDB (updateFirst (matches [("_id", VObjectId id)])
                        (fun d => mkDoc (_id d) (dateCreated d) (clock w)
                                        (setFields [("name", VString n)] (fields d)))
                        (projects (db w)))
           (projectmembers (db w)) (taskassignees (db w)) (tasks (db w)))
     (next_oid w) (S (clock w))
     (calls w ++ [ReadOne "projects" [("_id", VObjectId id)];
                  ReadOne "projects" [("name", VString n)];
                  PartialUpdateOne "projects" [("_id", VObjectId id)]
                                   [("name", VString n)]])).
Proof.
  intros Hs Hp Hc Hf. apply lookup_as_find in Hp. apply Nat.eqb_eq in Hc.
  assert (Hn : find (matches [("name", VString n)]) (projects (db w)) = None).
  { destruct (find (matches [("name", VString n)]) (projects (db w))) as [q|] eqn:E;
      trivial.
    elim Hf. apply (name_taken_find Project). exists q. exact E. }
  run_known. rewrite <- !app_assoc. reflexivity.
Qed.

(** X18: In a store where the names of the projects are pairwise distinct, the
    name of a project without a task becomes free when its creator deletes
    the project, and a logged-in user can then create a project of that
    name.  The name of a project that has a task stays taken: the deletion
    stops before the project record, and creating a project of that name
    still throws the NotAllowed error of the name.  A name also becomes
    free when the creator renames the project to another name that no
    project has. *)
Theorem names_are_released :
  forall (w : World) (session : SessionDoc) (u pid : ObjectId) (p : ProjectDoc),
    names_distinct w ->
    user session = Some u ->
    lookup pid (projects (db w)) = Some p ->
    creator (fields p) = u ->
    let deleted := after (Routes.deleteProject session pid) w in
    (tasks_of pid w = [] ->
       ~ name_taken Project (name (fields p)) deleted
       /\ (forall session' u', user session' = Some u' ->
             thrown (Routes.createProject session' (name (fields p))) deleted = None))
    /\ (tasks_of pid w <> [] ->
        name_taken Project (name (fields p)) deleted
        /\ (forall session' u', user session' = Some u' ->
              thrown (Routes.createProject session' (name (fields p))) deleted
              = Some (NotAllowedError (ProjectNameExists (name (fields p))))))
    /\ (forall n, ~ name_taken Project n w -> n <> name (fields p) ->
          ~ name_taken Project (name (fields p))
                       (after (Routes.updateProjectName session pid n) w)).
Proof.
  intros w session u pid p Hnd Hs Hp Hc deleted.
  pose proof (deleteProject_run w session u pid p Hs Hp Hc) as R.
  split; [|split].
  - intros Ets.
    assert (Hfree : ~ name_taken Project (name (fields p)) deleted).
    { intros Ht. apply (name_taken_names Project) in Ht. revert Ht.
      unfold project_names, deleted, after. rewrite R, Ets.
      cbn [snd finished_deletion db docs ProjectConcept.projects Project
           projects_collection projects].
      apply released_by_removal; [exact Hnd|now apply lookup_as_find]. }
    split; [exact Hfree|].
    intros session' u' Hs'. unfold thrown, outcome.
    now rewrite (createProject_free deleted session' u' _ Hs' Hfree).
  - intros Ets.
    assert (Htaken : name_taken Project (name (fields p)) deleted).
    { exists p. split; [|reflexivity].
      unfold deleted, after. rewrite R.
      destruct (tasks_of pid w); [now elim Ets|].
      cbn [snd stopped_deletion db docs ProjectConcept.projects Project
           projects_collection projects].
      apply lookup_id in Hp. tauto. }
    split; [exact Htaken|].
    intros session' u' Hs'. unfold thrown, outcome.
    now rewrite (createProject_taken deleted session' u' _ Hs' Htaken).
  - intros n Hn Hne Ht. apply (name_taken_names Project) in Ht. revert Ht.
    unfold project_names, after.
    rewrite (updateProjectName_route_run w session u pid n p Hs Hp Hc Hn).
    cbn [snd db docs ProjectConcept.projects Project projects_collection projects].
    apply released_by_rename; [exact Hnd|now apply lookup_as_find|exact Hne].
Qed.

(** alice deletes "roadmap" right after creating it: bob can take the
    name.  In the sample world "roadmap" has a task: the name stays
    taken. *)
Lemma names_are_released_witness :
  let fresh := after (Routes.createProject alice "roadmap") empty_world in
  thrown (Routes.createProject bob "roadmap")
         (after (Routes.deleteProject alice 100) fresh) = None
  /\ thrown (Routes.createProject bob "roadmap")
            (after (Routes.deleteProject alice 100) roadmap_world)
     = Some (NotAllowedError (ProjectNameExists "roadmap")).
Proof.
  intros fresh.
  assert (Hnd : forall l, NoDup (map (fun q : ProjectDoc => name (fields q))
                                     [mkDoc 100 0 0 (mkProject 1 l)])).
  { intros l. constructor; [intros []|constructor]. }
  destruct (names_are_released fresh alice 1 100
                               (mkDoc 100 0 0 (mkProject 1 "roadmap"))
                               (Hnd "roadmap") eq_refl eq_refl eq_refl)
    as [H1 _].
  destruct (names_are_released roadmap_world alice 1 100
                               (mkDoc 100 0 0 (mkProject 1 "roadmap"))
                               (Hnd "roadmap") eq_refl eq_refl eq_refl)
    as [_ [H2 _]].
  split.
  - destruct (H1 eq_refl) as [_ H]. exact (H bob 2 eq_refl).
  - destruct H2 as [_ H]; [discriminate|]. exact (H bob 2 eq_refl).
Defined.

(** ** What a user is shown of their own links *)

(** X17: For a logged-in user, [getUserProjects] returns the membership links
    whose item is the user (the links, not the projects).  [getTasksForUser]
    returns nothing to anyone: it throws the TypeError of reading
    [getGroupsForItem] on [TaskAssignee], which the app does not export.
    [getAssigneesForTask] throws for every user: for a member of the
    project of the task, after the membership assertion has passed, the
    TypeError of reading [getItemsInGroup]; for a user who is not a member
    of that project, the NotFound error of the membership assertion.  None
    of them stores anything. *)
Theorem users_are_shown_their_links :
  forall (w : World) (session : SessionDoc) (u : ObjectId),
    user session = Some u ->
    outcome (Routes.getUserProjects session) w
    = Ok (filter (fun d => (item (fields d) =? u)%nat) (projectmembers (db w)))
    /\ rejected (Routes.getTasksForUser session)
                (TypeError (CannotReadPropertiesOfUndefined "getGroupsForItem")) w
    /\ (forall task t,
          lookup task (tasks (db w)) = Some t ->
          linked ProjectMember (project (fields t)) u w ->
          rejected (Routes.getAssigneesForTask session task)
                   (TypeError (CannotReadPropertiesOfUndefined "getItemsInGroup")) w)
    /\ (forall task t,
          lookup task (tasks (db w)) = Some t ->
          ~ linked ProjectMember (project (fields t)) u w ->
          rejected (Routes.getAssigneesForTask session task)
                   (NotFoundError (ItemNotInGroup u (project (fields t)))) w).
Proof.
  intros w session u Hs. split; [|split; [|split]].
  - unfold outcome. run_known. f_equal. apply filter_ext_eq. intros d. apply matches_item.
  - unfold rejected, outcome, after. run_known. now repeat split.
  - intros task t Ht L. apply lookup_as_find in Ht.
    apply linked_members_find in L. destruct L as [l Hl].
    unfold rejected, outcome, after. run_known. now repeat split.
  - intros task t Ht L. apply lookup_as_find in Ht.
    apply not_linked_members_find in L.
    unfold rejected, outcome, after. run_known. now repeat split.
Qed.

Lemma users_are_shown_their_links_witness :
  outcome (Routes.getUserProjects bob) two_projects_world
  = Ok [mkDoc 103 3 3 (mkGroupItem 100 2); mkDoc 106 6 6 (mkGroupItem 104 2)]
  /\ rejected (Routes.getTasksForUser bob)
              (TypeError (CannotReadPropertiesOfUndefined "getGroupsForItem"))
              two_projects_world
  /\ rejected (Routes.getAssigneesForTask bob 107)
              (TypeError (CannotReadPropertiesOfUndefined "getItemsInGroup"))
              two_projects_world
  /\ rejected (Routes.getAssigneesForTask alice 107)
              (NotFoundError (ItemNotInGroup 1 104)) two_projects_world.
Proof.
  destruct (users_are_shown_their_links two_projects_world bob 2 eq_refl)
    as [H1 [H2 [H3 _]]].
  destruct (users_are_shown_their_links two_projects_world alice 1 eq_refl)
    as [_ [_ [_ H4]]].
  split; [exact H1|]. split; [exact H2|]. split.
  - apply (H3 107 (mkDoc 107 7 7 (mkTask "water" 104 None false)) eq_refl).
    exists (mkDoc 106 6 6 (mkGroupItem 104 2)). vm_compute. auto 10.
  - apply (H4 107 (mkDoc 107 7 7 (mkTask "water" 104 None false)) eq_refl).
    apply not_linked_by_find. vm_compute. reflexivity.
Defined.
